(** * hawkBit DDI client of rauc-hawkbit-updater: a shallow embedding

    This development models [src/hawkbit-client.c]: the status-envelope
    builder, the REST transport's header selection, the polling tick, the
    deployment intake, the download worker and the installer bridge.

    The C code talks to libcurl, json-glib, glibc and the file system.  These
    collaborators are represented by an environment record ([Env]) whose
    answers may depend on everything the client did so far, and every effect
    of the client is recorded in a chronological trace of [Event]s. *)

From Stdlib Require Import ZArith List String Ascii Bool Lia DecimalString.
Import ListNotations.

Local Open Scope string_scope.
Local Open Scope Z_scope.

(** ** Strings *)

(** [contains s sub]: [sub] occurs in [s] as a contiguous run of bytes. *)
Definition contains (s sub : string) : Prop :=
  exists pre post, s = pre ++ sub ++ post.

(** Decimal rendering of an integer, as printf's [%ld] does. *)
Definition string_of_Z (z : Z) : string :=
  NilZero.string_of_int (Z.to_int z).

(** ** JSON values (json-glib's [JsonNode]) *)

#[warnings="-register-all"]
Inductive JsonNode : Type :=
| JsonNull
| JsonBool (b : bool)
| JsonInt (n : Z)
| JsonString (s : string)
| JsonArray (elems : list JsonNode)
| JsonObject (members : list (string * JsonNode)).

(** Members of a json-glib object keep insertion order and have unique names. *)
Fixpoint json_object_get_member (name : string) (ms : list (string * JsonNode))
  : option JsonNode :=
  match ms with
  | [] => None
  | (k, v) :: rest =>
      if String.eqb k name then Some v else json_object_get_member name rest
  end.

(** [json_object_set_member]: replaces the value of an existing member in
    place, otherwise appends the member. *)
Fixpoint json_object_set_member (ms : list (string * JsonNode)) (name : string)
  (v : JsonNode) : list (string * JsonNode) :=
  match ms with
  | [] => [(name, v)]
  | (k, w) :: rest =>
      if String.eqb k name then (k, v) :: rest
      else (k, w) :: json_object_set_member rest name v
  end.

(** A JSONPath of the only shape the client uses, [$.a.b.c], is the list of
    its member names. *)
Definition JsonPath := list string.

Fixpoint json_path_query (path : JsonPath) (node : JsonNode) : option JsonNode :=
  match path with
  | [] => Some node
  | name :: rest =>
      match node with
      | JsonObject ms =>
          match json_object_get_member name ms with
          | Some child => json_path_query rest child
          | None => None
          end
      | _ => None
      end
  end.

(** *** The helpers of json-helper.h

    [json_get_string], [json_get_int], [json_get_array] and [json_contains]
    are declared in json-helper.h; their implementation is not part of the
    sources at hand.  The root is optional because [json_parser_get_root] is
    also applied to a parser that was never created (empty response body). *)

(** Modelled from the spec: [json_contains] is missing.  The spec tests
    whether the "response contains" a link; the helper is true iff the path
    leads to a node. *)
Definition json_contains (root : option JsonNode) (path : JsonPath) : bool :=
  match root with
  | Some node => match json_path_query path node with Some _ => true | None => false end
  | None => false
  end.

(** Modelled from the spec: [json_get_string] is missing.  The spec
    "extracts" a field that may be "missing"; the helper yields the string
    at the path, and NULL when there is none. *)
Definition json_get_string (root : option JsonNode) (path : JsonPath) : option string :=
  match root with
  | Some node =>
      match json_path_query path node with
      | Some (JsonString s) => Some s
      | _ => None
      end
  | None => None
  end.

(** Modelled from the spec: [json_get_array] is missing.  It yields the
    array at the path ([deployment.chunks], [artifacts]), and NULL when there
    is none. *)
Definition json_get_array (root : option JsonNode) (path : JsonPath)
  : option (list JsonNode) :=
  match root with
  | Some node =>
      match json_path_query path node with
      | Some (JsonArray l) => Some l
      | _ => None
      end
  | None => None
  end.

(** Modelled from the spec: [json_get_int] is missing.  It yields the
    integer at the path (the artifact's [size]); what it returns when there
    is none is not known and is left as the parameter [absent]. *)
Definition json_get_int (absent : Z) (root : option JsonNode) (path : JsonPath) : Z :=
  match root with
  | Some node =>
      match json_path_query path node with
      | Some (JsonInt n) => n
      | _ => absent
      end
  | None => absent
  end.

(** ** json-glib's [JsonBuilder]

    The builder is a stack of containers under construction.  An object frame
    remembers the member name announced by [json_builder_set_member_name];
    a value may only be added to an array or to an object with a pending
    name, and a call made in the wrong mode leaves the builder unchanged
    (json-glib's [g_return_val_if_fail]). *)

Inductive Frame : Type :=
| FObject (members : list (string * JsonNode)) (pending : option string)
| FArray (elems : list JsonNode).

Record JsonBuilder : Type := mkBuilder {
  stack : list Frame;
  root : option JsonNode
}.

Definition json_builder_new : JsonBuilder := mkBuilder [] None.

(** Hand a finished value to the innermost open container, or make it the
    root when none is open. *)
Definition builder_add_value (v : JsonNode) (b : JsonBuilder) : JsonBuilder :=
  match stack b with
  | [] => mkBuilder [] (Some v)
  | FObject ms (Some name) :: fs =>
      mkBuilder (FObject (json_object_set_member ms name v) None :: fs) (root b)
  | FObject _ None :: _ => b
  | FArray es :: fs => mkBuilder (FArray (es ++ [v]) :: fs) (root b)
  end.

Definition valid_add_mode (b : JsonBuilder) : bool :=
  match stack b with
  | FObject _ (Some _) :: _ => true
  | FArray _ :: _ => true
  | _ => false
  end.

Definition builder_can_begin (b : JsonBuilder) : bool :=
  match root b with
  | Some _ => false
  | None => match stack b with [] => true | _ => valid_add_mode b end
  end.

Definition json_builder_begin_object (b : JsonBuilder) : JsonBuilder :=
  if builder_can_begin b then mkBuilder (FObject [] None :: stack b) (root b) else b.

Definition json_builder_begin_array (b : JsonBuilder) : JsonBuilder :=
  if builder_can_begin b then mkBuilder (FArray [] :: stack b) (root b) else b.

Definition json_builder_set_member_name (name : string) (b : JsonBuilder) : JsonBuilder :=
  match stack b with
  | FObject ms None :: fs => mkBuilder (FObject ms (Some name) :: fs) (root b)
  | _ => b
  end.

Definition json_builder_add_string_value (v : string) (b : JsonBuilder) : JsonBuilder :=
  if valid_add_mode b then builder_add_value (JsonString v) b else b.

Definition json_builder_end_object (b : JsonBuilder) : JsonBuilder :=
  match stack b with
  | FObject ms None :: fs => builder_add_value (JsonObject ms) (mkBuilder fs (root b))
  | _ => b
  end.

Definition json_builder_end_array (b : JsonBuilder) : JsonBuilder :=
  match stack b with
  | FArray es :: fs => builder_add_value (JsonArray es) (mkBuilder fs (root b))
  | _ => b
  end.

Definition json_builder_get_root (b : JsonBuilder) : option JsonNode := root b.

(** A [GHashTable] of strings, given by the sequence of entries its iterator
    yields; [None] is the NULL pointer. *)
Definition GHashTable := list (string * string).

(** The [while (g_hash_table_iter_next ...)] loop of [json_build_status]. *)
Fixpoint add_data_members (entries : GHashTable) (b : JsonBuilder) : JsonBuilder :=
  match entries with
  | [] => b
  | (key, value) :: rest =>
      add_data_members rest
        (json_builder_add_string_value value (json_builder_set_member_name key b))
  end.

(** Forward composition, to list builder calls in source order. *)
Definition then_ {A : Type} (f g : A -> A) : A -> A := fun a => g (f a).
Infix ">>" := then_ (at level 50, left associativity).

Definition when_some {A B : Type} (o : option A) (f : A -> B -> B) : B -> B :=
  match o with
  | Some a => f a
  | None => fun b => b
  end.

(** [json_build_status]; [timeString] is the [strftime] rendering
    ([%Y%m%dT%H%M%S]) of the UTC time read at the call. *)
Definition json_build_status (timeString : string) (id detail : option string)
  (result execution : string) (data : option GHashTable) : JsonBuilder -> JsonBuilder :=
  json_builder_begin_object
  >> when_some id (fun id =>
       json_builder_set_member_name "id" >> json_builder_add_string_value id)
  >> json_builder_set_member_name "time"
  >> json_builder_add_string_value timeString
  >> json_builder_set_member_name "status"
  >> json_builder_begin_object
  >> json_builder_set_member_name "result"
  >> json_builder_begin_object
  >> json_builder_set_member_name "finished"
  >> json_builder_add_string_value result
  >> json_builder_end_object
  >> json_builder_set_member_name "execution"
  >> json_builder_add_string_value execution
  >> when_some detail (fun detail =>
       json_builder_set_member_name "details"
       >> json_builder_begin_array
       >> json_builder_add_string_value detail
       >> json_builder_end_array)
  >> json_builder_end_object
  >> when_some data (fun data =>
       json_builder_set_member_name "data"
       >> json_builder_begin_object
       >> add_data_members data
       >> json_builder_end_object)
  >> json_builder_end_object.

(** The envelope a fresh builder holds after [json_build_status]. *)
Definition status_envelope (timeString : string) (id detail : option string)
  (result execution : string) (data : option GHashTable) : option JsonNode :=
  json_builder_get_root
    (json_build_status timeString id detail result execution data json_builder_new).

(** ** Configuration, artifacts and errors *)

(** [enum HTTPMethod], in the order of [HTTPMethod_STRING]. *)
Inductive HTTPMethod : Type := GET | HEAD | PUT | POST | PATCH | DELETE.

(** Modelled from the spec: the declaration of [Config] (a header that is
    not part of the sources at hand) is missing.  These are the fields
    hawkbit-client.c reads, which are those of the spec's data model; a
    pointer-valued field that the code tests against NULL is an [option]. *)
Record Config : Type := mkConfig {
  hawkbit_server : string;
  ssl : bool;
  ssl_verify : bool;
  tenant_id : string;
  controller_id : string;
  auth_token : option string;
  gateway_token : option string;
  bundle_download_location : string;
  connect_timeout : Z;
  timeout : Z;
  retry_wait : Z;
  post_update_reboot : bool;
  device : option GHashTable
}.

(** Modelled from the spec: the declaration of [struct artifact] is
    missing.  Name, version, declared size, declared SHA-1, download URL and
    feedback URL, as hawkbit-client.c fills them; every string but the
    feedback URL is a [gchar *] that may be NULL. *)
Record artifact : Type := mkArtifact {
  name : option string;
  version : option string;
  size : Z;
  download_url : option string;
  feedback_url : string;
  sha1 : option string
}.

(** A [GError]: domain quark, code, message. *)
Record GError : Type := mkGError {
  domain : Z;
  code : Z;
  message : string
}.

Definition g_error_matches (e : GError) (dom c : Z) : bool :=
  (domain e =? dom) && (code e =? c).

(** glibc prints a NULL [%s] argument as [(null)]. *)
Definition printf_s (s : option string) : string :=
  match s with
  | Some s => s
  | None => "(null)"
  end.

(** [g_strcmp0]: NULL-safe comparison; only (in)equality is used. *)
Definition g_strcmp0_differs (a b : option string) : bool :=
  match a, b with
  | None, None => false
  | Some x, Some y => negb (String.eqb x y)
  | _, _ => true
  end.

(** ** Effects *)

Inductive LogLevel : Type := LDebug | LMessage | LWarning | LCritical.

Inductive Event : Type :=
| EvLog (lvl : LogLevel) (msg : string)
| EvLogJson (lvl : LogLevel) (what : string) (body : JsonNode)
| EvRequest (method : HTTPMethod) (url : string) (headers : list string)
    (body : option JsonNode)
| EvDownload (url : option string) (file : string) (headers : list string)
| EvStoreActionId (v : option string)
| EvFree (p : option string)
| EvArtifactFree (a : artifact)
| EvRemove (path : string)
| EvThreadJoin
| EvThreadNew (a : artifact)
| EvSoftwareReady (file : string)
| EvSync
| EvReboot
| EvLoopQuit.

(** What [curl_easy_perform] left in the response buffer of [rest_request]. *)
Inductive Payload : Type :=
| PayloadEmpty
| PayloadJson (text : string) (node : JsonNode)
| PayloadBad (text : string) (err : GError).

Definition payload_text (p : Payload) : string :=
  match p with
  | PayloadEmpty => ""
  | PayloadJson t _ => t
  | PayloadBad t _ => t
  end.

Record CurlReply : Type := mkReply {
  curl_res : Z;
  curl_strerror : string;
  http_code : Z;
  payload : Payload
}.

Definition CURLE_OK : Z := 0.
Definition CURLE_FAILED_INIT : Z := 2.

(** Outcome of the transfer in [get_binary]: [fopen] failed, or the transfer
    ran and left a CURLcode, a status, the digest of the bytes written and
    the average speed in bytes per second. *)
Inductive DownloadReply : Type :=
| FopenFailed
| Transferred (res : Z) (strerror : string) (http : Z) (sha1sum : string) (speed : Z).

(** [struct tm], the three fields [json_get_sleeptime] reads. *)
Record tm : Type := mkTm {
  tm_sec : Z;
  tm_min : Z;
  tm_hour : Z
}.

(** The collaborators.  Each answer is a function of the trace so far, so
    the server, the clock and the file system may behave differently at each
    call.  The last fields are identifiers whose values come from headers
    that are not part of the sources at hand or from GLib at run time. *)
Record Env : Type := mkEnv {
  curl_perform : list Event -> HTTPMethod -> string -> CurlReply;
  curl_download : list Event -> option string -> string -> DownloadReply;
  current_time : list Event -> string;
  statvfs_dirname : list Event -> string -> string + Z * Z;
  g_remove_ok : list Event -> string -> bool;
  reboot_error : list Event -> option string;
  stack_tm : list Event -> tm;
  json_int_absent : Z;
  RHU_HAWKBIT_CLIENT_ERROR : Z;
  RHU_HAWKBIT_CLIENT_CURL_ERROR : Z;
  RHU_HAWKBIT_CLIENT_HTTP_ERROR : Z;
  G_FILE_ERROR : Z;
  RHU_HAWKBIT_CLIENT_ERROR_ALREADY_IN_PROGRESS : Z;
  RHU_HAWKBIT_CLIENT_ERROR_JSON_RESPONSE_PARSE : Z;
  G_FILE_ERROR_FAILED : Z
}.

(** The mutable state of the process: the two static variables
    [action_id] and [thread_download], whether a file exists at the bundle
    download location, whether the system went down for reboot, and the trace. *)
Record State : Type := mkState {
  action_id : option string;
  thread_download : option artifact;
  bundle_exists : bool;
  rebooted : bool;
  trace : list Event
}.

(** [ClientData]; [res] is indeterminate until the callback assigns it, and
    [loop_running] stands for the [GMainLoop]. *)
Record ClientData : Type := mkClientData {
  loop_running : bool;
  res : option Z;
  hawkbit_interval_check_sec : Z;
  last_run_sec : Z
}.

Definition G_SOURCE_CONTINUE : bool := true.
Definition G_SOURCE_REMOVE : bool := false.

(** *** A state monad over [State] *)

Definition M (A : Type) : Type := State -> A * State.

Definition ret {A : Type} (a : A) : M A := fun st => (a, st).

Definition bind {A B : Type} (m : M A) (k : A -> M B) : M B :=
  fun st => let (a, st') := m st in k a st'.

Notation "x <- c1 ;; c2" := (bind c1 (fun x => c2))
  (at level 61, c1 at next level, right associativity).
Notation "c1 ;; c2" := (bind c1 (fun _ => c2))
  (at level 61, right associativity).

Definition emit (e : Event) : M unit :=
  fun st => (tt, mkState (action_id st) (thread_download st) (bundle_exists st)
                   (rebooted st) (trace st ++ [e])).

Definition ask {A : Type} (q : list Event -> A) : M A :=
  fun st => (q (trace st), st).

Definition g_log (lvl : LogLevel) (msg : string) : M unit := emit (EvLog lvl msg).

Definition load_action_id : M (option string) := fun st => (action_id st, st).

Definition store_action_id (v : option string) : M unit :=
  fun st => (tt, mkState v (thread_download st) (bundle_exists st) (rebooted st)
                   (trace st ++ [EvStoreActionId v])).

Definition set_thread_download (t : option artifact) : M unit :=
  fun st => (tt, mkState (action_id st) t (bundle_exists st) (rebooted st) (trace st)).

Definition set_bundle_exists (b : bool) : M unit :=
  fun st => (tt, mkState (action_id st) (thread_download st) b (rebooted st) (trace st)).

Definition set_rebooted : M unit :=
  fun st => (tt, mkState (action_id st) (thread_download st) (bundle_exists st) true
                   (trace st)).

Definition when (c : bool) (m : M unit) : M unit := if c then m else ret tt.

Definition is_some {A : Type} (o : option A) : bool :=
  match o with
  | Some _ => true
  | None => false
  end.

(** ** glibc: [strptime] with format [%T], and [printf] conversions *)

Definition is_digit (c : ascii) : bool :=
  ((48 <=? N_of_ascii c) && (N_of_ascii c <=? 57))%N.

Definition digit_value (c : ascii) : Z := Z.of_N (N_of_ascii c) - 48.

Definition digit_char (d : Z) : ascii := ascii_of_N (Z.to_N (48 + d)).

Definition starts_with_digit (s : string) : bool :=
  match s with
  | String c _ => is_digit c
  | EmptyString => false
  end.

Fixpoint skip_spaces (s : string) : string :=
  match s with
  | String c rest => if Ascii.eqb c " " then skip_spaces rest else s
  | EmptyString => s
  end.

(** The do-while loop of glibc's [get_number]: consume a digit, and go on
    while fewer than [n] digits were read, the value can still grow within
    [to], and a digit follows. *)
Fixpoint get_number_digits (n : nat) (to val : Z) (rp : string) : Z * string :=
  match n, rp with
  | S n', String c rest =>
      let val := val * 10 + digit_value c in
      if (0 <? n')%nat && (val * 10 <=? to) && starts_with_digit rest
      then get_number_digits n' to val rest
      else (val, rest)
  | _, _ => (val, rp)
  end.

Definition get_number (from to : Z) (n : nat) (rp : string) : option (Z * string) :=
  let rp := skip_spaces rp in
  if starts_with_digit rp then
    let (val, rp') := get_number_digits n to 0 rp in
    if (val <? from) || (to <? val) then None else Some (val, rp')
  else None.

Definition match_char (c : ascii) (rp : string) : option string :=
  match rp with
  | String d rest => if Ascii.eqb c d then Some rest else None
  | EmptyString => None
  end.

(** [strptime(s, "%T", &time)], i.e. [%H:%M:%S]: each field is stored as soon
    as it is read, so a failure leaves the later fields of [time] as they
    were.  The return value is not used by the client. *)
Definition strptime_T (s : string) (time : tm) : tm :=
  match get_number 0 23 2 s with
  | None => time
  | Some (hour, rp) =>
      let time := mkTm (tm_sec time) (tm_min time) hour in
      match match_char ":" rp with
      | None => time
      | Some rp =>
          match get_number 0 59 2 rp with
          | None => time
          | Some (min, rp) =>
              let time := mkTm (tm_sec time) min (tm_hour time) in
              match match_char ":" rp with
              | None => time
              | Some rp =>
                  match get_number 0 61 2 rp with
                  | None => time
                  | Some (sec, _) => mkTm sec (tm_min time) (tm_hour time)
                  end
              end
          end
      end
  end.

Definition two_digits (n : Z) : string :=
  String (digit_char (n / 10)) (String (digit_char (n mod 10)) EmptyString).

(** The text [HH:MM:SS] for given field values. *)
Definition hms_string (h m s : Z) : string :=
  two_digits h ++ ":" ++ two_digits m ++ ":" ++ two_digits s.

(** [printf("%.2f", (double)speed/(1024*1024))] for [0 <= speed < 2^53]: the
    quotient is exact in binary floating point and is rounded to two
    decimals, ties to even. *)
Definition format_MBps (speed : Z) : string :=
  let n := speed * 100 / 1048576 in
  let r := speed * 100 mod 1048576 in
  let n := if (1048576 <? 2 * r) || ((2 * r =? 1048576) && Z.odd n) then n + 1 else n in
  string_of_Z (n / 100) ++ "." ++ two_digits (n mod 100).

(** ** The client *)

Section Client.

(** The static [hawkbit_config] set by [hawkbit_init], the collaborators, and
    the global [run_once]. *)
Variable hawkbit_config : Config.
Variable env : Env.
Variable run_once : bool.

(** *** Transport *)

(** The header list [rest_request] hands to libcurl. *)
Definition rest_request_headers (has_body : bool) : list string :=
  let headers := ["Accept: application/json;charset=UTF-8"] in
  let token :=
    match auth_token hawkbit_config with
    | Some t => Some ("Authorization: TargetToken " ++ t)
    | None =>
        match gateway_token hawkbit_config with
        | Some g => Some ("Authorization: GatewayToken " ++ g)
        | None => None
        end
    end in
  let headers := match token with Some t => (headers ++ [t])%list | None => headers end in
  if has_body then (headers ++ ["Content-Type: application/json;charset=UTF-8"])%list
  else headers.

(** The header list [get_binary] hands to libcurl. *)
Definition get_binary_headers : list string :=
  let headers := ["Accept: application/octet-stream"] in
  match auth_token hawkbit_config with
  | Some t => (headers ++ [("Authorization: TargetToken " ++ t)%string])%list
  | None =>
      match gateway_token hawkbit_config with
      | Some g => (headers ++ [("Authorization: GatewayToken " ++ g)%string])%list
      | None => headers
      end
  end.

(** [rest_request]: [want_parser] says whether [jsonResponseParser] is
    non-NULL; the result is the error, or the root held by the returned
    parser ([None] when no parser was created). *)
Definition rest_request (method : HTTPMethod) (url : string)
  (jsonRequestBody : option JsonBuilder) (want_parser : bool)
  : M (GError + option JsonNode) :=
  let req_root :=
    match jsonRequestBody with
    | Some b => json_builder_get_root b
    | None => None
    end in
  match req_root with
  | Some r => emit (EvLogJson LDebug "Request body" r)
  | None => ret tt
  end ;;
  emit (EvRequest method url (rest_request_headers (is_some jsonRequestBody)) req_root) ;;
  reply <- ask (fun t => curl_perform env t method url) ;;
  if negb (curl_res reply =? CURLE_OK) then
    ret (inl (mkGError (RHU_HAWKBIT_CLIENT_CURL_ERROR env) (curl_res reply)
                (curl_strerror reply)))
  else if negb (http_code reply =? 200) then
    ret (inl (mkGError (RHU_HAWKBIT_CLIENT_HTTP_ERROR env) (http_code reply)
                ("HTTP request failed: " ++ string_of_Z (http_code reply)
                 ++ "; server response: " ++ payload_text (payload reply))))
  else if want_parser then
    match payload reply with
    | PayloadEmpty => ret (inr None)
    | PayloadBad _ err => ret (inl err)
    | PayloadJson _ node =>
        emit (EvLogJson LDebug "Response body" node) ;;
        ret (inr (Some node))
    end
  else ret (inr None).

(** [get_binary], always called with a non-NULL [sha1sum]: the error, or the
    digest and the speed. *)
Definition get_binary (url : option string) (file : string) (filesize : Z)
  : M (GError + string * Z) :=
  reply <- ask (fun t => curl_download env t url file) ;;
  match reply with
  | FopenFailed =>
      ret (inl (mkGError (G_FILE_ERROR env) (G_FILE_ERROR_FAILED env)
                  ("Failed to open file for download: " ++ file)))
  | Transferred cres strerror http sha1sum speed =>
      set_bundle_exists true ;;
      emit (EvDownload url file get_binary_headers) ;;
      if negb (cres =? CURLE_OK) then
        ret (inl (mkGError (RHU_HAWKBIT_CLIENT_CURL_ERROR env) cres strerror))
      else if negb (http =? 200) then
        ret (inl (mkGError (RHU_HAWKBIT_CLIENT_HTTP_ERROR env) http
                    ("HTTP request failed: " ++ string_of_Z http)))
      else ret (inr (sha1sum, speed))
  end.

Definition succeeded {E A : Type} (r : E + A) : bool :=
  match r with
  | inl _ => false
  | inr _ => true
  end.

(** [feedback] and [feedback_progress]: build the envelope, POST it. *)
Definition feedback (url : string) (id detail : option string)
  (finished execution : string) : M bool :=
  now <- ask (current_time env) ;;
  let builder := json_build_status now id detail finished execution None json_builder_new in
  r <- rest_request POST url (Some builder) false ;;
  ret (succeeded r).

Definition feedback_progress (url : string) (id detail : option string) : M bool :=
  now <- ask (current_time env) ;;
  let builder := json_build_status now id detail "none" "proceeding" None json_builder_new in
  r <- rest_request POST url (Some builder) false ;;
  ret (succeeded r).

(** [json_get_sleeptime]; the local [time] starts out with whatever the
    stack holds. *)
Definition json_get_sleeptime (root : option JsonNode) : M Z :=
  match json_get_string root ["config"; "polling"; "sleep"] with
  | None => ret (retry_wait hawkbit_config)
  | Some sleeptime_str =>
      time <- ask (stack_tm env) ;;
      let time := strptime_T sleeptime_str time in
      ret (tm_sec time + tm_min time * 60 + tm_hour time * 60 * 60)
  end.

(** [build_api_url]; [path] is the already formatted suffix, or [None]. *)
Definition build_api_url (path : option string) : string :=
  (if ssl hawkbit_config then "https" else "http") ++ "://"
  ++ hawkbit_server hawkbit_config ++ "/" ++ tenant_id hawkbit_config
  ++ "/controller/v1/" ++ controller_id hawkbit_config
  ++ match path with
     | Some buffer => "/" ++ buffer
     | None => ""
     end.

Definition feedback_url_for (id : option string) : string :=
  build_api_url (Some ("deploymentBase/" ++ printf_s id ++ "/feedback")).

(** *** Session teardown and the installer bridge *)

Definition hawkbit_progress (msg : option string) : M bool :=
  current <- load_action_id ;;
  match current with
  | Some _ =>
      feedback_progress (feedback_url_for current) current msg ;;
      ret G_SOURCE_REMOVE
  | None => ret G_SOURCE_REMOVE
  end.

Definition identify : M (GError + unit) :=
  g_log LDebug "Identifying ourself to hawkbit server" ;;
  let put_config_data_url := build_api_url (Some "configData") in
  now <- ask (current_time env) ;;
  let builder :=
    json_build_status now None None "success" "closed" (device hawkbit_config)
      json_builder_new in
  r <- rest_request PUT put_config_data_url (Some builder) false ;;
  match r with
  | inl e => ret (inl e)
  | inr _ => ret (inr tt)
  end.

Definition process_artifact_cleanup (a : option artifact) : M unit :=
  match a with
  | None => ret tt
  | Some a => emit (EvArtifactFree a)
  end.

(** [process_deployment_cleanup]: publish NULL, free the old string, then
    remove the bundle file if [g_file_test] finds it. *)
Definition process_deployment_cleanup : M unit :=
  ptr <- load_action_id ;;
  store_action_id None ;;
  emit (EvFree ptr) ;;
  present <- (fun st => (bundle_exists st, st)) ;;
  if present then
    emit (EvRemove (bundle_download_location hawkbit_config)) ;;
    removed <- ask (fun t => g_remove_ok env t (bundle_download_location hawkbit_config)) ;;
    if removed then set_bundle_exists false
    else g_log LDebug ("Failed to delete file: " ++ bundle_download_location hawkbit_config)
  else ret tt.

(** [install_complete_cb]; a successful [reboot] does not return. *)
Definition install_complete_cb (install_success : bool) : M bool :=
  current <- load_action_id ;;
  match current with
  | Some _ =>
      let feedback_url := feedback_url_for current in
      (if install_success then
         g_log LMessage "Software bundle installed successful." ;;
         feedback feedback_url current (Some "Software bundle installed successful.")
           "success" "closed" ;;
         if post_update_reboot hawkbit_config then
           process_deployment_cleanup ;;
           emit EvSync ;;
           emit EvReboot ;;
           failure <- ask (reboot_error env) ;;
           match failure with
           | Some strerror => g_log LCritical ("Failed to reboot: " ++ strerror)
           | None => set_rebooted
           end
         else ret tt
       else
         g_log LCritical "Failed to install software bundle." ;;
         feedback feedback_url current (Some "Failed to install software bundle.")
           "failure" "closed" ;;
         ret tt) ;;
      down <- (fun st => (rebooted st, st)) ;;
      if down then ret G_SOURCE_REMOVE
      else process_deployment_cleanup ;; ret G_SOURCE_REMOVE
  | None => ret G_SOURCE_REMOVE
  end.

(** *** The download worker *)

(** The body of [download_thread]; it reads [action_id] at each feedback. *)
Definition download_thread (a : artifact) : M unit :=
  let file := bundle_download_location hawkbit_config in
  g_log LMessage ("Start downloading: " ++ printf_s (download_url a)) ;;
  r <- get_binary (download_url a) file (size a) ;;
  match r with
  | inl error =>
      let msg := "Download failed: " ++ message error in
      g_log LCritical msg ;;
      id <- load_action_id ;;
      feedback (feedback_url a) id (Some msg) "failure" "closed" ;;
      process_artifact_cleanup (Some a) ;;
      process_deployment_cleanup
  | inr (sha1sum, speed) =>
      let msg := "Download complete. " ++ format_MBps speed ++ " MB/s" in
      id <- load_action_id ;;
      feedback_progress (feedback_url a) id (Some msg) ;;
      g_log LMessage msg ;;
      if g_strcmp0_differs (sha1 a) (Some sha1sum) then
        let msg := "Software: " ++ printf_s (name a) ++ " V" ++ printf_s (version a)
                   ++ ". Invalid checksum: " ++ sha1sum
                   ++ " expected " ++ printf_s (sha1 a) in
        id <- load_action_id ;;
        feedback (feedback_url a) id (Some msg) "failure" "closed" ;;
        g_log LCritical msg ;;
        process_artifact_cleanup (Some a) ;;
        process_deployment_cleanup
      else
        g_log LMessage "File checksum OK." ;;
        id <- load_action_id ;;
        feedback_progress (feedback_url a) id (Some "File checksum OK.") ;;
        process_artifact_cleanup (Some a) ;;
        emit (EvSoftwareReady file)
  end.

(** *** Deployment intake *)

Definition parse_failure : string := "Failed to parse deployment resource.".

(** The [proc_error] exit of [process_deployment]. *)
Definition proc_error (a : option artifact) (error : GError) : M (GError + unit) :=
  process_artifact_cleanup a ;;
  process_deployment_cleanup ;;
  ret (inl error).

Definition parse_error_exit (feedback_url : string) (a : option artifact)
  : M (GError + unit) :=
  id <- load_action_id ;;
  feedback feedback_url id (Some parse_failure) "failure" "closed" ;;
  proc_error a
    (mkGError (RHU_HAWKBIT_CLIENT_ERROR env)
       (RHU_HAWKBIT_CLIENT_ERROR_JSON_RESPONSE_PARSE env) parse_failure).

Definition process_deployment (req_root : option JsonNode) : M (GError + unit) :=
  current <- load_action_id ;;
  match current with
  | Some id =>
      ret (inl (mkGError (RHU_HAWKBIT_CLIENT_ERROR env)
                  (RHU_HAWKBIT_CLIENT_ERROR_ALREADY_IN_PROGRESS env)
                  ("Deployment " ++ id ++ " is already in progress.")))
  | None =>
  match json_get_string req_root ["_links"; "deploymentBase"; "href"] with
  | None =>
      ret (inl (mkGError (RHU_HAWKBIT_CLIENT_ERROR env)
                  (RHU_HAWKBIT_CLIENT_ERROR_JSON_RESPONSE_PARSE env)
                  "Failed to parse deployment base response."))
  | Some deployment =>
  r <- rest_request GET deployment None true ;;
  match r with
  | inl error => ret (inl error)
  | inr resp_root =>
  store_action_id (json_get_string resp_root ["id"]) ;;
  id <- load_action_id ;;
  match id with
  | None => ret (inl (mkGError 1 1 "Failed to parse deployment base response."))
  | Some _ =>
  let feedback_url := feedback_url_for id in
  match json_get_array resp_root ["deployment"; "chunks"] with
  | None | Some [] => parse_error_exit feedback_url None
  | Some (json_chunk :: _) =>
  match json_get_array (Some json_chunk) ["artifacts"] with
  | None | Some [] => parse_error_exit feedback_url None
  | Some (json_artifact :: _) =>
  let url :=
    match json_get_string (Some json_artifact) ["_links"; "download"; "href"] with
    | Some u => Some u
    | None => json_get_string (Some json_artifact) ["_links"; "download-http"; "href"]
    end in
  let a :=
    mkArtifact (json_get_string (Some json_chunk) ["name"])
      (json_get_string (Some json_chunk) ["version"])
      (json_get_int (json_int_absent env) (Some json_artifact) ["size"])
      url feedback_url
      (json_get_string (Some json_artifact) ["hashes"; "sha1"]) in
  match url with
  | None => parse_error_exit feedback_url (Some a)
  | Some u =>
  g_log LMessage
    ("New software ready for download. (Name: " ++ printf_s (name a)
     ++ ", Version: " ++ printf_s (version a)
     ++ ", Size: " ++ string_of_Z (size a) ++ ", URL: " ++ u ++ ")") ;;
  space <- ask (fun t => statvfs_dirname env t (bundle_download_location hawkbit_config)) ;;
  match space with
  | inl strerror =>
      let ierror :=
        mkGError (G_FILE_ERROR env) (G_FILE_ERROR_FAILED env)
          ("Failed to calculate free space for "
           ++ bundle_download_location hawkbit_config ++ ": " ++ strerror) in
      id <- load_action_id ;;
      feedback feedback_url id (Some (message ierror)) "failure" "closed" ;;
      proc_error (Some a) ierror
  | inr (f_bsize, f_bavail) =>
  let freespace := f_bsize * f_bavail in
  if freespace <? size a then
    let msg := "Not enough free space. File size: " ++ string_of_Z (size a)
               ++ ". Free space: " ++ string_of_Z freespace in
    g_log LDebug msg ;;
    id <- load_action_id ;;
    feedback feedback_url id (Some msg) "failure" "closed" ;;
    proc_error (Some a) (mkGError 1 23 msg)
  else
    previous <- (fun st => (thread_download st, st)) ;;
    when (is_some previous) (emit EvThreadJoin) ;;
    emit (EvThreadNew a) ;;
    set_thread_download (Some a) ;;
    ret (inr tt)
  end end end end end end end end.

(** *** The poller *)

(** The [out:] label of [hawkbit_pull_cb]. *)
Definition pull_out (ok : bool) (data : ClientData) : M (bool * ClientData) :=
  if run_once then
    emit EvLoopQuit ;;
    ret (G_SOURCE_REMOVE,
         mkClientData false (Some (if ok then 0 else 1))
           (hawkbit_interval_check_sec data) (last_run_sec data))
  else ret (G_SOURCE_CONTINUE, data).

Definition hawkbit_pull_cb (data : ClientData) : M (bool * ClientData) :=
  let data :=
    mkClientData (loop_running data) (res data) (hawkbit_interval_check_sec data)
      (last_run_sec data + 1) in
  if last_run_sec data <? hawkbit_interval_check_sec data then
    ret (G_SOURCE_CONTINUE, data)
  else
    let data :=
      mkClientData (loop_running data) (res data) (hawkbit_interval_check_sec data) 0 in
    let get_tasks_url := build_api_url None in
    g_log LMessage "Checking for new software..." ;;
    r <- rest_request GET get_tasks_url None true ;;
    match r with
    | inl error =>
        (if g_error_matches error (RHU_HAWKBIT_CLIENT_HTTP_ERROR env) 401 then
           when (is_some (auth_token hawkbit_config))
             (g_log LWarning "Failed to authenticate. Check if auth_token is correct?") ;;
           when (is_some (gateway_token hawkbit_config))
             (g_log LWarning "Failed to authenticate. Check if gateway_token is correct?")
         else
           g_log LWarning
             ("Scheduled check for new software failed: " ++ message error
              ++ " (" ++ string_of_Z (code error) ++ ")")) ;;
        pull_out false
          (mkClientData (loop_running data) (res data) (retry_wait hawkbit_config)
             (last_run_sec data))
    | inr json_root =>
        sleeptime <- json_get_sleeptime json_root ;;
        let data :=
          mkClientData (loop_running data) (res data) sleeptime (last_run_sec data) in
        ok <- (if json_contains json_root ["_links"; "configData"] then
                 r <- identify ;;
                 match r with
                 | inl error => g_log LWarning (message error) ;; ret false
                 | inr _ => ret true
                 end
               else ret true) ;;
        ok <- (if json_contains json_root ["_links"; "deploymentBase"] then
                 r <- process_deployment json_root ;;
                 match r with
                 | inl error =>
                     (if g_error_matches error (RHU_HAWKBIT_CLIENT_ERROR env)
                           (RHU_HAWKBIT_CLIENT_ERROR_ALREADY_IN_PROGRESS env)
                      then g_log LDebug (message error)
                      else g_log LWarning (message error)) ;;
                     ret false
                 | inr _ => ret true
                 end
               else g_log LMessage "No new software." ;; ret ok) ;;
        when (json_contains json_root ["_links"; "cancelAction"])
          (g_log LWarning "cancel action not supported") ;;
        pull_out ok data
    end.

(** [g_main_loop_run] with the one-second timer as its only source: the
    callback is dispatched until the loop is told to quit.  [None] means the
    loop is still running after [fuel] ticks. *)
Fixpoint g_main_loop_run (fuel : nat) (data : ClientData) : M (option ClientData) :=
  match fuel with
  | O => ret None
  | S fuel' =>
      r <- hawkbit_pull_cb data ;;
      if loop_running (snd r) then g_main_loop_run fuel' (snd r)
      else ret (Some (snd r))
  end.

(** [hawkbit_start_service_sync] (built without systemd support): the exit
    code, when the loop ends.  The code is 0 or 1, so the final warning
    for a negative [res] is never printed. *)
Definition hawkbit_start_service_sync (fuel : nat) : M (option Z) :=
  let cdata :=
    mkClientData true None (retry_wait hawkbit_config) (retry_wait hawkbit_config) in
  r <- g_main_loop_run fuel cdata ;;
  match r with
  | Some cdata => ret (res cdata)
  | None => ret None
  end.

End Client.

(** ** Concrete scenarios

    A device [dev01] of tenant [DEFAULT] polling [hawkbit.example], and a
    server whose answers are fixed per endpoint. *)

Definition demo_config (target gateway : option string) (reboot : bool) : Config :=
  mkConfig "hawkbit.example" true true "DEFAULT" "dev01" target gateway
    "/tmp/bundle.raucb" 20 60 60 reboot (Some [("hw", "v1")]).

Definition base_url : string :=
  "https://hawkbit.example/DEFAULT/controller/v1/dev01".

Definition deployment_href : string :=
  "https://hawkbit.example/DEFAULT/controller/v1/dev01/deploymentBase/42".

Definition ok_reply (node : JsonNode) : CurlReply :=
  mkReply CURLE_OK "No error" 200 (PayloadJson "{...}" node).

Definition http_reply (status : Z) : CurlReply :=
  mkReply CURLE_OK "No error" status PayloadEmpty.

Definition polling_sleep (s : string) : string * JsonNode :=
  ("config", JsonObject [("polling", JsonObject [("sleep", JsonString s)])]).

Definition link (rel href : string) : string * JsonNode :=
  (rel, JsonObject [("href", JsonString href)]).

(** Base-poll answers: idle, idle without a polling interval, and one that
    offers deployment 42. *)
Definition base_idle : JsonNode := JsonObject [polling_sleep "00:05:00"].

Definition base_no_sleep : JsonNode := JsonObject [].

Definition base_offer : JsonNode :=
  JsonObject [polling_sleep "00:05:00";
              ("_links", JsonObject [link "deploymentBase" deployment_href])].

Definition sha1_of_empty : string := "da39a3ee5e6b4b0d3255bfef95601890afd80709".
Definition sha1_of_zeros : string := "60cacbf3d72e1e7834203da608037b1bf83b40e8".

Definition json_artifact_42 : JsonNode :=
  JsonObject [("size", JsonInt 1024);
              ("hashes", JsonObject [("sha1", JsonString sha1_of_empty)]);
              ("_links", JsonObject [link "download" "https://hawkbit.example/dl/42"])].

Definition deployment_body : list (string * JsonNode) :=
  [("deployment",
    JsonObject [("chunks",
      JsonArray [JsonObject [("name", JsonString "rootfs");
                             ("version", JsonString "1.0");
                             ("artifacts", JsonArray [json_artifact_42])]])])].

(** The deployment resource, complete and with its [id] left out. *)
Definition deployment_42 : JsonNode :=
  JsonObject (("id", JsonString "42") :: deployment_body).

Definition deployment_without_id : JsonNode := JsonObject deployment_body.

(** A server answering the base poll with [base], the deployment resource
    with [deployment] and everything else with an empty 200; a download
    ending as [dl]; a file system with 1 GiB free on which removing the bundle
    succeeds iff [remove_ok]. *)
Definition demo_env (base deployment : CurlReply) (dl : DownloadReply)
  (remove_ok : bool) : Env :=
  mkEnv
    (fun _ method url =>
       match method with
       | GET => if String.eqb url base_url then base
                else if String.eqb url deployment_href then deployment
                else http_reply 404
       | _ => http_reply 200
       end)
    (fun _ _ _ => dl)
    (fun _ => "20200101T120000")
    (fun _ _ => inr (4096, 262144))
    (fun _ _ => remove_ok)
    (fun _ => Some "Operation not permitted")
    (fun _ => mkTm 7 7 7)
    0
    101 102 103 104 0 1 24.

Definition idle_state : State := mkState None None false false [].

Definition artifact_42 : artifact :=
  mkArtifact (Some "rootfs") (Some "1.0") 1024 (Some "https://hawkbit.example/dl/42")
    (base_url ++ "/deploymentBase/42/feedback") (Some sha1_of_empty).

(** A session for action 42 whose download is under way. *)
Definition busy_state : State :=
  mkState (Some "42") (Some artifact_42) true false [].

Definition due_data : ClientData := mkClientData true None 60 60.

(** A tick that polls after five minutes of waiting on a server-given
    interval. *)
Definition waited_data : ClientData := mkClientData true None 300 299.

(** A server that cannot be reached. *)
Definition unreachable_reply : CurlReply :=
  mkReply 7 "Couldn't connect to server" 0 PayloadEmpty.

(** A server in trouble: it still answers the base poll, but the deployment
    resource it points to yields an internal error. *)
Definition broken_deployment_env : Env :=
  demo_env (ok_reply base_offer) (http_reply 500) FopenFailed true.

(** A download of 1024 zero bytes at 3 MiB/s. *)
Definition zeros_downloaded : DownloadReply :=
  Transferred CURLE_OK "No error" 200 sha1_of_zeros 3145728.

(** Deployment 42 with an empty list of chunks, and with an artifact that
    declares no SHA-1. *)
Definition deployment_without_chunks : JsonNode :=
  JsonObject [("id", JsonString "42");
              ("deployment", JsonObject [("chunks", JsonArray [])])].

Definition deployment_without_sha1 : JsonNode :=
  JsonObject
    [("id", JsonString "42");
     ("deployment",
      JsonObject [("chunks",
        JsonArray [JsonObject
          [("name", JsonString "rootfs");
           ("version", JsonString "1.0");
           ("artifacts",
            JsonArray [JsonObject
              [("size", JsonInt 1024);
               ("_links",
                JsonObject [link "download" "https://hawkbit.example/dl/42"])]])]])])].

(** ** The write callbacks handed to libcurl

    [curl_write_cb] collects the body of a REST response in a [RestPayload];
    [curl_write_to_file_cb] writes the bundle to the open file and feeds the
    checksum.  libcurl calls them once per piece of body it has received. *)

Module Callbacks.

(** [size_t] arithmetic wraps at 2^64. *)
Definition wrap_size_t (n : Z) : Z := n mod 2 ^ 64.

(** Modelled from the spec: the declaration of [RestPayload] is missing.
    "An in-memory response buffer (byte vector with length)": the allocated
    bytes and the [size] field. *)
Record RestPayload : Type := mkRestPayload {
  payload : list Byte.byte;
  size : Z
}.

(** The buffer [rest_request] starts with: [buffer_size] zero bytes
    ([g_malloc0] of [DEFAULT_CURL_REQUEST_BUFFER_SIZE]) and size 0. *)
Definition fresh_payload (buffer_size : nat) : RestPayload :=
  mkRestPayload (repeat Byte.x00 buffer_size) 0.

(** [curl_write_cb]: grow the buffer to [size + real_size + 1] bytes, copy
    [real_size] bytes of [content] behind the first [size] bytes, terminate
    with NUL, and report [real_size] bytes as taken.  [item_size] is the
    callback's [size] argument. *)
Definition curl_write_cb (content : list Byte.byte) (item_size nmemb : Z)
  (p : RestPayload) : Z * RestPayload :=
  let real_size := wrap_size_t (item_size * nmemb) in
  (real_size,
   mkRestPayload
     (firstn (Z.to_nat (size p)) (payload p)
      ++ firstn (Z.to_nat real_size) content ++ [Byte.x00])
     (wrap_size_t (size p + real_size))).

(** One call of a write callback: the bytes at [ptr], and the [size] and
    [nmemb] arguments. *)
Record Delivery : Type := mkDelivery {
  ptr : list Byte.byte;
  item_size : Z;
  nmemb : Z
}.

(** The callback applied to successive deliveries: what it returned each
    time, and the buffer in the end. *)
Fixpoint receive (ds : list Delivery) (p : RestPayload) : list Z * RestPayload :=
  match ds with
  | [] => ([], p)
  | d :: rest =>
      let (taken, p') := curl_write_cb (ptr d) (item_size d) (nmemb d) p in
      let (takens, p'') := receive rest p' in
      (taken :: takens, p'')
  end.

(** Modelled from the spec: the declaration of [struct get_binary] is
    missing.  The open file (given by the bytes written through it so far),
    the expected size, the count of items written and the checksum context
    (given by the bytes fed to it so far), NULL when no checksum is wanted. *)
Record struct_get_binary : Type := mkGetBinary {
  fp : list Byte.byte;
  filesize : Z;
  written : Z;
  checksum : option (list Byte.byte)
}.

(** [fwrite(ptr, size, nmemb, fp)] on a stream that takes [accepted] whole
    items of this call (fewer than [nmemb] when the disk is full): the number
    of items written and the file afterwards. *)
Definition fwrite (data : list Byte.byte) (item_size nmemb accepted : Z)
  (file : list Byte.byte) : Z * list Byte.byte :=
  let items := Z.max 0 (Z.min accepted nmemb) in
  (items, (file ++ firstn (Z.to_nat (items * item_size)) data)%list).

(** [curl_write_to_file_cb]: write to the file, add the number of items
    written to [written], feed as many bytes as items were written to the
    checksum, and report the number of items as taken. *)
Definition curl_write_to_file_cb (data : list Byte.byte) (item_size nmemb accepted : Z)
  (gb : struct_get_binary) : Z * struct_get_binary :=
  let (items, file) := fwrite data item_size nmemb accepted (fp gb) in
  (items,
   mkGetBinary file (filesize gb) (wrap_size_t (written gb + items))
     (match checksum gb with
      | Some fed => Some (fed ++ firstn (Z.to_nat items) data)%list
      | None => None
      end)).

(** The file callback applied to successive deliveries, the [i]-th of which
    the stream accepts [accepted i] items of. *)
Fixpoint store (ds : list (Delivery * Z)) (gb : struct_get_binary)
  : list Z * struct_get_binary :=
  match ds with
  | [] => ([], gb)
  | (d, accepted) :: rest =>
      let (taken, gb') :=
        curl_write_to_file_cb (ptr d) (item_size d) (nmemb d) accepted gb in
      let (takens, gb'') := store rest gb' in
      (taken :: takens, gb'')
  end.

(** The context [get_binary] starts the transfer with. *)
Definition fresh_download (expected : Z) : struct_get_binary :=
  mkGetBinary [] expected 0 (Some []).

End Callbacks.

(** ** Vocabulary of the properties

    Closed forms and event lists used to state what the client does. *)

(** *** The status envelope in closed form *)

Definition string_member (ms : list (string * JsonNode)) (entry : string * string)
  : list (string * JsonNode) :=
  json_object_set_member ms (fst entry) (JsonString (snd entry)).

(** The members of the ["data"] object for a table iterated as [entries]. *)
Definition data_members (entries : GHashTable) : list (string * JsonNode) :=
  fold_left string_member entries [].

Definition status_node (detail : option string) (result execution : string) : JsonNode :=
  JsonObject
    ([("result", JsonObject [("finished", JsonString result)]);
      ("execution", JsonString execution)]
     ++ match detail with
        | Some d => [("details", JsonArray [JsonString d])]
        | None => []
        end).

Definition envelope_node (timeString : string) (id detail : option string)
  (result execution : string) (data : option GHashTable) : JsonNode :=
  JsonObject
    (match id with
     | Some i => [("id", JsonString i)]
     | None => []
     end
     ++ [("time", JsonString timeString); ("status", status_node detail result execution)]
     ++ match data with
        | Some entries => [("data", JsonObject (data_members entries))]
        | None => []
        end).

(** *** Authorization headers *)

Definition is_authorization (header : string) : bool :=
  String.prefix "Authorization:" header.

(** The Authorization headers the configuration calls for. *)
Definition expected_authorization (cfg : Config) : list string :=
  match auth_token cfg, gateway_token cfg with
  | Some t, _ => ["Authorization: TargetToken " ++ t]
  | None, Some g => ["Authorization: GatewayToken " ++ g]
  | None, None => []
  end.

(** *** Traces *)

Arguments process_deployment : simpl never.
Arguments identify : simpl never.
Arguments rest_request : simpl never.
Arguments feedback : simpl never.
Arguments feedback_progress : simpl never.
Arguments process_deployment_cleanup : simpl never.
Arguments get_binary : simpl never.
Arguments json_build_status : simpl never.
Arguments build_api_url : simpl never.

Definition append_trace (st : State) (evs : list Event) : State :=
  mkState (action_id st) (thread_download st) (bundle_exists st) (rebooted st)
    (trace st ++ evs).

(** What [rest_request] records before the transfer ... *)
Definition request_events (cfg : Config) (method : HTTPMethod) (url : string)
  (body : option JsonBuilder) : list Event :=
  let req_root :=
    match body with
    | Some b => json_builder_get_root b
    | None => None
    end in
  match req_root with
  | Some r => [EvLogJson LDebug "Request body" r]
  | None => []
  end ++ [EvRequest method url (rest_request_headers cfg (is_some body)) req_root].

(** ... and after it. *)
Definition response_events (r : GError + option JsonNode) : list Event :=
  match r with
  | inr (Some node) => [EvLogJson LDebug "Response body" node]
  | _ => []
  end.

(** The two events a feedback POST leaves in the trace. *)
Definition feedback_events (cfg : Config) (now url : string) (id detail : option string)
  (finished execution : string) : list Event :=
  let envelope := envelope_node now id detail finished execution None in
  [EvLogJson LDebug "Request body" envelope;
   EvRequest POST url (rest_request_headers cfg true) (Some envelope)].

(** The events of session teardown in a state with trace [t], id [id] and a
    bundle file that is present iff [present]. *)
Definition cleanup_events (cfg : Config) (env : Env) (t : list Event)
  (id : option string) (present : bool) : list Event :=
  let path := bundle_download_location cfg in
  [EvStoreActionId None; EvFree id]
  ++ (if present then
        EvRemove path
        :: (if g_remove_ok env (t ++ [EvStoreActionId None; EvFree id; EvRemove path]) path
            then []
            else [EvLog LDebug ("Failed to delete file: " ++ path)])
      else []).

(** Whether the bundle file is still there after teardown. *)
Definition bundle_survives (cfg : Config) (env : Env) (st : State) : bool :=
  let path := bundle_download_location cfg in
  bundle_exists st
  && negb (g_remove_ok env
             (trace st ++ [EvStoreActionId None; EvFree (action_id st); EvRemove path])
             path).

(** *** The polling tick *)

(** The tick reaches the server: the incremented counter is not below the
    interval. *)
Definition tick_is_due (data : ClientData) : Prop :=
  hawkbit_interval_check_sec data <= last_run_sec data + 1.

(** The base GET as [hawkbit_pull_cb] performs it: outcome and state. *)
Definition base_poll (cfg : Config) (env : Env) (st : State)
  : (GError + option JsonNode) * State :=
  rest_request cfg env GET (build_api_url cfg None) None true
    (snd (g_log LMessage "Checking for new software..." st)).

(** One step of symbolic execution through a monadic bind or a branch. *)
Ltac run_step :=
  match goal with
  | |- context [let (_, _) := ?m in _] => destruct m as [? ?] eqn:?
  | |- context [match ?x with inl _ => _ | inr _ => _ end] => destruct x as [? | ?]
  | |- context [if ?c then _ else _] => destruct c eqn:?
  end.

(** The three blocks of [hawkbit_pull_cb] that follow a successful base
    poll, each with the value it leaves in the local [res]. *)
Definition identify_phase (cfg : Config) (env : Env) (json_root : option JsonNode)
  : M bool :=
  if json_contains json_root ["_links"; "configData"] then
    r <- identify cfg env ;;
    match r with
    | inl error => g_log LWarning (message error) ;; ret false
    | inr _ => ret true
    end
  else ret true.

Definition deployment_phase (cfg : Config) (env : Env) (json_root : option JsonNode)
  (ok : bool) : M bool :=
  if json_contains json_root ["_links"; "deploymentBase"] then
    r <- process_deployment cfg env json_root ;;
    match r with
    | inl error =>
        (if g_error_matches error (RHU_HAWKBIT_CLIENT_ERROR env)
              (RHU_HAWKBIT_CLIENT_ERROR_ALREADY_IN_PROGRESS env)
         then g_log LDebug (message error)
         else g_log LWarning (message error)) ;;
        ret false
    | inr _ => ret true
    end
  else g_log LMessage "No new software." ;; ret ok.

Definition cancel_phase (json_root : option JsonNode) : M unit :=
  when (json_contains json_root ["_links"; "cancelAction"])
    (g_log LWarning "cancel action not supported").

(** What the tick records after the deployment block: the cancel warning,
    and the loop's end in one-shot mode. *)
Definition closing_events (run_once : bool) (json_root : option JsonNode) : list Event :=
  (if json_contains json_root ["_links"; "cancelAction"]
   then [EvLog LWarning "cancel action not supported"]
   else [])
  ++ (if run_once then [EvLoopQuit] else []).

Definition already_in_progress (env : Env) (id : string) : GError :=
  mkGError (RHU_HAWKBIT_CLIENT_ERROR env)
    (RHU_HAWKBIT_CLIENT_ERROR_ALREADY_IN_PROGRESS env)
    ("Deployment " ++ id ++ " is already in progress.").

(** The events of [identify] when the clock reads [now]. *)
Definition identify_events (cfg : Config) (now : string) : list Event :=
  let envelope := envelope_node now None None "success" "closed" (device cfg) in
  [EvLog LDebug "Identifying ourself to hawkbit server";
   EvLogJson LDebug "Request body" envelope;
   EvRequest PUT (build_api_url cfg (Some "configData")) (rest_request_headers cfg true)
     (Some envelope)].

(** The [ClientData] that [hawkbit_start_service_sync] starts from. *)
Definition initial_cdata (cfg : Config) : ClientData :=
  mkClientData true None (retry_wait cfg) (retry_wait cfg).

(** *** The download worker *)

(** The transfer as [download_thread] performs it: outcome and state. *)
Definition download_outcome (cfg : Config) (env : Env) (a : artifact) (st : State)
  : (GError + string * Z) * State :=
  get_binary cfg env (download_url a) (bundle_download_location cfg) (size a)
    (snd (g_log LMessage ("Start downloading: " ++ printf_s (download_url a)) st)).

(** The detail string of the checksum failure. *)
Definition checksum_message (a : artifact) (sha1sum : string) : string :=
  "Software: " ++ printf_s (name a) ++ " V" ++ printf_s (version a)
  ++ ". Invalid checksum: " ++ sha1sum ++ " expected " ++ printf_s (sha1 a).

(** A request whose envelope closes the action. *)
Definition is_closed_feedback (e : Event) : bool :=
  match e with
  | EvRequest POST _ _ (Some body) =>
      match json_get_string (Some body) ["status"; "execution"] with
      | Some execution => String.eqb execution "closed"
      | None => false
      end
  | _ => false
  end.

Definition is_software_ready (e : Event) : bool :=
  match e with
  | EvSoftwareReady _ => true
  | _ => false
  end.

Definition is_post (e : Event) : bool :=
  match e with
  | EvRequest POST _ _ _ => true
  | _ => false
  end.

Definition is_thread_new (e : Event) : bool :=
  match e with
  | EvThreadNew _ => true
  | _ => false
  end.

(** *** Deployment intake *)

(** What [process_deployment] takes from the deployment resource: the first
    chunk, its first artifact, and that artifact's download link, HTTPS
    before HTTP. *)
Definition first_chunk (resp_root : option JsonNode) : option JsonNode :=
  match json_get_array resp_root ["deployment"; "chunks"] with
  | Some (json_chunk :: _) => Some json_chunk
  | _ => None
  end.

Definition first_artifact (resp_root : option JsonNode) : option JsonNode :=
  match first_chunk resp_root with
  | Some json_chunk =>
      match json_get_array (Some json_chunk) ["artifacts"] with
      | Some (json_artifact :: _) => Some json_artifact
      | _ => None
      end
  | None => None
  end.

Definition advertised_download_url (resp_root : option JsonNode) : option string :=
  match first_artifact resp_root with
  | Some json_artifact =>
      match json_get_string (Some json_artifact) ["_links"; "download"; "href"] with
      | Some u => Some u
      | None => json_get_string (Some json_artifact) ["_links"; "download-http"; "href"]
      end
  | None => None
  end.

Definition parse_error (env : Env) : GError :=
  mkGError (RHU_HAWKBIT_CLIENT_ERROR env)
    (RHU_HAWKBIT_CLIENT_ERROR_JSON_RESPONSE_PARSE env) parse_failure.

(** The header list an event hands to libcurl, if it is a transfer. *)
Definition event_headers (e : Event) : option (list string) :=
  match e with
  | EvRequest _ _ headers _ => Some headers
  | EvDownload _ _ headers => Some headers
  | _ => None
  end.

(** A transfer carries exactly the Authorization headers the configuration
    calls for; other events carry none. *)
Definition authorized_as_configured (cfg : Config) (e : Event) : Prop :=
  match event_headers e with
  | Some headers => filter is_authorization headers = expected_authorization cfg
  | None => True
  end.

(** ** Vocabulary of the further properties *)

(** *** Ticks *)

(** [k] consecutive dispatches of the timer callback. *)
Fixpoint run_ticks (cfg : Config) (env : Env) (run_once : bool) (k : nat)
  (data : ClientData) : M ClientData :=
  match k with
  | O => ret data
  | S k' =>
      r <- hawkbit_pull_cb cfg env run_once data ;;
      run_ticks cfg env run_once k' (snd r)
  end.

(** The warnings of [hawkbit_pull_cb] for a failed base GET. *)
Definition poll_failure_warnings (cfg : Config) (env : Env) (error : GError)
  : list Event :=
  if g_error_matches error (RHU_HAWKBIT_CLIENT_HTTP_ERROR env) 401 then
    (if is_some (auth_token cfg)
     then [EvLog LWarning "Failed to authenticate. Check if auth_token is correct?"]
     else [])
    ++ (if is_some (gateway_token cfg)
        then [EvLog LWarning "Failed to authenticate. Check if gateway_token is correct?"]
        else [])
  else
    [EvLog LWarning
       ("Scheduled check for new software failed: " ++ message error
        ++ " (" ++ string_of_Z (code error) ++ ")")].

(** Events that belong to polling and identifying: log lines, GET and PUT
    requests, and the end of the loop.  Anything that touches a session (a
    feedback POST, a store to the action ID, a worker, the bundle file, a
    reboot) is not among them. *)
Definition is_poll_event (e : Event) : bool :=
  match e with
  | EvLog _ _ => true
  | EvLogJson _ _ _ => true
  | EvRequest GET _ _ _ => true
  | EvRequest PUT _ _ _ => true
  | EvLoopQuit => true
  | _ => false
  end.


(** The reply [rest_request] gets for its transfer. *)
Definition rest_reply (cfg : Config) (env : Env) (method : HTTPMethod) (url : string)
  (body : option JsonBuilder) (st : State) : CurlReply :=
  curl_perform env (trace st ++ request_events cfg method url body) method url.

(** How [rest_request] classifies the reply of its transfer. *)
Definition rest_outcome (env : Env) (want_parser : bool) (reply : CurlReply)
  : GError + option JsonNode :=
  if negb (curl_res reply =? CURLE_OK) then
    inl (mkGError (RHU_HAWKBIT_CLIENT_CURL_ERROR env) (curl_res reply)
           (curl_strerror reply))
  else if negb (http_code reply =? 200) then
    inl (mkGError (RHU_HAWKBIT_CLIENT_HTTP_ERROR env) (http_code reply)
           ("HTTP request failed: " ++ string_of_Z (http_code reply)
            ++ "; server response: " ++ payload_text (payload reply)))
  else if want_parser then
    match payload reply with
    | PayloadEmpty => inr None
    | PayloadBad _ err => inl err
    | PayloadJson _ node => inr (Some node)
    end
  else inr None.

(** The binding of [key] that a table iterated as [entries] ends up with:
    the last one. *)
Definition last_binding (key : string) (entries : GHashTable) : option string :=
  fold_left (fun found entry => if String.eqb (fst entry) key then Some (snd entry) else found)
    entries None.

(** *** The installer bridge *)

(** What [install_complete_cb] logs and reports for an outcome: level and
    text of the log line (also the feedback detail), and the result sent. *)
Definition completion_level (install_success : bool) : LogLevel :=
  if install_success then LMessage else LCritical.

Definition completion_text (install_success : bool) : string :=
  if install_success then "Software bundle installed successful."
  else "Failed to install software bundle.".

Definition completion_result (install_success : bool) : string :=
  if install_success then "success" else "failure".

(** The state once [install_complete_cb] has logged and reported. *)
Definition completion_reported (cfg : Config) (env : Env) (install_success : bool)
  (id : string) (st : State) : State :=
  append_trace st
    (EvLog (completion_level install_success) (completion_text install_success)
     :: feedback_events cfg
          (current_time env
             (trace st ++ [EvLog (completion_level install_success)
                             (completion_text install_success)]))
          (feedback_url_for cfg (Some id)) (Some id)
          (Some (completion_text install_success))
          (completion_result install_success) "closed").

Definition is_sync_or_reboot (e : Event) : bool :=
  match e with
  | EvSync => true
  | EvReboot => true
  | _ => false
  end.

Definition with_rebooted (st : State) : State :=
  mkState (action_id st) (thread_download st) (bundle_exists st) true (trace st).

(** *** The worker's other paths *)

Definition download_failed_message (error : GError) : string :=
  "Download failed: " ++ message error.

Definition download_complete_message (speed : Z) : string :=
  "Download complete. " ++ format_MBps speed ++ " MB/s".

(** *** The intake's later steps *)

(** The artifact [process_deployment] describes for action [id] from a
    resource that has a first chunk, a first artifact and a download link. *)
Definition described_artifact (cfg : Config) (env : Env) (id : string)
  (resp_root : option JsonNode) : option artifact :=
  match first_chunk resp_root, first_artifact resp_root,
        advertised_download_url resp_root with
  | Some json_chunk, Some json_artifact, Some u =>
      Some (mkArtifact (json_get_string (Some json_chunk) ["name"])
              (json_get_string (Some json_chunk) ["version"])
              (json_get_int (json_int_absent env) (Some json_artifact) ["size"])
              (Some u) (feedback_url_for cfg (Some id))
              (json_get_string (Some json_artifact) ["hashes"; "sha1"]))
  | _, _, _ => None
  end.

Definition new_software_message (a : artifact) : string :=
  "New software ready for download. (Name: " ++ printf_s (name a)
  ++ ", Version: " ++ printf_s (version a)
  ++ ", Size: " ++ string_of_Z (size a) ++ ", URL: " ++ printf_s (download_url a) ++ ")".

(** The state in which the free space is probed: the action ID is
    committed and the new software announced in the log. *)
Definition committed_state (id : string) (a : artifact) (st1 : State) : State :=
  mkState (Some id) (thread_download st1) (bundle_exists st1) (rebooted st1)
    (trace st1 ++ [EvStoreActionId (Some id); EvLog LMessage (new_software_message a)]).

Definition space_probe (cfg : Config) (env : Env) (id : string) (a : artifact)
  (st1 : State) : string + Z * Z :=
  statvfs_dirname env (trace (committed_state id a st1)) (bundle_download_location cfg).

Definition no_space_message (a : artifact) (freespace : Z) : string :=
  "Not enough free space. File size: " ++ string_of_Z (size a)
  ++ ". Free space: " ++ string_of_Z freespace.

Definition statvfs_error (cfg : Config) (env : Env) (strerror : string) : GError :=
  mkGError (G_FILE_ERROR env) (G_FILE_ERROR_FAILED env)
    ("Failed to calculate free space for " ++ bundle_download_location cfg
     ++ ": " ++ strerror).

(** The state after a failure reported from the committed state: [pre]
    logged, one failure feedback with [detail], the artifact freed, teardown. *)
Definition rejected_state (cfg : Config) (env : Env) (id : string) (a : artifact)
  (st1 : State) (pre : list Event) (detail : string) : State :=
  snd (process_deployment_cleanup cfg env
         (append_trace (committed_state id a st1)
            (pre
             ++ feedback_events cfg
                  (current_time env (trace (committed_state id a st1) ++ pre))
                  (feedback_url_for cfg (Some id)) (Some id) (Some detail)
                  "failure" "closed"
             ++ [EvArtifactFree a]))).

Definition is_thread_join (e : Event) : bool :=
  match e with
  | EvThreadJoin => true
  | _ => false
  end.

(** *** Deliveries to the write callbacks *)

(** libcurl's contract for a write callback: [size] is 1 and [nmemb] is the
    number of bytes at [ptr]. *)
Definition well_formed_delivery (d : Callbacks.Delivery) : Prop :=
  Callbacks.item_size d = 1
  /\ Callbacks.nmemb d = Z.of_nat (List.length (Callbacks.ptr d)).

Definition delivered_bytes (ds : list Callbacks.Delivery) : list Byte.byte :=
  List.concat (map Callbacks.ptr ds).

(** The bytes of each delivery that made it into the file, given what the
    callback returned for it. *)
Definition stored_bytes (ds : list (Callbacks.Delivery * Z)) (takens : list Z)
  : list Byte.byte :=
  List.concat
    (map (fun entry => firstn (Z.to_nat (snd entry)) (Callbacks.ptr (fst (fst entry))))
       (combine ds takens)).

(** The download context is consistent: the checksum was fed exactly the
    bytes in the file, and [written] counts them. *)
Definition hashed_as_stored (gb : Callbacks.struct_get_binary) : Prop :=
  Callbacks.checksum gb = Some (Callbacks.fp gb)
  /\ Callbacks.written gb
     = Callbacks.wrap_size_t (Z.of_nat (List.length (Callbacks.fp gb))).

(** Method and URL of each request in a list of events. *)
Definition request_lines (evs : list Event) : list (HTTPMethod * string) :=
  flat_map (fun e => match e with
                     | EvRequest method url _ _ => [(method, url)]
                     | _ => []
                     end) evs.

(** * Properties *)

(** ** The status envelope in closed form *)

Lemma add_data_members_object (entries : GHashTable) :
  forall ms fs r,
    add_data_members entries (mkBuilder (FObject ms None :: fs) r)
    = mkBuilder (FObject (fold_left string_member entries ms) None :: fs) r.
Proof.
  induction entries as [| [key value] rest IH]; intros ms fs r.
  - reflexivity.
  - simpl. unfold json_builder_set_member_name, json_builder_add_string_value. simpl.
    unfold builder_add_value. simpl. apply IH.
Qed.

Lemma status_envelope_closed_form timeString id detail result execution data :
  status_envelope timeString id detail result execution data
  = Some (envelope_node timeString id detail result execution data).
Proof.
  unfold status_envelope, json_build_status, then_, when_some, envelope_node, status_node.
  destruct id as [i |], detail as [d |], data as [entries |];
    cbn -[add_data_members data_members String.eqb];
    try rewrite add_data_members_object; reflexivity.
Qed.

(** The builder after [json_build_status] holds the envelope as its root. *)
Lemma json_build_status_root timeString id detail result execution data :
  json_builder_get_root
    (json_build_status timeString id detail result execution data json_builder_new)
  = Some (envelope_node timeString id detail result execution data).
Proof. exact (status_envelope_closed_form timeString id detail result execution data). Qed.

(** ** C8: members of the status envelope *)

(** C8, as stated, fails: [identify]-style call with a table that exists but
    has no entries.  The claim lets ["data"] appear only for a non-empty
    table; the builder tests the pointer only and emits ["data": {}]. *)
Lemma json_build_status_empty_table_has_data :
  let data : option GHashTable := Some [] in
  let envelope := status_envelope "20200101T120000" None None "success" "closed" data in
  json_contains envelope ["data"] = true
  /\ json_get_string envelope ["time"] = Some "20200101T120000"
  /\ ~ (exists entry rest, data = Some (entry :: rest)).
Proof.
  cbv zeta. split; [reflexivity | split; [reflexivity |]].
  intros (entry & rest & H). discriminate H.
Qed.

(** C8 (amended): [json_build_status] always yields an object; its ["id"]
    member is present iff an id was given and then holds it; ["time"] is
    always present; ["details"], inside ["status"], is present iff a detail
    was given and is then the one-element array holding it; ["data"] is
    present iff a table was given, empty or not, and is absent otherwise. *)
Theorem json_build_status_members timeString id detail result execution data :
  exists envelope,
    status_envelope timeString id detail result execution data = Some envelope
    /\ json_path_query ["id"] envelope = option_map JsonString id
    /\ json_path_query ["time"] envelope = Some (JsonString timeString)
    /\ json_path_query ["status"; "details"] envelope
       = option_map (fun d => JsonArray [JsonString d]) detail
    /\ json_path_query ["status"; "execution"] envelope = Some (JsonString execution)
    /\ json_path_query ["status"; "result"; "finished"] envelope = Some (JsonString result)
    /\ json_path_query ["data"] envelope
       = option_map (fun entries => JsonObject (data_members entries)) data
    /\ json_contains (Some envelope) ["data"] = is_some data.
Proof.
  exists (envelope_node timeString id detail result execution data).
  split; [apply status_envelope_closed_form |].
  unfold envelope_node, status_node, json_contains.
  destruct id, detail, data; repeat split; reflexivity.
Qed.

(** ** The Authorization header *)

Lemma authorization_of_header_lists (cfg : Config) (has_body : bool) :
  filter is_authorization (rest_request_headers cfg has_body) = expected_authorization cfg
  /\ filter is_authorization (get_binary_headers cfg) = expected_authorization cfg
  /\ (List.length (expected_authorization cfg) <= 1)%nat.
Proof.
  unfold rest_request_headers, get_binary_headers, expected_authorization.
  destruct (auth_token cfg) as [t |], (gateway_token cfg) as [g |], has_body;
    repeat split; simpl; try reflexivity; lia.
Qed.

(** ** [strptime] on well-formed [HH:MM:SS] *)

Lemma digit_char_facts (d : Z) :
  0 <= d <= 9 ->
  is_digit (digit_char d) = true
  /\ digit_value (digit_char d) = d
  /\ Ascii.eqb (digit_char d) " " = false.
Proof.
  intros Hd.
  assert (d = 0 \/ d = 1 \/ d = 2 \/ d = 3 \/ d = 4 \/ d = 5 \/ d = 6 \/ d = 7
          \/ d = 8 \/ d = 9) as Hcases by lia.
  repeat (destruct Hcases as [-> | Hcases]; [repeat split; reflexivity |]).
  subst d. repeat split; reflexivity.
Qed.

Lemma get_number_two_digits (from to n : Z) (rest : string) :
  0 <= n <= 99 -> from <= n <= to ->
  get_number from to 2 (two_digits n ++ rest) = Some (n, rest).
Proof.
  intros Hn Hrange.
  assert (0 <= n / 10 <= 9) as Hhi.
  { split; [apply Z.div_pos; lia |].
    assert (n / 10 < 10) by (apply Z.div_lt_upper_bound; lia). lia. }
  assert (0 <= n mod 10 <= 9) as Hlo by (pose proof (Z.mod_pos_bound n 10); lia).
  destruct (digit_char_facts _ Hhi) as (Hd1 & Hv1 & Hs1).
  destruct (digit_char_facts _ Hlo) as (Hd2 & Hv2 & _).
  pose proof (Z.div_mod n 10) as Hdm.
  unfold get_number, two_digits.
  cbn [append skip_spaces]. rewrite Hs1.
  cbn [starts_with_digit]. rewrite Hd1.
  cbn [get_number_digits starts_with_digit Nat.ltb Nat.leb andb].
  rewrite Hv1, Hd2, Hv2.
  replace (0 * 10 + n / 10) with (n / 10) by lia.
  replace (n / 10 * 10 <=? to) with true by (symmetry; apply Z.leb_le; lia).
  cbn [andb].
  replace (n / 10 * 10 + n mod 10) with n by lia.
  replace (n <? from) with false by (symmetry; apply Z.ltb_ge; lia).
  replace (to <? n) with false by (symmetry; apply Z.ltb_ge; lia).
  reflexivity.
Qed.

(** A well-formed [HH:MM:SS] time overwrites all three fields, whatever the
    structure held before. *)
Lemma strptime_T_well_formed (h m s : Z) (time : tm) :
  0 <= h <= 23 -> 0 <= m <= 59 -> 0 <= s <= 61 ->
  strptime_T (hms_string h m s) time = mkTm s m h.
Proof.
  intros Hh Hm Hs. unfold strptime_T, hms_string.
  rewrite get_number_two_digits by lia.
  cbn [append match_char Ascii.eqb Bool.eqb].
  rewrite get_number_two_digits by lia.
  cbn [append match_char Ascii.eqb Bool.eqb].
  replace (two_digits s) with (two_digits s ++ "")
    by (unfold two_digits; reflexivity).
  rewrite get_number_two_digits by lia.
  reflexivity.
Qed.

(** An hour field beyond 23 is refused, and [time] keeps what the stack held. *)
Remark strptime_T_refuses_hour_24 (time : tm) : strptime_T "24:00:00" time = time.
Proof. reflexivity. Qed.

(** ** Effects of the building blocks *)

Lemma append_trace_nil st : append_trace st [] = st.
Proof. destruct st. unfold append_trace. simpl. now rewrite app_nil_r. Qed.

Lemma append_trace_app st evs1 evs2 :
  append_trace (append_trace st evs1) evs2 = append_trace st (evs1 ++ evs2).
Proof. unfold append_trace. simpl. now rewrite app_assoc. Qed.

Lemma emit_append_trace e st : emit e st = (tt, append_trace st [e]).
Proof. reflexivity. Qed.

Lemma rest_request_effect cfg env method url body want st :
  snd (rest_request cfg env method url body want st)
  = append_trace st
      (request_events cfg method url body
       ++ response_events (fst (rest_request cfg env method url body want st))).
Proof.
  unfold rest_request, request_events, bind, ask, ret.
  destruct (match body with Some b => json_builder_get_root b | None => None end)
    as [r |]; simpl;
    match goal with
    | |- context [curl_perform env ?t method url] =>
        destruct (curl_perform env t method url) as [cres cstr http pl]
    end; simpl;
    destruct (cres =? CURLE_OK); simpl; try reflexivity;
    destruct (http =? 200); simpl; try reflexivity;
    destruct want; simpl; try reflexivity;
    destruct pl; simpl; unfold append_trace; simpl;
    rewrite <- ?app_assoc; reflexivity.
Qed.

(** A request that does not ask for the response records only the request. *)
Lemma rest_request_no_parser cfg env method url body st :
  snd (rest_request cfg env method url body false st)
  = append_trace st (request_events cfg method url body).
Proof.
  rewrite rest_request_effect.
  replace (response_events _) with (@nil Event); [now rewrite app_nil_r |].
  unfold rest_request, bind, ask, ret.
  destruct (match body with Some b => json_builder_get_root b | None => None end); simpl;
    match goal with
    | |- context [curl_perform env ?t method url] =>
        destruct (curl_perform env t method url) as [cres cstr http pl]
    end; simpl;
    destruct (cres =? CURLE_OK); simpl; try reflexivity;
    destruct (http =? 200); reflexivity.
Qed.

Lemma feedback_effect cfg env url id detail finished execution st :
  snd (feedback cfg env url id detail finished execution st)
  = append_trace st
      (feedback_events cfg (current_time env (trace st)) url id detail finished execution).
Proof.
  unfold feedback, bind, ask, ret.
  destruct (rest_request _ _ _ _ _ _ st) as [r st'] eqn:E.
  apply (f_equal snd) in E. rewrite rest_request_no_parser in E. simpl in E. subst st'.
  simpl. unfold request_events. rewrite json_build_status_root. reflexivity.
Qed.

Lemma feedback_progress_effect cfg env url id detail st :
  snd (feedback_progress cfg env url id detail st)
  = append_trace st
      (feedback_events cfg (current_time env (trace st)) url id detail "none" "proceeding").
Proof.
  unfold feedback_progress, bind, ask, ret.
  destruct (rest_request _ _ _ _ _ _ st) as [r st'] eqn:E.
  apply (f_equal snd) in E. rewrite rest_request_no_parser in E. simpl in E. subst st'.
  simpl. unfold request_events. rewrite json_build_status_root. reflexivity.
Qed.

Lemma process_deployment_cleanup_closed_form cfg env st :
  process_deployment_cleanup cfg env st
  = (tt, mkState None (thread_download st) (bundle_survives cfg env st) (rebooted st)
           (trace st ++ cleanup_events cfg env (trace st) (action_id st) (bundle_exists st))).
Proof.
  unfold process_deployment_cleanup, cleanup_events, bundle_survives, bind, ask, ret,
    load_action_id, store_action_id, g_log, emit, set_bundle_exists.
  destruct st as [id th present down t]. simpl.
  destruct present; simpl.
  - rewrite <- !app_assoc. simpl.
    destruct (g_remove_ok env _ _); simpl; rewrite <- ?app_assoc; reflexivity.
  - rewrite <- !app_assoc. reflexivity.
Qed.

(** ** C7: what the transfers carry *)

(** C7: the header lists built by [rest_request] (with or without a body)
    and by [get_binary] hold at most one Authorization header: the
    TargetToken one when a target token is configured, whatever the gateway
    token; the GatewayToken one when only a gateway token is configured; none
    otherwise.  Every transfer that [rest_request] or [get_binary] starts
    carries exactly these. *)
Theorem authorization_header_selection (cfg : Config) (env : Env) :
  (forall has_body,
      filter is_authorization (rest_request_headers cfg has_body)
      = expected_authorization cfg)
  /\ filter is_authorization (get_binary_headers cfg) = expected_authorization cfg
  /\ (List.length (expected_authorization cfg) <= 1)%nat
  /\ (forall method url body want st,
        exists evs,
          trace (snd (rest_request cfg env method url body want st)) = (trace st ++ evs)%list
          /\ Forall (authorized_as_configured cfg) evs
          /\ Exists (fun e => event_headers e
                              = Some (rest_request_headers cfg (is_some body))) evs)
  /\ (forall url file filesize st,
        exists evs,
          trace (snd (get_binary cfg env url file filesize st)) = (trace st ++ evs)%list
          /\ Forall (authorized_as_configured cfg) evs).
Proof.
  split; [intros has_body; apply authorization_of_header_lists |].
  split; [apply (authorization_of_header_lists cfg true) |].
  split; [apply (authorization_of_header_lists cfg true) |].
  split.
  - intros method url body want st. rewrite rest_request_effect.
    eexists. split; [reflexivity |]. split.
    + apply Forall_app. split.
      * unfold request_events. apply Forall_app. split.
        -- destruct (match body with Some b => json_builder_get_root b | None => None end);
             repeat constructor.
        -- constructor; [| constructor]. unfold authorized_as_configured. simpl.
           apply authorization_of_header_lists.
      * unfold response_events.
        destruct (fst _) as [error | [node |]]; repeat constructor.
    + apply Exists_app. left. unfold request_events. apply Exists_app. right.
      constructor. reflexivity.
  - intros url file filesize st.
    unfold get_binary, bind, ask, ret, set_bundle_exists, emit.
    destruct (curl_download env (trace st) url file) as [| cres cstr http digest v].
    + exists []. simpl. split; [now rewrite app_nil_r | constructor].
    + exists [EvDownload url file (get_binary_headers cfg)]. simpl.
      split.
      * destruct (cres =? CURLE_OK); simpl; [destruct (http =? 200) |]; reflexivity.
      * constructor; [| constructor]. unfold authorized_as_configured. simpl.
        apply (authorization_of_header_lists cfg true).
Qed.

(** ** C2: session teardown *)

(** C2, as stated, fails: teardown of session 42 on a file system that
    refuses to remove the bundle.  The action ID is cleared, but the file at
    the bundle download location is still there afterwards; the failure is
    only logged at debug level. *)
Lemma teardown_keeps_file_when_removal_fails :
  let cfg := demo_config (Some "tok") None false in
  let env := demo_env (ok_reply base_idle) (http_reply 404) FopenFailed false in
  let st' := snd (process_deployment_cleanup cfg env busy_state) in
  bundle_exists busy_state = true
  /\ action_id st' = None
  /\ bundle_exists st' = true
  /\ trace st' = [EvStoreActionId None; EvFree (Some "42"); EvRemove "/tmp/bundle.raucb";
                  EvLog LDebug "Failed to delete file: /tmp/bundle.raucb"].
Proof. cbv zeta. repeat split; reflexivity. Qed.

(** C2 (amended): after [process_deployment_cleanup], from whichever caller,
    the action ID is NULL; the store of NULL comes first and the free of the
    previous string right after it; the file at the bundle download location
    is gone if it was absent or [g_remove] succeeded, and is left in place,
    with a debug message, if [g_remove] failed.  Nothing else changes. *)
Theorem process_deployment_cleanup_postcondition cfg env st :
  let st' := snd (process_deployment_cleanup cfg env st) in
  let path := bundle_download_location cfg in
  let removed :=
    g_remove_ok env
      (trace st ++ [EvStoreActionId None; EvFree (action_id st); EvRemove path]) path in
  action_id st' = None
  /\ bundle_exists st' = bundle_exists st && negb removed
  /\ trace st'
     = (trace st
        ++ [EvStoreActionId None; EvFree (action_id st)]
        ++ (if bundle_exists st then
              EvRemove path
              :: (if removed then []
                  else [EvLog LDebug ("Failed to delete file: " ++ path)%string])
            else []))%list
  /\ thread_download st' = thread_download st
  /\ rebooted st' = rebooted st.
Proof.
  cbv zeta. rewrite process_deployment_cleanup_closed_form. simpl.
  repeat split; reflexivity.
Qed.

(** ** C9: completion without a session *)

(** C9: when the action ID is NULL, [install_complete_cb] returns
    [G_SOURCE_REMOVE] and the state, trace included, is exactly what it was:
    no feedback, no teardown, no file removal, no reboot. *)
Theorem install_complete_cb_without_session cfg env install_success st :
  action_id st = None ->
  install_complete_cb cfg env install_success st = (G_SOURCE_REMOVE, st).
Proof.
  intros Hid. unfold install_complete_cb, bind, load_action_id.
  rewrite Hid. reflexivity.
Qed.

Lemma install_complete_cb_without_session_witness :
  action_id idle_state = None
  /\ install_complete_cb (demo_config (Some "tok") None true)
       (demo_env (ok_reply base_idle) (http_reply 404) FopenFailed true) true idle_state
     = (G_SOURCE_REMOVE, idle_state).
Proof.
  split; [reflexivity |].
  apply install_complete_cb_without_session. reflexivity.
Defined.

(** ** The polling tick *)

Lemma pull_out_interval run_once ok data st :
  hawkbit_interval_check_sec (snd (fst (pull_out run_once ok data st)))
  = hawkbit_interval_check_sec data.
Proof. unfold pull_out. destruct run_once; reflexivity. Qed.

(** The interval a due tick leaves behind. *)
Lemma hawkbit_pull_cb_interval cfg env run_once data st :
  tick_is_due data ->
  hawkbit_interval_check_sec (snd (fst (hawkbit_pull_cb cfg env run_once data st)))
  = match fst (base_poll cfg env st) with
    | inl _ => retry_wait cfg
    | inr root => fst (json_get_sleeptime cfg env root (snd (base_poll cfg env st)))
    end.
Proof.
  unfold tick_is_due, base_poll. intros Hdue.
  unfold hawkbit_pull_cb. simpl.
  replace (last_run_sec data + 1 <? hawkbit_interval_check_sec data) with false
    by (symmetry; apply Z.ltb_ge; lia).
  unfold bind at 1. simpl. unfold bind at 1.
  destruct (rest_request cfg env GET (build_api_url cfg None) None true _) as [[e | root] st1].
  - simpl. unfold bind. run_step. apply pull_out_interval.
  - simpl. unfold bind.
    destruct (json_get_sleeptime cfg env root st1) as [sleeptime st2]. simpl.
    repeat run_step; apply pull_out_interval.
Qed.


(** ** C6: the polling interval after a base poll *)

(** C6: on a tick that performs the base poll, if the GET fails the interval
    becomes [retry_wait]; if it succeeds and [config.polling.sleep] is the
    text [HH:MM:SS] of a time as [strptime] accepts it ([HH] at most 23, [MM]
    at most 59, [SS] at most 61 to allow for leap seconds), the interval
    becomes [HH*3600 + MM*60 + SS] seconds. *)
Theorem polling_interval_after_base_poll cfg env run_once data st :
  tick_is_due data ->
  let data' := snd (fst (hawkbit_pull_cb cfg env run_once data st)) in
  (forall error,
      fst (base_poll cfg env st) = inl error ->
      hawkbit_interval_check_sec data' = retry_wait cfg)
  /\ (forall root h m s,
        fst (base_poll cfg env st) = inr root ->
        json_get_string root ["config"; "polling"; "sleep"] = Some (hms_string h m s) ->
        0 <= h <= 23 -> 0 <= m <= 59 -> 0 <= s <= 61 ->
        hawkbit_interval_check_sec data' = h * 3600 + m * 60 + s).
Proof.
  intros Hdue. cbv zeta. rewrite hawkbit_pull_cb_interval by assumption. split.
  - intros error Hget. rewrite Hget. reflexivity.
  - intros root h m s Hget Hsleep Hh Hm Hs. rewrite Hget.
    unfold json_get_sleeptime. rewrite Hsleep. unfold bind, ask, ret. simpl.
    rewrite strptime_T_well_formed by assumption. simpl. lia.
Qed.

Lemma polling_interval_after_base_poll_witness :
  let cfg := demo_config (Some "tok") None false in
  let up := demo_env (ok_reply base_idle) (http_reply 404) FopenFailed true in
  let down := demo_env unreachable_reply (http_reply 404) FopenFailed true in
  tick_is_due waited_data
  /\ hawkbit_interval_check_sec
       (snd (fst (hawkbit_pull_cb cfg down false waited_data idle_state))) = 60
  /\ hawkbit_interval_check_sec
       (snd (fst (hawkbit_pull_cb cfg up false due_data idle_state))) = 0 * 3600 + 5 * 60 + 0.
Proof.
  cbv zeta.
  assert (tick_is_due waited_data) as Hwaited by (unfold tick_is_due; simpl; lia).
  assert (tick_is_due due_data) as Hdue by (unfold tick_is_due; simpl; lia).
  split; [exact Hwaited | split].
  - change 60 with (retry_wait (demo_config (Some "tok") None false)).
    eapply (proj1 (polling_interval_after_base_poll _ _ false waited_data idle_state Hwaited)).
    reflexivity.
  - eapply (proj2 (polling_interval_after_base_poll _ _ false due_data idle_state Hdue)
              (Some base_idle) 0 5 0); try reflexivity; lia.
Defined.

(** ** C10: a base poll without [config.polling.sleep] *)

(** C10: when the response of a successful base poll has no
    [config.polling.sleep], [json_get_sleeptime] returns [retry_wait], and
    the tick sets the interval to [retry_wait] whatever it was before. *)
Theorem polling_interval_without_sleep cfg env run_once data st root :
  tick_is_due data ->
  fst (base_poll cfg env st) = inr root ->
  json_get_string root ["config"; "polling"; "sleep"] = None ->
  (forall st', json_get_sleeptime cfg env root st' = (retry_wait cfg, st'))
  /\ hawkbit_interval_check_sec (snd (fst (hawkbit_pull_cb cfg env run_once data st)))
     = retry_wait cfg.
Proof.
  intros Hdue Hget Hsleep.
  assert (forall st', json_get_sleeptime cfg env root st' = (retry_wait cfg, st')) as Hfn.
  { intros st'. unfold json_get_sleeptime. rewrite Hsleep. reflexivity. }
  split; [exact Hfn |].
  rewrite hawkbit_pull_cb_interval by assumption.
  rewrite Hget, Hfn. reflexivity.
Qed.

Lemma polling_interval_without_sleep_witness :
  let cfg := demo_config (Some "tok") None false in
  let env := demo_env (ok_reply base_no_sleep) (http_reply 404) FopenFailed true in
  hawkbit_interval_check_sec waited_data = 300
  /\ hawkbit_interval_check_sec
       (snd (fst (hawkbit_pull_cb cfg env false waited_data idle_state))) = 60.
Proof.
  cbv zeta. split; [reflexivity |].
  change 60 with (retry_wait (demo_config (Some "tok") None false)).
  refine (proj2 (polling_interval_without_sleep _ _ false waited_data idle_state
                   (Some base_no_sleep) _ _ _)).
  - unfold tick_is_due. simpl. lia.
  - reflexivity.
  - reflexivity.
Defined.

(** ** Anatomy of a polling tick *)

Lemma json_get_sleeptime_state cfg env root st :
  snd (json_get_sleeptime cfg env root st) = st.
Proof.
  unfold json_get_sleeptime.
  destruct (json_get_string root ["config"; "polling"; "sleep"]); reflexivity.
Qed.

(** A due tick whose base GET succeeded runs the three blocks in order. *)
Lemma hawkbit_pull_cb_polled cfg env run_once data st root st1 :
  tick_is_due data ->
  base_poll cfg env st = (inr root, st1) ->
  hawkbit_pull_cb cfg env run_once data st
  = (ok1 <- identify_phase cfg env root ;;
     ok2 <- deployment_phase cfg env root ok1 ;;
     cancel_phase root ;;
     pull_out run_once ok2
       (mkClientData (loop_running data) (res data)
          (fst (json_get_sleeptime cfg env root st1)) 0)) st1.
Proof.
  unfold tick_is_due, base_poll. intros Hdue Hget. simpl in Hget.
  unfold hawkbit_pull_cb. simpl.
  replace (last_run_sec data + 1 <? hawkbit_interval_check_sec data) with false
    by (symmetry; apply Z.ltb_ge; lia).
  unfold bind at 1. simpl. unfold bind at 1. rewrite Hget.
  unfold bind at 1.
  pose proof (json_get_sleeptime_state cfg env root st1) as Hst.
  destruct (json_get_sleeptime cfg env root st1) as [sleeptime st1']. simpl in Hst.
  subst st1'. reflexivity.
Qed.

(** A due tick whose base GET failed warns and leaves through [out] with a
    false [res] and the interval reset. *)
Lemma hawkbit_pull_cb_unreachable cfg env run_once data st error st1 :
  tick_is_due data ->
  base_poll cfg env st = (inl error, st1) ->
  exists st2,
    hawkbit_pull_cb cfg env run_once data st
    = pull_out run_once false
        (mkClientData (loop_running data) (res data) (retry_wait cfg) 0) st2.
Proof.
  unfold tick_is_due, base_poll. intros Hdue Hget. simpl in Hget.
  unfold hawkbit_pull_cb. simpl.
  replace (last_run_sec data + 1 <? hawkbit_interval_check_sec data) with false
    by (symmetry; apply Z.ltb_ge; lia).
  unfold bind at 1. simpl. unfold bind at 1. rewrite Hget.
  unfold bind at 1. run_step. eexists. reflexivity.
Qed.

Lemma identify_effect cfg env st :
  snd (identify cfg env st)
  = append_trace st
      (identify_events cfg
         (current_time env
            (trace st ++ [EvLog LDebug "Identifying ourself to hawkbit server"]))).
Proof.
  unfold identify, bind, ask, ret, g_log. rewrite emit_append_trace.
  match goal with
  | |- context [rest_request cfg env PUT ?u ?b false ?s] =>
      destruct (rest_request cfg env PUT u b false s) as [r st'] eqn:E
  end.
  apply (f_equal snd) in E. rewrite rest_request_no_parser in E. simpl in E. subst st'.
  destruct r; unfold ret; cbn [snd];
  rewrite append_trace_app; unfold request_events; rewrite json_build_status_root;
    reflexivity.
Qed.

(** The identify block touches nothing but the trace. *)
Lemma identify_phase_frame cfg env root st :
  exists evs, snd (identify_phase cfg env root st) = append_trace st evs.
Proof.
  unfold identify_phase.
  destruct (json_contains root ["_links"; "configData"]).
  - unfold bind. destruct (identify cfg env st) as [r st'] eqn:E.
    apply (f_equal snd) in E. rewrite identify_effect in E. simpl in E. subst st'.
    destruct r as [error | []].
    + eexists. unfold g_log, ret. rewrite emit_append_trace.
      rewrite append_trace_app. reflexivity.
    + eexists. reflexivity.
  - exists []. now rewrite append_trace_nil.
Qed.

Lemma base_poll_frame cfg env st :
  exists evs, snd (base_poll cfg env st) = append_trace st evs.
Proof.
  unfold base_poll, g_log. rewrite emit_append_trace. simpl.
  rewrite rest_request_effect, append_trace_app. eexists. reflexivity.
Qed.

(** ** C1: a deployment offered while a session is active *)

Lemma process_deployment_busy cfg env root st id :
  action_id st = Some id ->
  process_deployment cfg env root st = (inl (already_in_progress env id), st).
Proof.
  intros Hid. unfold process_deployment, bind, load_action_id. rewrite Hid. reflexivity.
Qed.

Lemma g_error_matches_already_in_progress env id :
  g_error_matches (already_in_progress env id) (RHU_HAWKBIT_CLIENT_ERROR env)
    (RHU_HAWKBIT_CLIENT_ERROR_ALREADY_IN_PROGRESS env) = true.
Proof. unfold g_error_matches. simpl. now rewrite !Z.eqb_refl. Qed.

(** C1: on a polling tick whose response offers a deployment while the action
    ID is [id], [process_deployment] is entered in the state left by the
    identify block, returns the already-in-progress error and leaves that
    state as it is, trace included, so no request or feedback is issued for
    the new deployment.  The tick then logs the error's message at debug
    level; what follows in the trace is at most the cancel warning and the
    loop's end.  Action ID, worker handle and bundle file are those of
    before the tick. *)
Theorem overlapping_deployment_rejected cfg env run_once data st id root :
  tick_is_due data ->
  action_id st = Some id ->
  fst (base_poll cfg env st) = inr root ->
  json_contains root ["_links"; "deploymentBase"] = true ->
  let st2 := snd (identify_phase cfg env root (snd (base_poll cfg env st))) in
  let st' := snd (hawkbit_pull_cb cfg env run_once data st) in
  process_deployment cfg env root st2 = (inl (already_in_progress env id), st2)
  /\ trace st'
     = (trace st2
        ++ EvLog LDebug ("Deployment " ++ id ++ " is already in progress.")%string
           :: closing_events run_once root)%list
  /\ action_id st' = Some id
  /\ thread_download st' = thread_download st
  /\ bundle_exists st' = bundle_exists st.
Proof.
  intros Hdue Hid Hget Hoffer. cbv zeta.
  destruct (base_poll cfg env st) as [r st1] eqn:Epoll. simpl in Hget. subst r.
  pose proof (hawkbit_pull_cb_polled _ _ run_once _ _ _ _ Hdue Epoll) as Htick.
  destruct (base_poll_frame cfg env st) as [evs1 Hst1]. rewrite Epoll in Hst1.
  simpl in Hst1.
  destruct (identify_phase_frame cfg env root st1) as [evs2 Hst2].
  unfold bind at 1 in Htick. cbn [snd].
  destruct (identify_phase cfg env root st1) as [ok1 st2]. simpl in Hst2.
  assert (action_id st2 = Some id) as Hid2 by (subst st2 st1; exact Hid).
  assert (thread_download st2 = thread_download st) as Hth by (subst st2 st1; reflexivity).
  assert (bundle_exists st2 = bundle_exists st) as Hfile by (subst st2 st1; reflexivity).
  clear Hst1 Hst2 Epoll.
  split; [apply process_deployment_busy; exact Hid2 |].
  unfold bind, deployment_phase in Htick. rewrite Hoffer in Htick. unfold bind in Htick.
  rewrite (process_deployment_busy _ _ _ _ _ Hid2) in Htick.
  rewrite g_error_matches_already_in_progress in Htick.
  rewrite Htick. clear Htick.
  unfold cancel_phase, closing_events, pull_out, when.
  destruct (json_contains root ["_links"; "cancelAction"]), run_once; simpl;
    rewrite <- ?app_assoc; repeat split; assumption || reflexivity.
Qed.

Lemma overlapping_deployment_rejected_witness :
  let cfg := demo_config (Some "tok") None false in
  let env := demo_env (ok_reply base_offer) (ok_reply deployment_42) FopenFailed true in
  let st' := snd (hawkbit_pull_cb cfg env false due_data busy_state) in
  action_id busy_state = Some "42"
  /\ action_id st' = Some "42"
  /\ thread_download st' = Some artifact_42
  /\ In (EvLog LDebug "Deployment 42 is already in progress.") (trace st').
Proof.
  cbv zeta.
  assert (tick_is_due due_data) as Hdue by (unfold tick_is_due; simpl; lia).
  pose proof (overlapping_deployment_rejected (demo_config (Some "tok") None false)
                (demo_env (ok_reply base_offer) (ok_reply deployment_42) FopenFailed true)
                false due_data busy_state "42" (Some base_offer)
                Hdue eq_refl eq_refl eq_refl) as (_ & Htrace & Hid & Hth & _).
  split; [reflexivity | split; [exact Hid | split; [exact Hth |]]].
  rewrite Htrace. apply in_or_app. right. left. reflexivity.
Defined.

(** ** C5: the result of a tick and the one-shot exit code *)

(** C5, as stated, fails: in one-shot mode against a server whose base poll
    succeeds and offers a deployment, but whose deployment resource answers
    HTTP 500, the process exits with code 1 although the base GET succeeded. *)
Lemma run_once_exit_code_follows_deployment :
  let cfg := demo_config (Some "tok") None false in
  succeeded (fst (base_poll cfg broken_deployment_env idle_state)) = true
  /\ fst (hawkbit_start_service_sync cfg broken_deployment_env true 1 idle_state) = Some 1.
Proof. cbv zeta. split; reflexivity. Qed.

Lemma identify_phase_result cfg env root st :
  fst (identify_phase cfg env root st)
  = if json_contains root ["_links"; "configData"]
    then succeeded (fst (identify cfg env st))
    else true.
Proof.
  unfold identify_phase. destruct (json_contains root ["_links"; "configData"]).
  - unfold bind. destruct (identify cfg env st) as [[error | u] st']; reflexivity.
  - reflexivity.
Qed.

Lemma deployment_phase_result cfg env root ok st :
  fst (deployment_phase cfg env root ok st)
  = if json_contains root ["_links"; "deploymentBase"]
    then succeeded (fst (process_deployment cfg env root st))
    else ok.
Proof.
  unfold deployment_phase. destruct (json_contains root ["_links"; "deploymentBase"]).
  - unfold bind. destruct (process_deployment cfg env root st) as [[error | u] st'].
    + simpl. destruct (g_error_matches _ _ _); reflexivity.
    + reflexivity.
  - reflexivity.
Qed.

(** A due tick whose base GET succeeded leaves through [out] with the [res]
    of the deployment block. *)
Lemma hawkbit_pull_cb_polled_result cfg env run_once data st root st1 :
  tick_is_due data ->
  base_poll cfg env st = (inr root, st1) ->
  exists st4,
    hawkbit_pull_cb cfg env run_once data st
    = pull_out run_once
        (fst (deployment_phase cfg env root (fst (identify_phase cfg env root st1))
                (snd (identify_phase cfg env root st1))))
        (mkClientData (loop_running data) (res data)
           (fst (json_get_sleeptime cfg env root st1)) 0) st4.
Proof.
  intros Hdue Hget. rewrite (hawkbit_pull_cb_polled _ _ run_once _ _ _ _ Hdue Hget).
  unfold bind.
  destruct (identify_phase cfg env root st1) as [ok1 st2]. cbn [fst snd].
  destruct (deployment_phase cfg env root ok1 st2) as [ok2 st3]. cbn [fst snd].
  destruct (cancel_phase root st3) as [u st4].
  exists st4. reflexivity.
Qed.

(** C5 (amended): in one-shot mode the first tick performs the base poll, the
    loop ends with that tick, and the exit code is 1 when the base GET
    failed; when it succeeded, the code reflects the last action the tick
    ran: [process_deployment] if a deployment is offered, else [identify] if
    configuration data is requested, and it is 0 if neither is. *)
Theorem run_once_exit_code cfg env fuel st :
  let poll := base_poll cfg env st in
  let tick := hawkbit_pull_cb cfg env true (initial_cdata cfg) st in
  tick_is_due (initial_cdata cfg)
  /\ hawkbit_start_service_sync cfg env true (S fuel) st = (res (snd (fst tick)), snd tick)
  /\ fst (fst tick) = G_SOURCE_REMOVE
  /\ res (snd (fst tick))
     = Some
         match fst poll with
         | inl _ => 1
         | inr root =>
             if json_contains root ["_links"; "deploymentBase"] then
               if succeeded
                    (fst (process_deployment cfg env root
                            (snd (identify_phase cfg env root (snd poll)))))
               then 0 else 1
             else if json_contains root ["_links"; "configData"] then
               if succeeded (fst (identify cfg env (snd poll))) then 0 else 1
             else 0
         end.
Proof.
  cbv zeta.
  assert (tick_is_due (initial_cdata cfg)) as Hdue by (unfold tick_is_due; simpl; lia).
  split; [exact Hdue |].
  unfold hawkbit_start_service_sync. fold (initial_cdata cfg).
  cbn [g_main_loop_run]. unfold bind.
  destruct (base_poll cfg env st) as [[error | root] st1] eqn:Epoll.
  - destruct (hawkbit_pull_cb_unreachable _ _ true _ _ _ _ Hdue Epoll) as [st2 ->].
    repeat split; reflexivity.
  - destruct (hawkbit_pull_cb_polled_result _ _ true _ _ _ _ Hdue Epoll) as [st4 ->].
    rewrite deployment_phase_result, identify_phase_result. cbn [fst snd].
    unfold pull_out, bind, ret. simpl.
    destruct (json_contains root ["_links"; "deploymentBase"]),
      (json_contains root ["_links"; "configData"]);
      repeat split; reflexivity.
Qed.

(** ** C3: checksum mismatch in the download worker *)

Lemma get_binary_success cfg env url file filesize st sha1sum speed st1 :
  get_binary cfg env url file filesize st = (inr (sha1sum, speed), st1) ->
  st1 = mkState (action_id st) (thread_download st) true (rebooted st)
          (trace st ++ [EvDownload url file (get_binary_headers cfg)]).
Proof.
  unfold get_binary, bind, ask, ret, set_bundle_exists, emit.
  destruct (curl_download env (trace st) url file) as [| cres cstr http digest v].
  - discriminate.
  - simpl. destruct (cres =? CURLE_OK); simpl; [| discriminate].
    destruct (http =? 200); simpl; [| discriminate].
    intros H. now inversion H.
Qed.

Lemma g_strcmp0_differs_spec (declared : option string) (computed : string) :
  g_strcmp0_differs declared (Some computed) = true <-> declared <> Some computed.
Proof.
  destruct declared as [d |]; simpl.
  - destruct (String.eqb_spec d computed) as [-> | Hne]; simpl; split; intros H;
      congruence.
  - split; intros; congruence.
Qed.

Lemma envelope_execution now id detail result execution data :
  json_get_string (Some (envelope_node now id detail result execution data))
    ["status"; "execution"] = Some execution.
Proof. destruct id; reflexivity. Qed.

Lemma filter_closed_feedback_events cfg now url id detail finished execution :
  filter is_closed_feedback (feedback_events cfg now url id detail finished execution)
  = if String.eqb execution "closed"
    then [EvRequest POST url (rest_request_headers cfg true)
            (Some (envelope_node now id detail finished execution None))]
    else [].
Proof.
  unfold feedback_events. cbn [filter is_closed_feedback].
  rewrite envelope_execution. destruct (String.eqb execution "closed"); reflexivity.
Qed.

Lemma cleanup_events_quiet cfg env t id present :
  filter is_closed_feedback (cleanup_events cfg env t id present) = []
  /\ filter is_software_ready (cleanup_events cfg env t id present) = []
  /\ filter is_post (cleanup_events cfg env t id present) = []
  /\ filter is_thread_new (cleanup_events cfg env t id present) = [].
Proof.
  unfold cleanup_events. destruct present; simpl;
    [destruct (g_remove_ok env _ _) |]; repeat split; reflexivity.
Qed.

Lemma feedback_events_not_ready cfg now url id detail finished execution :
  filter is_software_ready (feedback_events cfg now url id detail finished execution) = [].
Proof. reflexivity. Qed.

Lemma append_empty_r (s : string) : s ++ "" = s.
Proof. induction s as [| c s IH]; simpl; [reflexivity | now rewrite IH]. Qed.

Lemma append_assoc (a b c : string) : (a ++ b) ++ c = a ++ b ++ c.
Proof. induction a as [| x a IH]; simpl; [reflexivity | now rewrite IH]. Qed.

Lemma checksum_message_cites_both (a : artifact) (sha1sum : string) :
  contains (checksum_message a sha1sum) sha1sum
  /\ contains (checksum_message a sha1sum) (printf_s (sha1 a)).
Proof.
  unfold checksum_message. split.
  - exists ("Software: " ++ printf_s (name a) ++ " V" ++ printf_s (version a)
            ++ ". Invalid checksum: "), (" expected " ++ printf_s (sha1 a)).
    now rewrite !append_assoc.
  - exists ("Software: " ++ printf_s (name a) ++ " V" ++ printf_s (version a)
            ++ ". Invalid checksum: " ++ sha1sum ++ " expected "), "".
    now rewrite append_empty_r, !append_assoc.
Qed.

(** The worker's run when the digest differs from the declared one: two
    feedbacks, then teardown. *)
Lemma download_thread_mismatch cfg env a st sha1sum speed st1 :
  download_outcome cfg env a st = (inr (sha1sum, speed), st1) ->
  g_strcmp0_differs (sha1 a) (Some sha1sum) = true ->
  let id := action_id st in
  let complete := "Download complete. " ++ format_MBps speed ++ " MB/s" in
  let progress :=
    (feedback_events cfg (current_time env (trace st1)) (feedback_url a) id (Some complete)
       "none" "proceeding" ++ [EvLog LMessage complete])%list in
  let failure :=
    (feedback_events cfg (current_time env (trace st1 ++ progress)) (feedback_url a) id
       (Some (checksum_message a sha1sum)) "failure" "closed"
     ++ [EvLog LCritical (checksum_message a sha1sum); EvArtifactFree a])%list in
  download_thread cfg env a st
  = process_deployment_cleanup cfg env (append_trace st1 (progress ++ failure)).
Proof.
  unfold download_outcome. intros Hget Hdiff. cbv zeta.
  pose proof (get_binary_success _ _ _ _ _ _ _ _ _ Hget) as Hst1. simpl in Hst1.
  unfold download_thread. unfold bind at 1. simpl. unfold bind at 1.
  simpl in Hget. rewrite Hget.
  unfold bind at 1. unfold load_action_id at 1.
  replace (action_id st1) with (action_id st) by (subst st1; reflexivity).
  unfold bind at 1.
  destruct (feedback_progress cfg env (feedback_url a) (action_id st) _ st1)
    as [b1 s1] eqn:E1.
  apply (f_equal snd) in E1. rewrite feedback_progress_effect in E1. simpl in E1.
  subst s1.
  unfold bind at 1. unfold g_log at 1. rewrite emit_append_trace, append_trace_app.
  rewrite Hdiff.
  unfold bind at 1. unfold load_action_id at 1.
  replace (action_id (append_trace st1 _)) with (action_id st)
    by (subst st1; reflexivity).
  unfold bind at 1.
  match goal with
  | |- context [feedback cfg env ?u ?i ?d ?f ?x ?s] =>
      destruct (feedback cfg env u i d f x s) as [b2 s2] eqn:E2
  end.
  apply (f_equal snd) in E2. rewrite feedback_effect in E2. simpl in E2. subst s2.
  unfold bind at 1. unfold g_log at 1. rewrite emit_append_trace, append_trace_app.
  unfold bind at 1. unfold process_artifact_cleanup.
  rewrite emit_append_trace, append_trace_app.
  rewrite append_trace_app.
  unfold checksum_message. rewrite <- !app_assoc. reflexivity.
Qed.

(** C3: after a successful download whose digest differs from the declared
    SHA-1 (by [g_strcmp0], so byte for byte; a missing declaration differs
    too), the worker sends exactly one closing feedback, a failure whose
    detail cites the computed digest and the declared one, never announces
    the software as ready, and ends with session teardown. *)
Theorem checksum_mismatch_ends_session cfg env a st sha1sum speed :
  fst (download_outcome cfg env a st) = inr (sha1sum, speed) ->
  sha1 a <> Some sha1sum ->
  let st' := snd (download_thread cfg env a st) in
  let msg := checksum_message a sha1sum in
  exists evs now st_before,
    trace st' = (trace st ++ evs)%list
    /\ filter is_closed_feedback evs
       = [EvRequest POST (feedback_url a) (rest_request_headers cfg true)
            (Some (envelope_node now (action_id st) (Some msg) "failure" "closed" None))]
    /\ contains msg sha1sum
    /\ contains msg (printf_s (sha1 a))
    /\ filter is_software_ready evs = []
    /\ st' = snd (process_deployment_cleanup cfg env st_before)
    /\ action_id st' = None.
Proof.
  intros Hget Hne. cbv zeta.
  apply g_strcmp0_differs_spec in Hne.
  destruct (download_outcome cfg env a st) as [r st1] eqn:Eget. simpl in Hget. subst r.
  rewrite (download_thread_mismatch _ _ _ _ _ _ _ Eget Hne).
  unfold download_outcome in Eget. apply get_binary_success in Eget. simpl in Eget.
  match goal with
  | |- context [process_deployment_cleanup cfg env ?s] => set (st_before := s)
  end.
  assert (trace st1
          = trace st ++ [EvLog LMessage ("Start downloading: " ++ printf_s (download_url a));
                         EvDownload (download_url a) (bundle_download_location cfg)
                           (get_binary_headers cfg)])%list as Htrace
    by (subst st1; simpl; now rewrite <- app_assoc).
  eexists. eexists. exists st_before.
  rewrite process_deployment_cleanup_closed_form. cbn [snd trace action_id].
  split.
  { subst st_before. unfold append_trace. cbn [trace]. rewrite Htrace.
    rewrite <- !app_assoc. reflexivity. }
  destruct (checksum_message_cites_both a sha1sum) as (Hc1 & Hc2).
  split.
  { repeat (progress cbn [app filter is_closed_feedback]
            || rewrite filter_app
            || rewrite filter_closed_feedback_events
            || rewrite (proj1 (cleanup_events_quiet cfg env _ _ _))).
    reflexivity. }
  split; [exact Hc1 |]. split; [exact Hc2 |]. split; [| split; reflexivity].
  repeat (progress cbn [app filter is_software_ready]
          || rewrite filter_app
          || rewrite feedback_events_not_ready
          || rewrite (proj1 (proj2 (cleanup_events_quiet cfg env _ _ _)))).
  reflexivity.
Qed.

Lemma checksum_mismatch_ends_session_witness :
  let cfg := demo_config (Some "tok") None false in
  let env := demo_env (ok_reply base_idle) (http_reply 404) zeros_downloaded true in
  sha1 artifact_42 <> Some sha1_of_zeros
  /\ action_id (snd (download_thread cfg env artifact_42 busy_state)) = None.
Proof.
  cbv zeta.
  assert (sha1 artifact_42 <> Some sha1_of_zeros) as Hne by discriminate.
  split; [exact Hne |].
  destruct (checksum_mismatch_ends_session (demo_config (Some "tok") None false)
              (demo_env (ok_reply base_idle) (http_reply 404) zeros_downloaded true)
              artifact_42 busy_state sha1_of_zeros 3145728 eq_refl Hne)
    as (evs & now & st_before & _ & _ & _ & _ & _ & _ & Hid).
  exact Hid.
Defined.

(** ** C4: deployment resources that cannot be used *)

(** The parse-failure exit: one failure feedback, then teardown. *)
Lemma parse_error_exit_closed_form cfg env furl a st :
  parse_error_exit cfg env furl a st
  = (inl (parse_error env),
     snd (process_deployment_cleanup cfg env
            (append_trace st
               (feedback_events cfg (current_time env (trace st)) furl (action_id st)
                  (Some parse_failure) "failure" "closed"
                ++ match a with
                   | Some x => [EvArtifactFree x]
                   | None => []
                   end)))).
Proof.
  unfold parse_error_exit, proc_error, process_artifact_cleanup, bind, load_action_id.
  destruct (feedback cfg env furl (action_id st) (Some parse_failure) "failure" "closed" st)
    as [b s] eqn:E.
  apply (f_equal snd) in E. rewrite feedback_effect in E. simpl in E. subst s.
  destruct a as [x |].
  - rewrite emit_append_trace, append_trace_app.
    destruct (process_deployment_cleanup cfg env _) as [[] s]. reflexivity.
  - unfold ret. rewrite app_nil_r.
    destruct (process_deployment_cleanup cfg env _) as [[] s]. reflexivity.
Qed.

(** [process_deployment] up to the point where the action ID is committed. *)
Lemma process_deployment_committed cfg env root st href resp_root st1 id :
  action_id st = None ->
  json_get_string root ["_links"; "deploymentBase"; "href"] = Some href ->
  rest_request cfg env GET href None true st = (inr resp_root, st1) ->
  json_get_string resp_root ["id"] = Some id ->
  advertised_download_url resp_root = None ->
  exists a,
    process_deployment cfg env root st
    = parse_error_exit cfg env (feedback_url_for cfg (Some id)) a
        (mkState (Some id) (thread_download st1) (bundle_exists st1) (rebooted st1)
           (trace st1 ++ [EvStoreActionId (Some id)])).
Proof.
  intros Hidle Hhref Hget Hid Hurl.
  unfold process_deployment. unfold bind at 1. unfold load_action_id at 1.
  rewrite Hidle, Hhref. unfold bind at 1. rewrite Hget.
  unfold bind at 1. unfold store_action_id. rewrite Hid.
  unfold bind at 1. unfold load_action_id at 1. cbn [action_id].
  unfold advertised_download_url, first_artifact, first_chunk in Hurl.
  destruct (json_get_array resp_root ["deployment"; "chunks"]) as [[| json_chunk chunks] |];
    try (exists None; reflexivity).
  destruct (json_get_array (Some json_chunk) ["artifacts"])
    as [[| json_artifact artifacts] |]; try (exists None; reflexivity).
  destruct (json_get_string (Some json_artifact) ["_links"; "download"; "href"]);
    [discriminate |].
  rewrite Hurl. eexists (Some _). reflexivity.
Qed.

(** C4, as stated, fails for a resource without [id]: the intake returns an
    error, but it POSTs no feedback at all (there is no action to address it
    to).  It also fails for a resource whose artifact declares no SHA-1: the
    intake succeeds and starts the worker. *)
Lemma process_deployment_without_id_sends_nothing :
  let cfg := demo_config (Some "tok") None false in
  let no_id := demo_env (ok_reply base_offer) (ok_reply deployment_without_id)
                 FopenFailed true in
  let no_sha1 := demo_env (ok_reply base_offer) (ok_reply deployment_without_sha1)
                   FopenFailed true in
  let r1 := process_deployment cfg no_id (Some base_offer) idle_state in
  let r2 := process_deployment cfg no_sha1 (Some base_offer) idle_state in
  json_get_string (Some deployment_without_id) ["id"] = None
  /\ succeeded (fst r1) = false
  /\ filter is_post (trace (snd r1)) = []
  /\ first_artifact (Some deployment_without_sha1) <> None
  /\ json_get_string (first_artifact (Some deployment_without_sha1)) ["hashes"; "sha1"]
     = None
  /\ succeeded (fst r2) = true
  /\ filter is_post (trace (snd r2)) = []
  /\ filter is_thread_new (trace (snd r2)) <> [].
Proof. cbv zeta. repeat split; try reflexivity; discriminate. Qed.

(** C4 (amended): once the deployment GET has succeeded, a resource without
    [id] makes [process_deployment] return an error without any feedback;
    a resource with an [id] but without a first chunk, without a first
    artifact in it, or without a download link in that artifact makes it
    POST one feedback (failure, closed, "Failed to parse deployment
    resource.") for that id, run teardown and return the parse error.  In
    neither case is a worker started or the worker handle touched. *)
Theorem process_deployment_unusable_resource cfg env root st href resp_root st1 :
  action_id st = None ->
  json_get_string root ["_links"; "deploymentBase"; "href"] = Some href ->
  rest_request cfg env GET href None true st = (inr resp_root, st1) ->
  let result := process_deployment cfg env root st in
  (json_get_string resp_root ["id"] = None ->
     result = (inl (mkGError 1 1 "Failed to parse deployment base response."),
               mkState None (thread_download st1) (bundle_exists st1) (rebooted st1)
                 (trace st1 ++ [EvStoreActionId None])))
  /\ (forall id,
        json_get_string resp_root ["id"] = Some id ->
        first_chunk resp_root = None \/ first_artifact resp_root = None
        \/ advertised_download_url resp_root = None ->
        exists evs now,
          fst result = inl (parse_error env)
          /\ trace (snd result) = (trace st1 ++ EvStoreActionId (Some id) :: evs)%list
          /\ filter is_post evs
             = [EvRequest POST (feedback_url_for cfg (Some id))
                  (rest_request_headers cfg true)
                  (Some (envelope_node now (Some id) (Some parse_failure)
                           "failure" "closed" None))]
          /\ filter is_thread_new evs = []
          /\ thread_download (snd result) = thread_download st
          /\ action_id (snd result) = None).
Proof.
  intros Hidle Hhref Hget. cbv zeta. split.
  - intros Hid. unfold process_deployment. unfold bind at 1. unfold load_action_id at 1.
    rewrite Hidle, Hhref. unfold bind at 1. rewrite Hget.
    unfold bind at 1. unfold store_action_id. rewrite Hid.
    unfold bind at 1. unfold load_action_id at 1. cbn [action_id]. reflexivity.
  - intros id Hid Hmissing.
    assert (advertised_download_url resp_root = None) as Hurl.
    { unfold advertised_download_url, first_artifact.
      destruct Hmissing as [H | [H | H]]; [now rewrite H | | exact H].
      unfold first_artifact in H. now rewrite H. }
    destruct (process_deployment_committed _ _ _ _ _ _ _ _ Hidle Hhref Hget Hid Hurl)
      as [a ->].
    rewrite parse_error_exit_closed_form, process_deployment_cleanup_closed_form.
    cbn [fst snd trace action_id thread_download append_trace].
    assert (thread_download st1 = thread_download st) as Hth.
    { apply (f_equal snd) in Hget. rewrite rest_request_effect in Hget. simpl in Hget.
      now subst st1. }
    eexists. eexists.
    split; [reflexivity |].
    split; [rewrite <- !app_assoc; reflexivity |].
    split; [| split; [| split; [exact Hth | reflexivity]]].
    + unfold feedback_events.
      repeat (progress cbn [app filter is_post]
              || rewrite filter_app
              || rewrite (proj1 (proj2 (proj2 (cleanup_events_quiet cfg env _ _ _))))).
      destruct a; reflexivity.
    + unfold feedback_events.
      repeat (progress cbn [app filter is_thread_new]
              || rewrite filter_app
              || rewrite (proj2 (proj2 (proj2 (cleanup_events_quiet cfg env _ _ _))))).
      destruct a; reflexivity.
Qed.

Lemma process_deployment_unusable_resource_witness :
  let cfg := demo_config (Some "tok") None false in
  let env := demo_env (ok_reply base_offer) (ok_reply deployment_without_chunks)
               FopenFailed true in
  let result := process_deployment cfg env (Some base_offer) idle_state in
  action_id idle_state = None
  /\ first_chunk (Some deployment_without_chunks) = None
  /\ fst result = inl (parse_error env)
  /\ thread_download (snd result) = None
  /\ action_id (snd result) = None.
Proof.
  cbv zeta. split; [reflexivity | split; [reflexivity |]].
  destruct (proj2 (process_deployment_unusable_resource
                     (demo_config (Some "tok") None false)
                     (demo_env (ok_reply base_offer) (ok_reply deployment_without_chunks)
                        FopenFailed true)
                     (Some base_offer) idle_state deployment_href
                     (Some deployment_without_chunks) _ eq_refl eq_refl eq_refl)
              "42" eq_refl (or_introl eq_refl))
    as (evs & now & Hres & _ & _ & _ & Hth & Hid).
  split; [exact Hres | split; [exact Hth | exact Hid]].
Defined.

(** * Further properties of the client *)

(** ** Ticks between polls *)

Lemma hawkbit_pull_cb_waiting cfg env run_once data st :
  last_run_sec data + 1 < hawkbit_interval_check_sec data ->
  hawkbit_pull_cb cfg env run_once data st
  = ((G_SOURCE_CONTINUE,
      mkClientData (loop_running data) (res data) (hawkbit_interval_check_sec data)
        (last_run_sec data + 1)), st).
Proof.
  intros Hwait. unfold hawkbit_pull_cb. simpl.
  replace (last_run_sec data + 1 <? hawkbit_interval_check_sec data) with true
    by (symmetry; apply Z.ltb_lt; lia).
  reflexivity.
Qed.

Lemma run_ticks_waiting cfg env run_once (k : nat) data st :
  last_run_sec data + Z.of_nat k < hawkbit_interval_check_sec data ->
  run_ticks cfg env run_once k data st
  = (mkClientData (loop_running data) (res data) (hawkbit_interval_check_sec data)
       (last_run_sec data + Z.of_nat k), st)
  /\ (last_run_sec data + Z.of_nat k + 1 = hawkbit_interval_check_sec data ->
      tick_is_due (fst (run_ticks cfg env run_once k data st))).
Proof.
  revert data. induction k as [| k IH]; intros data Hlt.
  - split.
    + simpl. unfold ret. destruct data. simpl. now rewrite Z.add_0_r.
    + intros Heq. simpl. unfold tick_is_due. simpl. lia.
  - assert (run_ticks cfg env run_once (S k) data st
            = (mkClientData (loop_running data) (res data)
                 (hawkbit_interval_check_sec data)
                 (last_run_sec data + Z.of_nat (S k)), st)) as Hrun.
    { cbn [run_ticks]. unfold bind. rewrite hawkbit_pull_cb_waiting by lia.
      cbn [snd].
      destruct (IH (mkClientData (loop_running data) (res data)
                      (hawkbit_interval_check_sec data) (last_run_sec data + 1)))
        as [Hk _]; [simpl; lia |].
      rewrite Hk. simpl. do 2 f_equal. lia. }
    split; [exact Hrun |].
    intros Heq. rewrite Hrun. unfold tick_is_due. simpl. lia.
Qed.

(** X1: as long as the counter stays below the interval, ticks do nothing but
    count: [k] ticks leave the state and its trace untouched (no request, no
    log line) and advance [last_run_sec] by [k]; the tick after them is the
    one that polls when the counter reaches the interval. *)
Theorem ticks_before_interval_only_count cfg env run_once (k : nat) data st :
  last_run_sec data + Z.of_nat k < hawkbit_interval_check_sec data ->
  run_ticks cfg env run_once k data st
  = (mkClientData (loop_running data) (res data) (hawkbit_interval_check_sec data)
       (last_run_sec data + Z.of_nat k), st)
  /\ (last_run_sec data + Z.of_nat k + 1 = hawkbit_interval_check_sec data ->
      tick_is_due (fst (run_ticks cfg env run_once k data st))).
Proof. apply run_ticks_waiting. Qed.

Lemma ticks_before_interval_only_count_witness :
  let cfg := demo_config (Some "tok") None false in
  let env := demo_env (ok_reply base_idle) (http_reply 404) FopenFailed true in
  run_ticks cfg env false 299 (mkClientData true None 300 0) busy_state
  = (mkClientData true None 300 299, busy_state).
Proof.
  cbv zeta.
  refine (proj1 (ticks_before_interval_only_count _ _ false 299
                   (mkClientData true None 300 0) busy_state _)).
  simpl. lia.
Defined.

(** ** A failed base poll *)

Lemma hawkbit_pull_cb_failed_poll cfg env run_once data st error st1 :
  tick_is_due data ->
  base_poll cfg env st = (inl error, st1) ->
  hawkbit_pull_cb cfg env run_once data st
  = pull_out run_once false
      (mkClientData (loop_running data) (res data) (retry_wait cfg) 0)
      (append_trace st1 (poll_failure_warnings cfg env error)).
Proof.
  unfold tick_is_due, base_poll. intros Hdue Hget. simpl in Hget.
  unfold hawkbit_pull_cb. simpl.
  replace (last_run_sec data + 1 <? hawkbit_interval_check_sec data) with false
    by (symmetry; apply Z.ltb_ge; lia).
  unfold bind at 1. simpl. unfold bind at 1. rewrite Hget.
  unfold bind at 1. unfold poll_failure_warnings.
  destruct (g_error_matches error (RHU_HAWKBIT_CLIENT_HTTP_ERROR env) 401).
  - unfold bind, when, g_log.
    destruct (auth_token cfg), (gateway_token cfg); simpl; unfold ret, append_trace;
      simpl; rewrite <- ?app_assoc, ?app_nil_r; try reflexivity.
    destruct st1; reflexivity.
  - unfold g_log. rewrite emit_append_trace. reflexivity.
Qed.

(** X2: a due tick whose base GET failed issues no further request.  After
    the GET it logs warnings only: for HTTP 401 one warning per configured
    token, hence none at all when no token is configured; for any other
    error one warning with the message and the code.  It resets the interval
    to [retry_wait] and the counter to 0, and leaves through [out] with a
    false result. *)
Theorem failed_poll_warns_and_backs_off cfg env run_once data st error st1 :
  tick_is_due data ->
  base_poll cfg env st = (inl error, st1) ->
  hawkbit_pull_cb cfg env run_once data st
  = pull_out run_once false
      (mkClientData (loop_running data) (res data) (retry_wait cfg) 0)
      (append_trace st1 (poll_failure_warnings cfg env error)).
Proof. apply hawkbit_pull_cb_failed_poll. Qed.

Lemma failed_poll_warns_and_backs_off_witness :
  let cfg := demo_config None None false in
  let env := demo_env (http_reply 401) (http_reply 404) FopenFailed true in
  let tick := hawkbit_pull_cb cfg env false waited_data idle_state in
  hawkbit_interval_check_sec (snd (fst tick)) = 60
  /\ trace (snd tick)
     = [EvLog LMessage "Checking for new software...";
        EvRequest GET base_url ["Accept: application/json;charset=UTF-8"] None].
Proof.
  cbv zeta.
  assert (tick_is_due waited_data) as Hdue by (unfold tick_is_due; simpl; lia).
  rewrite (failed_poll_warns_and_backs_off (demo_config None None false)
             (demo_env (http_reply 401) (http_reply 404) FopenFailed true)
             false waited_data idle_state _ _ Hdue eq_refl).
  split; reflexivity.
Defined.

(** ** The service loop *)

Lemma hawkbit_pull_cb_keeps_running cfg env data st :
  loop_running (snd (fst (hawkbit_pull_cb cfg env false data st))) = loop_running data.
Proof.
  unfold hawkbit_pull_cb. simpl.
  destruct (last_run_sec data + 1 <? hawkbit_interval_check_sec data); [reflexivity |].
  unfold bind at 1. simpl. unfold bind at 1.
  destruct (rest_request cfg env GET (build_api_url cfg None) None true _)
    as [[error | root] st1].
  - unfold bind. run_step. reflexivity.
  - unfold bind. destruct (json_get_sleeptime cfg env root st1) as [sleeptime st2].
    repeat run_step; reflexivity.
Qed.

(** X3: without [run_once] nothing ever ends the loop: whatever the server,
    the file system and the sessions do, after any number of ticks the loop
    is still running and [hawkbit_start_service_sync] has not returned. *)
Theorem service_loop_never_quits cfg env (fuel : nat) st :
  fst (hawkbit_start_service_sync cfg env false fuel st) = None
  /\ forall data st', loop_running data = true ->
       fst (g_main_loop_run cfg env false fuel data st') = None.
Proof.
  assert (forall data st', loop_running data = true ->
            fst (g_main_loop_run cfg env false fuel data st') = None) as Hloop.
  { induction fuel as [| fuel IH]; intros data st' Hrun; [reflexivity |].
    cbn [g_main_loop_run]. unfold bind.
    pose proof (hawkbit_pull_cb_keeps_running cfg env data st') as Hkeep.
    destruct (hawkbit_pull_cb cfg env false data st') as [r st2]. simpl in Hkeep.
    rewrite Hkeep, Hrun. apply IH. now rewrite Hkeep. }
  split; [| exact Hloop].
  unfold hawkbit_start_service_sync, bind.
  specialize (Hloop (mkClientData true None (retry_wait cfg) (retry_wait cfg)) st eq_refl).
  destruct (g_main_loop_run cfg env false fuel _ st) as [[cdata |] st2];
    [discriminate | reflexivity].
Qed.

(** ** A tick during a session *)

Lemma request_events_poll cfg method url body :
  method = GET \/ method = PUT ->
  forallb is_poll_event (request_events cfg method url body) = true.
Proof.
  intros Hm. unfold request_events.
  destruct (match body with Some b => json_builder_get_root b | None => None end);
    destruct Hm as [-> | ->]; reflexivity.
Qed.

Lemma response_events_poll r : forallb is_poll_event (response_events r) = true.
Proof. destruct r as [error | [node |]]; reflexivity. Qed.

Lemma base_poll_events cfg env st :
  exists evs,
    snd (base_poll cfg env st) = append_trace st evs
    /\ forallb is_poll_event evs = true.
Proof.
  unfold base_poll, g_log. rewrite emit_append_trace. cbn [snd].
  rewrite rest_request_effect, append_trace_app. eexists. split; [reflexivity |].
  cbn [app forallb is_poll_event andb]. rewrite forallb_app.
  rewrite request_events_poll by (left; reflexivity).
  now rewrite response_events_poll.
Qed.

Lemma identify_phase_events cfg env root st :
  exists evs,
    snd (identify_phase cfg env root st) = append_trace st evs
    /\ forallb is_poll_event evs = true.
Proof.
  unfold identify_phase.
  destruct (json_contains root ["_links"; "configData"]).
  - unfold bind. destruct (identify cfg env st) as [r st'] eqn:E.
    apply (f_equal snd) in E. rewrite identify_effect in E. simpl in E. subst st'.
    destruct r as [error | []].
    + eexists. unfold g_log, ret. rewrite emit_append_trace.
      rewrite append_trace_app. split; reflexivity.
    + eexists. split; reflexivity.
  - exists []. split; [now rewrite append_trace_nil | reflexivity].
Qed.

Lemma pull_out_events run_once ok data st :
  snd (pull_out run_once ok data st)
  = append_trace st (if run_once then [EvLoopQuit] else []).
Proof.
  unfold pull_out. destruct run_once; [reflexivity |].
  simpl. now rewrite append_trace_nil.
Qed.

Lemma poll_failure_warnings_poll cfg env error :
  forallb is_poll_event (poll_failure_warnings cfg env error) = true.
Proof.
  unfold poll_failure_warnings.
  destruct (g_error_matches _ _ _); [| reflexivity].
  destruct (is_some (auth_token cfg)), (is_some (gateway_token cfg)); reflexivity.
Qed.

(** X4: a timer tick never disturbs an active session.  Whatever the tick
    does (wait, fail to poll, identify, be offered a deployment, be asked to
    cancel), when the action ID is set beforehand the state afterwards
    differs by trace only, and the new events are log lines, GET and PUT
    requests and the loop's end: no feedback POST, no store to the action ID,
    no worker joined or started, no file removed. *)
Theorem tick_keeps_active_session cfg env run_once data st id :
  action_id st = Some id ->
  exists evs,
    snd (hawkbit_pull_cb cfg env run_once data st) = append_trace st evs
    /\ forallb is_poll_event evs = true.
Proof.
  intros Hid.
  destruct (Z.ltb_spec (last_run_sec data + 1) (hawkbit_interval_check_sec data))
    as [Hwait | Hdue].
  - rewrite hawkbit_pull_cb_waiting by assumption.
    exists []. split; [now rewrite append_trace_nil | reflexivity].
  - assert (tick_is_due data) as Hd by exact Hdue.
    destruct (base_poll_events cfg env st) as (evs1 & Hst1 & Hp1).
    destruct (base_poll cfg env st) as [[error | root] st1] eqn:Epoll; simpl in Hst1.
    + rewrite (hawkbit_pull_cb_failed_poll _ _ run_once _ _ _ _ Hd Epoll).
      rewrite pull_out_events. subst st1. rewrite !append_trace_app.
      eexists. split; [reflexivity |].
      rewrite !forallb_app, Hp1, poll_failure_warnings_poll.
      destruct run_once; reflexivity.
    + rewrite (hawkbit_pull_cb_polled _ _ run_once _ _ _ _ Hd Epoll).
      destruct (identify_phase_events cfg env root st1) as (evs2 & Hst2 & Hp2).
      unfold bind at 1.
      destruct (identify_phase cfg env root st1) as [ok1 st2]. simpl in Hst2.
      assert (action_id st2 = Some id) as Hid2 by (subst st2 st1; exact Hid).
      unfold bind, deployment_phase, cancel_phase, when.
      destruct (json_contains root ["_links"; "deploymentBase"]).
      * unfold bind. rewrite (process_deployment_busy _ _ _ _ _ Hid2).
        rewrite g_error_matches_already_in_progress.
        unfold g_log, ret. rewrite emit_append_trace.
        destruct (json_contains root ["_links"; "cancelAction"]);
          rewrite ?emit_append_trace, pull_out_events; subst st2 st1;
          rewrite !append_trace_app; eexists; (split; [reflexivity |]);
          rewrite !forallb_app, Hp1, Hp2; destruct run_once; reflexivity.
      * unfold bind, g_log, ret. rewrite emit_append_trace.
        destruct (json_contains root ["_links"; "cancelAction"]);
          rewrite ?emit_append_trace, pull_out_events; subst st2 st1;
          rewrite !append_trace_app; eexists; (split; [reflexivity |]);
          rewrite !forallb_app, Hp1, Hp2; destruct run_once; reflexivity.
Qed.

Lemma tick_keeps_active_session_witness :
  let cfg := demo_config (Some "tok") None false in
  let env := demo_env (ok_reply base_offer) (ok_reply deployment_42) FopenFailed true in
  action_id (snd (hawkbit_pull_cb cfg env false due_data busy_state)) = Some "42"
  /\ thread_download (snd (hawkbit_pull_cb cfg env false due_data busy_state))
     = Some artifact_42.
Proof.
  cbv zeta.
  destruct (tick_keeps_active_session (demo_config (Some "tok") None false)
              (demo_env (ok_reply base_offer) (ok_reply deployment_42) FopenFailed true)
              false due_data busy_state "42" eq_refl) as (evs & Hst & _).
  rewrite Hst. split; reflexivity.
Defined.

(** ** Outcome of a REST request *)

Lemma rest_request_closed_form cfg env method url body want st :
  rest_request cfg env method url body want st
  = (rest_outcome env want (rest_reply cfg env method url body st),
     append_trace st
       (request_events cfg method url body
        ++ response_events (rest_outcome env want (rest_reply cfg env method url body st)))).
Proof.
  unfold rest_request, rest_reply, rest_outcome, request_events, bind, ask, ret.
  destruct (match body with Some b => json_builder_get_root b | None => None end)
    as [r |]; simpl; rewrite <- ?app_assoc; simpl;
    match goal with
    | |- context [curl_perform env ?t method url] =>
        destruct (curl_perform env t method url) as [cres cstr http pl]
    end; simpl;
    destruct (cres =? CURLE_OK); simpl; try reflexivity;
    destruct (http =? 200); simpl; try reflexivity;
    destruct want; simpl; try reflexivity;
    destruct pl; simpl; unfold append_trace; simpl;
    rewrite <- ?app_assoc; reflexivity.
Qed.


(** ** Progress and identify *)

(** X6: [hawkbit_progress] always removes its source.  Without a session it
    does nothing at all; within session [id] it POSTs one feedback to that
    action's feedback URL, with that id, the message as only detail, result
    [none] and execution [proceeding], and changes nothing but the trace. *)
Theorem hawkbit_progress_reports_within_session cfg env msg st :
  fst (hawkbit_progress cfg env msg st) = G_SOURCE_REMOVE
  /\ snd (hawkbit_progress cfg env msg st)
     = match action_id st with
       | None => st
       | Some id =>
           append_trace st
             (feedback_events cfg (current_time env (trace st))
                (feedback_url_for cfg (Some id)) (Some id) msg "none" "proceeding")
       end.
Proof.
  unfold hawkbit_progress, bind, load_action_id.
  destruct (action_id st) as [id |] eqn:Hid; [| split; reflexivity].
  destruct (feedback_progress cfg env _ _ msg st) as [b s] eqn:E.
  apply (f_equal snd) in E. rewrite feedback_progress_effect in E. simpl in E. subst s.
  split; reflexivity.
Qed.

Lemma envelope_fields now id detail result execution data :
  let envelope := envelope_node now id detail result execution data in
  json_get_string (Some envelope) ["id"] = id
  /\ json_get_string (Some envelope) ["time"] = Some now
  /\ json_get_string (Some envelope) ["status"; "execution"] = Some execution
  /\ json_get_string (Some envelope) ["status"; "result"; "finished"] = Some result
  /\ json_get_array (Some envelope) ["status"; "details"]
     = option_map (fun d => [JsonString d]) detail
  /\ json_path_query ["data"] envelope
     = option_map (fun entries => JsonObject (data_members entries)) data.
Proof.
  cbv zeta. unfold envelope_node, status_node.
  destruct id, detail, data; repeat split; reflexivity.
Qed.

(** X7: [identify] logs one debug line and issues exactly one request, a PUT
    to [<base>/configData], and changes nothing but the trace.  The envelope
    it sends has no [id], execution [closed], result [success], no details,
    and a [data] object built from the configured device attributes (absent
    if there is no table). *)
Theorem identify_sends_device_attributes cfg env st :
  exists envelope,
    snd (identify cfg env st)
    = append_trace st
        [EvLog LDebug "Identifying ourself to hawkbit server";
         EvLogJson LDebug "Request body" envelope;
         EvRequest PUT (build_api_url cfg (Some "configData"))
           (rest_request_headers cfg true) (Some envelope)]
    /\ json_get_string (Some envelope) ["id"] = None
    /\ json_get_string (Some envelope) ["status"; "execution"] = Some "closed"
    /\ json_get_string (Some envelope) ["status"; "result"; "finished"] = Some "success"
    /\ json_get_array (Some envelope) ["status"; "details"] = None
    /\ json_path_query ["data"] envelope
       = option_map (fun entries => JsonObject (data_members entries)) (device cfg).
Proof.
  eexists. split; [apply identify_effect |].
  destruct (envelope_fields
              (current_time env
                 (trace st ++ [EvLog LDebug "Identifying ourself to hawkbit server"]))
              None None "success" "closed" (device cfg))
    as (H1 & _ & H3 & H4 & H5 & H6).
  repeat split; assumption.
Qed.

(** ** Members of the [data] object *)

Lemma get_member_set_same ms key v :
  json_object_get_member key (json_object_set_member ms key v) = Some v.
Proof.
  induction ms as [| [k w] ms IH]; simpl.
  - now rewrite String.eqb_refl.
  - destruct (String.eqb k key) eqn:E; simpl; rewrite E; [reflexivity | exact IH].
Qed.

Lemma get_member_set_other ms key key' v :
  key <> key' ->
  json_object_get_member key' (json_object_set_member ms key v)
  = json_object_get_member key' ms.
Proof.
  intros Hne. induction ms as [| [k w] ms IH]; simpl.
  - destruct (String.eqb_spec key key'); [contradiction | reflexivity].
  - destruct (String.eqb_spec k key) as [-> | Hk]; simpl.
    + destruct (String.eqb_spec key key'); [contradiction | reflexivity].
    + destruct (String.eqb k key'); [reflexivity | exact IH].
Qed.

Lemma set_member_names ms key v :
  map fst (json_object_set_member ms key v)
  = if existsb (fun entry => String.eqb (fst entry) key) ms
    then map fst ms
    else (map fst ms ++ [key])%list.
Proof.
  induction ms as [| [k w] ms IH]; simpl; [reflexivity |].
  destruct (String.eqb k key); simpl; [reflexivity |].
  rewrite IH. destruct (existsb _ ms); reflexivity.
Qed.

Lemma set_member_keeps_names_unique ms key v :
  NoDup (map fst ms) -> NoDup (map fst (json_object_set_member ms key v)).
Proof.
  induction ms as [| [k w] ms IH]; simpl; intros Hnd.
  - repeat constructor. intros [].
  - destruct (String.eqb_spec k key) as [-> | Hne]; simpl; [exact Hnd |].
    inversion Hnd as [| x l Hnotin Hrest]. subst.
    constructor; [| now apply IH].
    rewrite set_member_names.
    destruct (existsb _ ms); [exact Hnotin |].
    intros Hin. apply in_app_or in Hin. destruct Hin as [Hin | [Heq | []]].
    + contradiction.
    + now subst.
Qed.

Lemma fold_string_member_lookup entries :
  forall ms key,
    json_object_get_member key (fold_left string_member entries ms)
    = match last_binding key entries with
      | Some v => Some (JsonString v)
      | None => json_object_get_member key ms
      end.
Proof.
  unfold last_binding.
  assert (forall found key (l : GHashTable),
            fold_left (fun found entry =>
                         if String.eqb (fst entry) key then Some (snd entry) else found)
              l found
            = match fold_left (fun found entry =>
                         if String.eqb (fst entry) key then Some (snd entry) else found)
                      l None with
              | Some v => Some v
              | None => found
              end) as Hacc.
  { intros found key l. revert found.
    induction l as [| [k v] l IH]; intros found; simpl; [reflexivity |].
    destruct (String.eqb k key).
    - rewrite IH. destruct (fold_left _ l None); reflexivity.
    - apply IH. }
  induction entries as [| [k v] entries IH]; intros ms key; simpl; [reflexivity |].
  rewrite IH. unfold string_member. simpl.
  destruct (String.eqb_spec k key) as [-> | Hne].
  - rewrite (Hacc (Some v)). destruct (fold_left _ entries None); [reflexivity |].
    apply get_member_set_same.
  - destruct (fold_left _ entries None); [reflexivity |].
    now apply get_member_set_other.
Qed.

Lemma fold_string_member_unique entries :
  forall ms, NoDup (map fst ms) -> NoDup (map fst (fold_left string_member entries ms)).
Proof.
  induction entries as [| entry entries IH]; intros ms Hnd; simpl; [exact Hnd |].
  apply IH. unfold string_member. now apply set_member_keeps_names_unique.
Qed.

(** X8: the [data] object that [json_build_status] builds from a table has
    one member per key, whatever the iterator yields: member names are
    unique, and looking a key up in the finished envelope gives the value
    the table's iteration bound to it last, or nothing for a key that never
    occurred. *)
Theorem status_data_lookup timeString id detail result execution entries key :
  json_get_string (status_envelope timeString id detail result execution (Some entries))
    ["data"; key]
  = last_binding key entries
  /\ NoDup (map fst (data_members entries)).
Proof.
  split.
  - rewrite status_envelope_closed_form. unfold json_get_string.
    assert (json_path_query ["data"; key]
              (envelope_node timeString id detail result execution (Some entries))
            = json_object_get_member key (data_members entries)) as Hq.
    { unfold envelope_node, status_node. destruct id; simpl;
        destruct (json_object_get_member key (data_members entries)); reflexivity. }
    rewrite Hq. unfold data_members. rewrite fold_string_member_lookup. simpl.
    destruct (last_binding key entries); reflexivity.
  - unfold data_members. apply fold_string_member_unique. constructor.
Qed.

(** ** Bounds of [strptime] *)






(** ** Completion of an installation *)

Lemma install_complete_cb_closed_form cfg env install_success st id :
  action_id st = Some id ->
  rebooted st = false ->
  let reported := completion_reported cfg env install_success id st in
  install_complete_cb cfg env install_success st
  = if install_success && post_update_reboot cfg then
      let down := append_trace (snd (process_deployment_cleanup cfg env reported))
                    [EvSync; EvReboot] in
      match reboot_error env (trace down) with
      | Some strerror =>
          (G_SOURCE_REMOVE,
           snd (process_deployment_cleanup cfg env
                  (append_trace down [EvLog LCritical ("Failed to reboot: " ++ strerror)])))
      | None => (G_SOURCE_REMOVE, with_rebooted down)
      end
    else (G_SOURCE_REMOVE, snd (process_deployment_cleanup cfg env reported)).
Proof.
  intros Hid Hup. cbv zeta. unfold install_complete_cb, completion_reported.
  unfold bind at 1. unfold load_action_id at 1. rewrite Hid.
  unfold bind at 1.
  destruct install_success; cbn [completion_level completion_text completion_result andb].
  - unfold bind at 1. unfold g_log at 1. rewrite emit_append_trace.
    unfold bind at 1.
    match goal with
    | |- context [feedback cfg env ?u ?i ?d ?f ?x ?s] =>
        destruct (feedback cfg env u i d f x s) as [b s1] eqn:E
    end.
    apply (f_equal snd) in E. rewrite feedback_effect in E. simpl in E.
    rewrite append_trace_app in E. subst s1. cbn [app].
    destruct (post_update_reboot cfg).
    + unfold bind at 1. rewrite process_deployment_cleanup_closed_form.
      unfold bind at 1. rewrite emit_append_trace.
      unfold bind at 1. rewrite emit_append_trace, append_trace_app.
      unfold bind at 1. unfold ask at 1. cbn [app snd].
      match goal with
      | |- context [reboot_error env ?t] => destruct (reboot_error env t) as [strerror |]
      end.
      * unfold g_log. rewrite emit_append_trace. unfold bind, ret.
        cbn [rebooted append_trace]. rewrite ?Hup.
        match goal with
        | |- context [process_deployment_cleanup cfg env ?s] =>
            destruct (process_deployment_cleanup cfg env s) as [[] s2]
        end.
        reflexivity.
      * unfold set_rebooted. reflexivity.
    + unfold bind, ret. cbn [rebooted append_trace]. rewrite ?Hup.
      match goal with
      | |- context [process_deployment_cleanup cfg env ?s] =>
          destruct (process_deployment_cleanup cfg env s) as [[] s2]
      end.
      reflexivity.
  - unfold bind at 1. unfold g_log at 1. rewrite emit_append_trace.
    unfold bind at 1.
    match goal with
    | |- context [feedback cfg env ?u ?i ?d ?f ?x ?s] =>
        destruct (feedback cfg env u i d f x s) as [b s1] eqn:E
    end.
    apply (f_equal snd) in E. rewrite feedback_effect in E. simpl in E.
    rewrite append_trace_app in E. subst s1. cbn [app].
    unfold bind, ret. cbn [rebooted append_trace]. rewrite ?Hup.
    match goal with
    | |- context [process_deployment_cleanup cfg env ?s] =>
        destruct (process_deployment_cleanup cfg env s) as [[] s2]
    end.
    reflexivity.
Qed.

Lemma cleanup_events_no_reboot cfg env t id present :
  filter is_sync_or_reboot (cleanup_events cfg env t id present) = [].
Proof.
  unfold cleanup_events. destruct present; simpl;
    [destruct (g_remove_ok env _ _) |]; reflexivity.
Qed.

(** Normalise a filter over a trace assembled from the known event lists. *)
Ltac filter_events cfg env :=
  repeat (progress cbn [app filter is_closed_feedback is_software_ready is_post
                          is_thread_new is_sync_or_reboot]
          || rewrite filter_app
          || rewrite filter_closed_feedback_events
          || rewrite feedback_events_not_ready
          || rewrite cleanup_events_no_reboot
          || rewrite (proj1 (cleanup_events_quiet cfg env _ _ _))
          || rewrite (proj1 (proj2 (cleanup_events_quiet cfg env _ _ _)))
          || rewrite (proj1 (proj2 (proj2 (cleanup_events_quiet cfg env _ _ _))))
          || rewrite (proj2 (proj2 (proj2 (cleanup_events_quiet cfg env _ _ _))))).

Lemma install_complete_cb_session_events cfg env install_success st id :
  action_id st = Some id ->
  rebooted st = false ->
  let st' := snd (install_complete_cb cfg env install_success st) in
  exists evs now,
    trace st' = (trace st ++ evs)%list
    /\ filter is_closed_feedback evs
       = [EvRequest POST (feedback_url_for cfg (Some id)) (rest_request_headers cfg true)
            (Some (envelope_node now (Some id) (Some (completion_text install_success))
                     (completion_result install_success) "closed" None))]
    /\ filter is_sync_or_reboot evs
       = (if install_success && post_update_reboot cfg then [EvSync; EvReboot] else [])
    /\ action_id st' = None
    /\ thread_download st' = thread_download st
    /\ fst (install_complete_cb cfg env install_success st) = G_SOURCE_REMOVE.
Proof.
  intros Hid Hup. cbv zeta.
  rewrite (install_complete_cb_closed_form _ _ _ _ _ Hid Hup). cbv zeta.
  unfold completion_reported.
  destruct (install_success && post_update_reboot cfg).
  - rewrite !process_deployment_cleanup_closed_form.
    match goal with
    | |- context [reboot_error env ?t] => destruct (reboot_error env t) as [strerror |]
    end.
    + rewrite process_deployment_cleanup_closed_form.
      cbn [fst snd trace action_id thread_download append_trace with_rebooted].
      eexists. eexists.
      split; [rewrite <- !app_assoc; reflexivity |].
      split; [filter_events cfg env; reflexivity |].
      split; [filter_events cfg env; reflexivity |].
      repeat split; reflexivity.
    + cbn [fst snd trace action_id thread_download append_trace with_rebooted].
      eexists. eexists.
      split; [rewrite <- !app_assoc; reflexivity |].
      split; [filter_events cfg env; reflexivity |].
      split; [filter_events cfg env; reflexivity |].
      repeat split; reflexivity.
  - rewrite process_deployment_cleanup_closed_form.
    cbn [fst snd trace action_id thread_download append_trace].
    eexists. eexists.
    split; [rewrite <- !app_assoc; reflexivity |].
    split; [filter_events cfg env; reflexivity |].
    split; [filter_events cfg env; reflexivity |].
    repeat split; reflexivity.
Qed.

(** X11: when the installer reports completion for session [id] (on a
    system that is up), [install_complete_cb] sends exactly one closing
    feedback for that id, with result [success] or [failure] and the matching
    detail text, and returns with the action ID cleared and the worker handle
    untouched.  It syncs and reboots only after a successful installation
    with [post_update_reboot] set, and then exactly once. *)
Theorem install_complete_cb_closes_session cfg env install_success st id :
  action_id st = Some id ->
  rebooted st = false ->
  let st' := snd (install_complete_cb cfg env install_success st) in
  exists evs now,
    trace st' = (trace st ++ evs)%list
    /\ filter is_closed_feedback evs
       = [EvRequest POST (feedback_url_for cfg (Some id)) (rest_request_headers cfg true)
            (Some (envelope_node now (Some id) (Some (completion_text install_success))
                     (completion_result install_success) "closed" None))]
    /\ filter is_sync_or_reboot evs
       = (if install_success && post_update_reboot cfg then [EvSync; EvReboot] else [])
    /\ action_id st' = None
    /\ thread_download st' = thread_download st
    /\ fst (install_complete_cb cfg env install_success st) = G_SOURCE_REMOVE.
Proof. apply install_complete_cb_session_events. Qed.

Lemma install_complete_cb_closes_session_witness :
  let cfg := demo_config (Some "tok") None false in
  let env := demo_env (ok_reply base_idle) (http_reply 404) FopenFailed true in
  action_id busy_state = Some "42"
  /\ action_id (snd (install_complete_cb cfg env false busy_state)) = None.
Proof.
  cbv zeta. split; [reflexivity |].
  destruct (install_complete_cb_closes_session (demo_config (Some "tok") None false)
              (demo_env (ok_reply base_idle) (http_reply 404) FopenFailed true)
              false busy_state "42" eq_refl eq_refl)
    as (evs & now & _ & _ & _ & Hid & _).
  exact Hid.
Defined.

(** X12: with [post_update_reboot] set, a successful installation is
    reported and the session torn down before the system is synced and
    rebooted: [sync] and [reboot] directly follow the teardown.  If [reboot]
    succeeds nothing is recorded after it; if it fails, a critical line is
    logged and teardown runs once more, leaving the action ID cleared. *)
Theorem reboot_follows_teardown cfg env st id :
  action_id st = Some id ->
  rebooted st = false ->
  post_update_reboot cfg = true ->
  let reported := completion_reported cfg env true id st in
  let torn := snd (process_deployment_cleanup cfg env reported) in
  let st' := snd (install_complete_cb cfg env true st) in
  exists post,
    trace st' = (trace torn ++ EvSync :: EvReboot :: post)%list
    /\ action_id torn = None
    /\ action_id st' = None
    /\ match reboot_error env (trace torn ++ [EvSync; EvReboot]) with
       | None => post = [] /\ rebooted st' = true
       | Some strerror =>
           rebooted st' = false
           /\ exists rest,
                post = EvLog LCritical ("Failed to reboot: " ++ strerror)
                       :: EvStoreActionId None :: EvFree None :: rest
       end.
Proof.
  intros Hid Hup Hflag. cbv zeta.
  rewrite (install_complete_cb_closed_form _ _ _ _ _ Hid Hup). cbv zeta.
  rewrite Hflag. cbn [andb].
  rewrite !process_deployment_cleanup_closed_form.
  cbn [snd trace append_trace].
  match goal with
  | |- context [reboot_error env ?t] => destruct (reboot_error env t) as [strerror |]
  end.
  - rewrite process_deployment_cleanup_closed_form.
    cbn [snd trace action_id rebooted append_trace].
    eexists. split; [rewrite <- !app_assoc; reflexivity |].
    split; [reflexivity |]. split; [reflexivity |].
    split; [exact Hup |]. unfold cleanup_events. cbn [app]. eexists. reflexivity.
  - cbn [snd trace action_id rebooted with_rebooted].
    exists []. repeat split; reflexivity.
Qed.

Lemma reboot_follows_teardown_witness :
  let cfg := demo_config (Some "tok") None true in
  let env := demo_env (ok_reply base_idle) (http_reply 404) FopenFailed true in
  let st' := snd (install_complete_cb cfg env true busy_state) in
  post_update_reboot cfg = true
  /\ action_id st' = None
  /\ rebooted st' = false.
Proof.
  cbv zeta. split; [reflexivity |].
  destruct (reboot_follows_teardown (demo_config (Some "tok") None true)
              (demo_env (ok_reply base_idle) (http_reply 404) FopenFailed true)
              busy_state "42" eq_refl eq_refl eq_refl)
    as (post & _ & _ & Hid & Hmatch).
  split; [exact Hid |].
  simpl in Hmatch. destruct Hmatch as [Hre _]. exact Hre.
Defined.

(** ** The download worker: failed and verified downloads *)

Lemma get_binary_frame cfg env url file filesize st :
  let st1 := snd (get_binary cfg env url file filesize st) in
  action_id st1 = action_id st
  /\ thread_download st1 = thread_download st
  /\ rebooted st1 = rebooted st
  /\ (trace st1 = trace st
      \/ trace st1 = (trace st ++ [EvDownload url file (get_binary_headers cfg)])%list).
Proof.
  cbv zeta. unfold get_binary, bind, ask, ret, set_bundle_exists, emit.
  destruct (curl_download env (trace st) url file) as [| cres cstr http digest v].
  - simpl. repeat split; try reflexivity. now left.
  - simpl. destruct (cres =? CURLE_OK); simpl; [destruct (http =? 200) |];
      simpl; repeat split; try reflexivity; now right.
Qed.

Lemma download_thread_failed cfg env a st error st1 :
  download_outcome cfg env a st = (inl error, st1) ->
  download_thread cfg env a st
  = process_deployment_cleanup cfg env
      (append_trace st1
         (EvLog LCritical (download_failed_message error)
          :: feedback_events cfg
               (current_time env
                  (trace st1 ++ [EvLog LCritical (download_failed_message error)]))
               (feedback_url a) (action_id st)
               (Some (download_failed_message error)) "failure" "closed"
          ++ [EvArtifactFree a])).
Proof.
  unfold download_outcome. intros Hget.
  pose proof (get_binary_frame cfg env (download_url a) (bundle_download_location cfg)
                (size a)
                (snd (g_log LMessage ("Start downloading: " ++ printf_s (download_url a)) st)))
    as (Hid & _). rewrite Hget in Hid. simpl in Hid.
  unfold download_thread. unfold bind at 1. simpl. unfold bind at 1.
  simpl in Hget. rewrite Hget.
  unfold bind at 1. unfold g_log at 1. rewrite emit_append_trace.
  unfold bind at 1. unfold load_action_id at 1. cbn [action_id append_trace].
  rewrite Hid.
  unfold bind at 1.
  match goal with
  | |- context [feedback cfg env ?u ?i ?d ?f ?x ?s] =>
      destruct (feedback cfg env u i d f x s) as [b s1] eqn:E
  end.
  apply (f_equal snd) in E. rewrite feedback_effect in E. simpl in E.
  rewrite append_trace_app in E. subst s1.
  unfold bind at 1. unfold process_artifact_cleanup.
  rewrite emit_append_trace, append_trace_app.
  unfold download_failed_message. cbn [app]. rewrite <- ?app_assoc. reflexivity.
Qed.

(** X13: when the download fails (the file cannot be opened, the transfer
    breaks, or the status is not 200), the worker logs the failure as
    critical, sends exactly one closing feedback, a failure whose detail is
    "Download failed: " followed by the error message, never announces the
    software as ready, and ends with session teardown: the action ID is
    cleared and the worker handle is untouched. *)
Theorem failed_download_ends_session cfg env a st error :
  fst (download_outcome cfg env a st) = inl error ->
  let st' := snd (download_thread cfg env a st) in
  exists evs now,
    trace st' = (trace st ++ evs)%list
    /\ filter is_closed_feedback evs
       = [EvRequest POST (feedback_url a) (rest_request_headers cfg true)
            (Some (envelope_node now (action_id st)
                     (Some ("Download failed: " ++ message error)%string)
                     "failure" "closed" None))]
    /\ filter is_software_ready evs = []
    /\ In (EvLog LCritical ("Download failed: " ++ message error)%string) evs
    /\ action_id st' = None
    /\ thread_download st' = thread_download st.
Proof.
  intros Hget. cbv zeta.
  destruct (download_outcome cfg env a st) as [r st1] eqn:Eget. simpl in Hget. subst r.
  rewrite (download_thread_failed _ _ _ _ _ _ Eget).
  unfold download_outcome in Eget.
  pose proof (get_binary_frame cfg env (download_url a) (bundle_download_location cfg)
                (size a)
                (snd (g_log LMessage ("Start downloading: " ++ printf_s (download_url a)) st)))
    as (_ & Hth & _ & Htrace). rewrite Eget in Hth, Htrace. simpl in Hth, Htrace.
  rewrite process_deployment_cleanup_closed_form.
  cbn [snd trace action_id thread_download append_trace].
  unfold download_failed_message.
  destruct Htrace as [-> | ->]; eexists; eexists;
    (split; [rewrite <- !app_assoc; reflexivity |]);
    (split; [filter_events cfg env; reflexivity |]);
    (split; [filter_events cfg env; reflexivity |]);
    (split; [| split; [reflexivity | exact Hth]]).
  - right. left. reflexivity.
  - right. right. left. reflexivity.
Qed.

Lemma failed_download_ends_session_witness :
  let cfg := demo_config (Some "tok") None false in
  let env := demo_env (ok_reply base_idle) (http_reply 404) FopenFailed true in
  action_id (snd (download_thread cfg env artifact_42 busy_state)) = None.
Proof.
  cbv zeta.
  destruct (failed_download_ends_session (demo_config (Some "tok") None false)
              (demo_env (ok_reply base_idle) (http_reply 404) FopenFailed true)
              artifact_42 busy_state _ eq_refl)
    as (evs & now & _ & _ & _ & _ & Hid & _).
  exact Hid.
Defined.

Lemma download_thread_verified cfg env a st sha1sum speed st1 :
  download_outcome cfg env a st = (inr (sha1sum, speed), st1) ->
  sha1 a = Some sha1sum ->
  let id := action_id st in
  let complete := download_complete_message speed in
  let progress :=
    (feedback_events cfg (current_time env (trace st1)) (feedback_url a) id (Some complete)
       "none" "proceeding" ++ [EvLog LMessage complete; EvLog LMessage "File checksum OK."])%list in
  let verified :=
    feedback_events cfg (current_time env (trace st1 ++ progress)) (feedback_url a) id
      (Some "File checksum OK.") "none" "proceeding" in
  download_thread cfg env a st
  = (tt, append_trace st1
           (progress ++ verified
            ++ [EvArtifactFree a; EvSoftwareReady (bundle_download_location cfg)])).
Proof.
  unfold download_outcome. intros Hget Hsha. cbv zeta.
  pose proof (get_binary_success _ _ _ _ _ _ _ _ _ Hget) as Hst1. simpl in Hst1.
  unfold download_thread. unfold bind at 1. simpl. unfold bind at 1.
  simpl in Hget. rewrite Hget.
  unfold bind at 1. unfold load_action_id at 1.
  replace (action_id st1) with (action_id st) by (subst st1; reflexivity).
  unfold bind at 1.
  destruct (feedback_progress cfg env (feedback_url a) (action_id st) _ st1)
    as [b1 s1] eqn:E1.
  apply (f_equal snd) in E1. rewrite feedback_progress_effect in E1. simpl in E1.
  subst s1.
  unfold bind at 1. unfold g_log at 1. rewrite emit_append_trace, append_trace_app.
  rewrite Hsha. unfold g_strcmp0_differs. rewrite String.eqb_refl. cbn [negb].
  unfold bind at 1. unfold g_log at 1. rewrite emit_append_trace, append_trace_app.
  unfold bind at 1. unfold load_action_id at 1.
  replace (action_id (append_trace st1 _)) with (action_id st)
    by (subst st1; reflexivity).
  unfold bind at 1.
  match goal with
  | |- context [feedback_progress cfg env ?u ?i ?d ?s] =>
      destruct (feedback_progress cfg env u i d s) as [b2 s2] eqn:E2
  end.
  apply (f_equal snd) in E2. rewrite feedback_progress_effect in E2. simpl in E2.
  subst s2.
  unfold bind at 1. unfold process_artifact_cleanup.
  rewrite emit_append_trace, append_trace_app.
  rewrite emit_append_trace, append_trace_app, append_trace_app.
  unfold download_complete_message. rewrite <- !app_assoc. reflexivity.
Qed.

Lemma filter_post_feedback_events cfg now url id detail finished execution :
  filter is_post (feedback_events cfg now url id detail finished execution)
  = [EvRequest POST url (rest_request_headers cfg true)
       (Some (envelope_node now id detail finished execution None))].
Proof. reflexivity. Qed.

Lemma download_thread_verified_events cfg env a st sha1sum speed :
  fst (download_outcome cfg env a st) = inr (sha1sum, speed) ->
  sha1 a = Some sha1sum ->
  let st' := snd (download_thread cfg env a st) in
  exists evs now1 now2,
    trace st' = (trace st ++ evs ++ [EvSoftwareReady (bundle_download_location cfg)])%list
    /\ filter is_post evs
       = [EvRequest POST (feedback_url a) (rest_request_headers cfg true)
            (Some (envelope_node now1 (action_id st)
                     (Some (download_complete_message speed)) "none" "proceeding" None));
          EvRequest POST (feedback_url a) (rest_request_headers cfg true)
            (Some (envelope_node now2 (action_id st)
                     (Some "File checksum OK.") "none" "proceeding" None))]
    /\ filter is_closed_feedback evs = []
    /\ filter is_software_ready evs = []
    /\ action_id st' = action_id st
    /\ thread_download st' = thread_download st
    /\ rebooted st' = rebooted st
    /\ bundle_exists st' = true.
Proof.
  intros Hget Hsha. cbv zeta.
  destruct (download_outcome cfg env a st) as [r st1] eqn:Eget. simpl in Hget. subst r.
  rewrite (download_thread_verified _ _ _ _ _ _ _ Eget Hsha). cbv zeta.
  unfold download_outcome in Eget. apply get_binary_success in Eget. simpl in Eget.
  assert (trace st1
          = trace st ++ [EvLog LMessage ("Start downloading: " ++ printf_s (download_url a));
                         EvDownload (download_url a) (bundle_download_location cfg)
                           (get_binary_headers cfg)])%list as Htrace
    by (subst st1; simpl; now rewrite <- app_assoc).
  cbn [snd trace action_id thread_download bundle_exists rebooted append_trace].
  exists ([EvLog LMessage ("Start downloading: " ++ printf_s (download_url a));
           EvDownload (download_url a) (bundle_download_location cfg)
             (get_binary_headers cfg)]
          ++ (feedback_events cfg (current_time env (trace st1)) (feedback_url a)
                (action_id st) (Some (download_complete_message speed)) "none" "proceeding"
              ++ [EvLog LMessage (download_complete_message speed);
                  EvLog LMessage "File checksum OK."])
          ++ feedback_events cfg
               (current_time env
                  (trace st1
                   ++ feedback_events cfg (current_time env (trace st1)) (feedback_url a)
                        (action_id st) (Some (download_complete_message speed))
                        "none" "proceeding"
                   ++ [EvLog LMessage (download_complete_message speed);
                       EvLog LMessage "File checksum OK."]))
               (feedback_url a) (action_id st) (Some "File checksum OK.")
               "none" "proceeding"
          ++ [EvArtifactFree a])%list.
  eexists. eexists.
  split; [rewrite Htrace, <- !app_assoc; reflexivity |].
  split; [rewrite !filter_app, !filter_post_feedback_events; reflexivity |].
  split; [rewrite !filter_app, !filter_closed_feedback_events; reflexivity |].
  split; [rewrite !filter_app, !feedback_events_not_ready; reflexivity |].
  subst st1. repeat split; reflexivity.
Qed.

(** X14: after a successful download whose digest equals the declared SHA-1,
    the worker sends two progress feedbacks ("Download complete. <speed>
    MB/s", then "File checksum OK."), no closing feedback, and as its last
    act calls the software-ready callback, once, with the bundle download
    location.  The session stays open: the action ID is what it was, and the
    downloaded file is in place. *)
Theorem verified_download_hands_over cfg env a st sha1sum speed :
  fst (download_outcome cfg env a st) = inr (sha1sum, speed) ->
  sha1 a = Some sha1sum ->
  let st' := snd (download_thread cfg env a st) in
  exists evs now1 now2,
    trace st' = (trace st ++ evs ++ [EvSoftwareReady (bundle_download_location cfg)])%list
    /\ filter is_post evs
       = [EvRequest POST (feedback_url a) (rest_request_headers cfg true)
            (Some (envelope_node now1 (action_id st)
                     (Some (download_complete_message speed)) "none" "proceeding" None));
          EvRequest POST (feedback_url a) (rest_request_headers cfg true)
            (Some (envelope_node now2 (action_id st)
                     (Some "File checksum OK.") "none" "proceeding" None))]
    /\ filter is_closed_feedback evs = []
    /\ filter is_software_ready evs = []
    /\ action_id st' = action_id st
    /\ thread_download st' = thread_download st
    /\ rebooted st' = rebooted st
    /\ bundle_exists st' = true.
Proof. apply download_thread_verified_events. Qed.

Lemma verified_download_hands_over_witness :
  let cfg := demo_config (Some "tok") None false in
  let env := demo_env (ok_reply base_idle) (http_reply 404) zeros_downloaded true in
  let a := mkArtifact (Some "rootfs") (Some "1.0") 1024
             (Some "https://hawkbit.example/dl/42")
             (base_url ++ "/deploymentBase/42/feedback") (Some sha1_of_zeros) in
  action_id (snd (download_thread cfg env a busy_state)) = Some "42"
  /\ bundle_exists (snd (download_thread cfg env a busy_state)) = true.
Proof.
  cbv zeta.
  destruct (verified_download_hands_over (demo_config (Some "tok") None false)
              (demo_env (ok_reply base_idle) (http_reply 404) zeros_downloaded true)
              (mkArtifact (Some "rootfs") (Some "1.0") 1024
                 (Some "https://hawkbit.example/dl/42")
                 (base_url ++ "/deploymentBase/42/feedback") (Some sha1_of_zeros))
              busy_state sha1_of_zeros 3145728 eq_refl eq_refl)
    as (evs & now1 & now2 & _ & _ & _ & _ & Hid & _ & _ & Hfile).
  split; [exact Hid | exact Hfile].
Defined.

(** ** A whole session *)

(** X15: a session whose download verifies is closed exactly once.  From the
    start of the worker to the return of [install_complete_cb], whatever the
    installer reports and whether or not a reboot is configured, exactly one
    closing feedback is sent; the action ID stays set until the installer
    reports and is cleared afterwards. *)
Theorem verified_session_is_closed_once cfg env a st id sha1sum speed install_success :
  action_id st = Some id ->
  rebooted st = false ->
  fst (download_outcome cfg env a st) = inr (sha1sum, speed) ->
  sha1 a = Some sha1sum ->
  let st1 := snd (download_thread cfg env a st) in
  let st2 := snd (install_complete_cb cfg env install_success st1) in
  exists evs,
    trace st2 = (trace st ++ evs)%list
    /\ List.length (filter is_closed_feedback evs) = 1%nat
    /\ List.length (filter is_software_ready evs) = 1%nat
    /\ action_id st1 = Some id
    /\ action_id st2 = None.
Proof.
  intros Hid Hup Hget Hsha. cbv zeta.
  destruct (download_thread_verified_events _ _ _ _ _ _ Hget Hsha)
    as (evs1 & now1 & now2 & Ht1 & _ & Hc1 & Hr1 & Hid1 & _ & Hup1 & _).
  rewrite Hid in Hid1. rewrite Hup in Hup1.
  destruct (install_complete_cb_session_events cfg env install_success _ _ Hid1 Hup1)
    as (evs2 & now & Ht2 & Hc2 & Hs2 & Hid2 & _).
  exists ((evs1 ++ [EvSoftwareReady (bundle_download_location cfg)]) ++ evs2)%list.
  split; [rewrite Ht2, Ht1, <- !app_assoc; reflexivity |].
  split; [rewrite !filter_app, Hc1, Hc2; reflexivity |].
  split; [| split; [exact Hid1 | exact Hid2]].
  rewrite !filter_app, Hr1. cbn [filter is_software_ready app length].
  assert (filter is_software_ready evs2 = []) as ->; [| reflexivity].
  clear - Hid1 Hup1 Ht2.
  rewrite (install_complete_cb_closed_form _ _ _ _ _ Hid1 Hup1) in Ht2. cbv zeta in Ht2.
  unfold completion_reported in Ht2.
  destruct (install_success && post_update_reboot cfg).
  - rewrite !process_deployment_cleanup_closed_form in Ht2.
    match type of Ht2 with
    | context [reboot_error env ?t] => destruct (reboot_error env t) as [strerror |]
    end.
    + rewrite process_deployment_cleanup_closed_form in Ht2.
      cbn [snd trace append_trace with_rebooted] in Ht2.
      rewrite <- !app_assoc in Ht2. apply app_inv_head in Ht2. subst evs2.
      filter_events cfg env. reflexivity.
    + cbn [snd trace append_trace with_rebooted] in Ht2.
      rewrite <- !app_assoc in Ht2. apply app_inv_head in Ht2. subst evs2.
      filter_events cfg env. reflexivity.
  - rewrite process_deployment_cleanup_closed_form in Ht2.
    cbn [snd trace append_trace] in Ht2.
    rewrite <- !app_assoc in Ht2. apply app_inv_head in Ht2. subst evs2.
    filter_events cfg env. reflexivity.
Qed.

Lemma verified_session_is_closed_once_witness :
  let cfg := demo_config (Some "tok") None false in
  let env := demo_env (ok_reply base_idle) (http_reply 404) zeros_downloaded true in
  let a := mkArtifact (Some "rootfs") (Some "1.0") 1024
             (Some "https://hawkbit.example/dl/42")
             (base_url ++ "/deploymentBase/42/feedback") (Some sha1_of_zeros) in
  action_id
    (snd (install_complete_cb cfg env true (snd (download_thread cfg env a busy_state))))
  = None.
Proof.
  cbv zeta.
  destruct (verified_session_is_closed_once (demo_config (Some "tok") None false)
              (demo_env (ok_reply base_idle) (http_reply 404) zeros_downloaded true)
              (mkArtifact (Some "rootfs") (Some "1.0") 1024
                 (Some "https://hawkbit.example/dl/42")
                 (base_url ++ "/deploymentBase/42/feedback") (Some sha1_of_zeros))
              busy_state "42" sha1_of_zeros 3145728 true eq_refl eq_refl eq_refl eq_refl)
    as (evs & _ & _ & _ & _ & Hid).
  exact Hid.
Defined.

(** ** Deployment intake: space check and worker start *)

Lemma proc_error_closed_form cfg env a error st :
  proc_error cfg env (Some a) error st
  = (inl error, snd (process_deployment_cleanup cfg env (append_trace st [EvArtifactFree a]))).
Proof.
  unfold proc_error, process_artifact_cleanup, bind, ret. rewrite emit_append_trace.
  destruct (process_deployment_cleanup cfg env _) as [[] s]. reflexivity.
Qed.

Lemma report_and_reject cfg env id a st1 pre detail error :
  (let st2 := append_trace (committed_state id a st1) pre in
   current <- load_action_id ;;
   feedback cfg env (feedback_url_for cfg (Some id)) current (Some detail)
     "failure" "closed" ;;
   proc_error cfg env (Some a) error) (append_trace (committed_state id a st1) pre)
  = (inl error, rejected_state cfg env id a st1 pre detail).
Proof.
  cbv zeta. unfold bind at 1. unfold load_action_id at 1.
  cbn [action_id append_trace committed_state].
  unfold bind at 1.
  match goal with
  | |- context [feedback cfg env ?u ?i ?d ?f ?x ?s] =>
      destruct (feedback cfg env u i d f x s) as [b s1] eqn:E
  end.
  apply (f_equal snd) in E. rewrite feedback_effect in E. cbn [snd] in E. subst s1.
  rewrite proc_error_closed_form. unfold rejected_state, committed_state, append_trace.
  cbn [action_id thread_download bundle_exists rebooted trace].
  rewrite <- !app_assoc. reflexivity.
Qed.

(** [process_deployment] from the space check on, for a resource that
    describes an artifact. *)
Lemma process_deployment_checked cfg env root st href resp_root st1 id a :
  action_id st = None ->
  json_get_string root ["_links"; "deploymentBase"; "href"] = Some href ->
  rest_request cfg env GET href None true st = (inr resp_root, st1) ->
  json_get_string resp_root ["id"] = Some id ->
  described_artifact cfg env id resp_root = Some a ->
  process_deployment cfg env root st
  = match space_probe cfg env id a st1 with
    | inl strerror =>
        (inl (statvfs_error cfg env strerror),
         rejected_state cfg env id a st1 [] (message (statvfs_error cfg env strerror)))
    | inr (f_bsize, f_bavail) =>
        if f_bsize * f_bavail <? size a then
          (inl (mkGError 1 23 (no_space_message a (f_bsize * f_bavail))),
           rejected_state cfg env id a st1
             [EvLog LDebug (no_space_message a (f_bsize * f_bavail))]
             (no_space_message a (f_bsize * f_bavail)))
        else
          (inr tt,
           mkState (Some id) (Some a) (bundle_exists st1) (rebooted st1)
             (trace (committed_state id a st1)
              ++ (if is_some (thread_download st1) then [EvThreadJoin] else [])
              ++ [EvThreadNew a]))
    end.
Proof.
  intros Hidle Hhref Hget Hid Hart.
  unfold process_deployment. unfold bind at 1. unfold load_action_id at 1.
  rewrite Hidle, Hhref. unfold bind at 1. rewrite Hget.
  unfold bind at 1. unfold store_action_id. rewrite Hid.
  unfold bind at 1. unfold load_action_id at 1. cbn [action_id].
  unfold described_artifact, advertised_download_url, first_artifact, first_chunk in Hart.
  destruct (json_get_array resp_root ["deployment"; "chunks"]) as [[| json_chunk chunks] |];
    try discriminate.
  destruct (json_get_array (Some json_chunk) ["artifacts"])
    as [[| json_artifact artifacts] |]; try discriminate.
  assert (exists u,
             match json_get_string (Some json_artifact) ["_links"; "download"; "href"] with
             | Some u => Some u
             | None => json_get_string (Some json_artifact) ["_links"; "download-http"; "href"]
             end = Some u
             /\ a = mkArtifact (json_get_string (Some json_chunk) ["name"])
                      (json_get_string (Some json_chunk) ["version"])
                      (json_get_int (json_int_absent env) (Some json_artifact) ["size"])
                      (Some u) (feedback_url_for cfg (Some id))
                      (json_get_string (Some json_artifact) ["hashes"; "sha1"]))
    as (u & Hu & Ha).
  { destruct (match json_get_string (Some json_artifact) ["_links"; "download"; "href"] with
              | Some u => Some u
              | None => json_get_string (Some json_artifact)
                          ["_links"; "download-http"; "href"]
              end) as [u |]; [| discriminate].
    exists u. split; [reflexivity | now inversion Hart]. }
  rewrite Hu. rewrite <- Ha.
  clear Hart Hu.
  unfold bind at 1. unfold g_log at 1. rewrite emit_append_trace.
  assert (append_trace
            (mkState (Some id) (thread_download st1) (bundle_exists st1) (rebooted st1)
               (trace st1 ++ [EvStoreActionId (Some id)]))
            [EvLog LMessage
               ("New software ready for download. (Name: " ++ printf_s (name a)
                ++ ", Version: " ++ printf_s (version a)
                ++ ", Size: " ++ string_of_Z (size a) ++ ", URL: " ++ u ++ ")")]
          = committed_state id a st1) as ->.
  { unfold committed_state, append_trace, new_software_message. simpl.
    rewrite <- app_assoc. rewrite Ha. reflexivity. }
  unfold bind at 1. unfold ask at 1. fold (space_probe cfg env id a st1).
  destruct (space_probe cfg env id a st1) as [strerror | [f_bsize f_bavail]].
  - pose proof (report_and_reject cfg env id a st1 []
                  (message (statvfs_error cfg env strerror))
                  (statvfs_error cfg env strerror)) as Hrej.
    cbv zeta in Hrej. rewrite append_trace_nil in Hrej. exact Hrej.
  - destruct (f_bsize * f_bavail <? size a).
    + unfold bind at 1. unfold g_log at 1. rewrite emit_append_trace.
      exact (report_and_reject cfg env id a st1
               [EvLog LDebug (no_space_message a (f_bsize * f_bavail))]
               (no_space_message a (f_bsize * f_bavail))
               (mkGError 1 23 (no_space_message a (f_bsize * f_bavail)))).
    + unfold bind, when, set_thread_download, ret. cbn [thread_download committed_state].
      destruct (thread_download st1); cbn [is_some]; unfold emit;
        cbn [action_id thread_download bundle_exists rebooted trace];
        rewrite <- ?app_assoc; reflexivity.
Qed.

Lemma rejected_state_facts cfg env id a st1 pre detail :
  filter is_closed_feedback pre = [] ->
  filter is_thread_new pre = [] ->
  let st' := rejected_state cfg env id a st1 pre detail in
  exists evs now,
    trace st' = (trace st1 ++ EvStoreActionId (Some id) :: evs)%list
    /\ filter is_closed_feedback evs
       = [EvRequest POST (feedback_url_for cfg (Some id)) (rest_request_headers cfg true)
            (Some (envelope_node now (Some id) (Some detail) "failure" "closed" None))]
    /\ filter is_thread_new evs = []
    /\ action_id st' = None
    /\ thread_download st' = thread_download st1.
Proof.
  intros Hpre1 Hpre2. cbv zeta. unfold rejected_state.
  rewrite process_deployment_cleanup_closed_form.
  cbn [snd trace action_id thread_download append_trace committed_state].
  eexists. eexists.
  split; [rewrite <- !app_assoc; reflexivity |].
  split.
  - cbn [app filter is_closed_feedback]. rewrite !filter_app, Hpre1.
    filter_events cfg env. reflexivity.
  - split; [| split; reflexivity].
    cbn [app filter is_thread_new]. rewrite !filter_app, Hpre2.
    unfold feedback_events. filter_events cfg env. reflexivity.
Qed.





(** X18: when the free space cannot be determined, [process_deployment]
    sends exactly one closing feedback for the action, a failure whose detail
    is the error's message ("Failed to calculate free space for <path>:
    <reason>"), tears the session down and returns that error.  No worker is
    started. *)
Theorem deployment_with_unknown_space_is_refused
  cfg env root st href resp_root st1 id a strerror :
  action_id st = None ->
  json_get_string root ["_links"; "deploymentBase"; "href"] = Some href ->
  rest_request cfg env GET href None true st = (inr resp_root, st1) ->
  json_get_string resp_root ["id"] = Some id ->
  described_artifact cfg env id resp_root = Some a ->
  space_probe cfg env id a st1 = inl strerror ->
  let result := process_deployment cfg env root st in
  let error := statvfs_error cfg env strerror in
  exists evs now,
    fst result = inl error
    /\ trace (snd result) = (trace st1 ++ EvStoreActionId (Some id) :: evs)%list
    /\ filter is_closed_feedback evs
       = [EvRequest POST (feedback_url_for cfg (Some id)) (rest_request_headers cfg true)
            (Some (envelope_node now (Some id) (Some (message error))
                     "failure" "closed" None))]
    /\ filter is_thread_new evs = []
    /\ action_id (snd result) = None
    /\ thread_download (snd result) = thread_download st.
Proof.
  intros Hidle Hhref Hget Hid Hart Hprobe. cbv zeta.
  rewrite (process_deployment_checked _ _ _ _ _ _ _ _ _ Hidle Hhref Hget Hid Hart).
  rewrite Hprobe.
  assert (thread_download st1 = thread_download st) as Hth.
  { apply (f_equal snd) in Hget. rewrite rest_request_effect in Hget. simpl in Hget.
    now subst st1. }
  cbn [fst snd].
  destruct (rejected_state_facts cfg env id a st1 []
              (message (statvfs_error cfg env strerror)) eq_refl eq_refl)
    as (evs & now & H1 & H2 & H3 & H4 & H5).
  exists evs, now. rewrite <- Hth. repeat split; assumption || reflexivity.
Qed.

Lemma deployment_with_unknown_space_is_refused_witness :
  let cfg := demo_config (Some "tok") None false in
  let env := mkEnv (curl_perform (demo_env (ok_reply base_offer) (ok_reply deployment_42)
                                    FopenFailed true))
               (fun _ _ _ => FopenFailed) (fun _ => "20200101T120000")
               (fun _ _ => inl "No such file or directory") (fun _ _ => true)
               (fun _ => None) (fun _ => mkTm 0 0 0) 0 101 102 103 104 0 1 24 in
  let result := process_deployment cfg env (Some base_offer) idle_state in
  succeeded (fst result) = false
  /\ action_id (snd result) = None.
Proof.
  cbv zeta.
  destruct (deployment_with_unknown_space_is_refused (demo_config (Some "tok") None false)
              (mkEnv (curl_perform (demo_env (ok_reply base_offer) (ok_reply deployment_42)
                                      FopenFailed true))
                 (fun _ _ _ => FopenFailed) (fun _ => "20200101T120000")
                 (fun _ _ => inl "No such file or directory") (fun _ _ => true)
                 (fun _ => None) (fun _ => mkTm 0 0 0) 0 101 102 103 104 0 1 24)
              (Some base_offer) idle_state deployment_href (Some deployment_42) _ "42"
              artifact_42 "No such file or directory"
              eq_refl eq_refl eq_refl eq_refl eq_refl eq_refl)
    as (evs & now & Hres & _ & _ & _ & Hid & _).
  rewrite Hres. split; [reflexivity | exact Hid].
Defined.

(** ** Deployment intake: the early exits and the overall outcome *)

(** X19: before an action ID is known, a failing intake is silent towards
    the server.  If the base response has no [_links.deploymentBase.href],
    [process_deployment] returns the parse error "Failed to parse deployment
    base response." without any effect; if the GET of the deployment resource
    fails, it returns that request's error, and the state is the one the
    request left: no action ID is stored and no feedback is sent. *)
Theorem intake_fails_silently_before_commit cfg env root st :
  action_id st = None ->
  match json_get_string root ["_links"; "deploymentBase"; "href"] with
  | None =>
      process_deployment cfg env root st
      = (inl (mkGError (RHU_HAWKBIT_CLIENT_ERROR env)
                (RHU_HAWKBIT_CLIENT_ERROR_JSON_RESPONSE_PARSE env)
                "Failed to parse deployment base response."), st)
  | Some href =>
      match rest_request cfg env GET href None true st with
      | (inl error, st1) =>
          process_deployment cfg env root st = (inl error, st1)
          /\ st1 = append_trace st [EvRequest GET href (rest_request_headers cfg false) None]
      | (inr _, _) => True
      end
  end.
Proof.
  intros Hidle.
  destruct (json_get_string root ["_links"; "deploymentBase"; "href"]) as [href |] eqn:Hhref.
  - destruct (rest_request cfg env GET href None true st) as [[error | resp_root] st1] eqn:Hget;
      [| exact I].
    split.
    + unfold process_deployment. unfold bind at 1. unfold load_action_id at 1.
      rewrite Hidle, Hhref. unfold bind at 1. rewrite Hget. reflexivity.
    + rewrite rest_request_closed_form in Hget. inversion Hget as [[Hout Hst]].
      rewrite Hout. unfold response_events, request_events. reflexivity.
  - unfold process_deployment. unfold bind at 1. unfold load_action_id at 1.
    rewrite Hidle, Hhref. reflexivity.
Qed.

Lemma intake_fails_silently_before_commit_witness :
  let cfg := demo_config (Some "tok") None false in
  process_deployment cfg broken_deployment_env (Some base_offer) idle_state
  = (inl (mkGError 103 500 "HTTP request failed: 500; server response: "),
     append_trace idle_state
       [EvRequest GET deployment_href (rest_request_headers cfg false) None]).
Proof.
  cbv zeta.
  pose proof (intake_fails_silently_before_commit (demo_config (Some "tok") None false)
                broken_deployment_env (Some base_offer) idle_state eq_refl) as H.
  simpl in H. destruct H as [H1 H2]. rewrite H1. reflexivity.
Defined.

Lemma rest_request_starts_no_worker cfg env method url body want st :
  exists evs,
    snd (rest_request cfg env method url body want st) = append_trace st evs
    /\ filter is_thread_new evs = [].
Proof.
  rewrite rest_request_effect. eexists. split; [reflexivity |].
  rewrite filter_app. unfold request_events, response_events.
  destruct (match body with Some b => json_builder_get_root b | None => None end);
    destruct (fst _) as [e | [n |]]; reflexivity.
Qed.

Lemma process_deployment_without_id cfg env root st href resp_root st1 :
  action_id st = None ->
  json_get_string root ["_links"; "deploymentBase"; "href"] = Some href ->
  rest_request cfg env GET href None true st = (inr resp_root, st1) ->
  json_get_string resp_root ["id"] = None ->
  process_deployment cfg env root st
  = (inl (mkGError 1 1 "Failed to parse deployment base response."),
     mkState None (thread_download st1) (bundle_exists st1) (rebooted st1)
       (trace st1 ++ [EvStoreActionId None])).
Proof.
  intros Hidle Hhref Hget Hid.
  unfold process_deployment. unfold bind at 1. unfold load_action_id at 1.
  rewrite Hidle, Hhref. unfold bind at 1. rewrite Hget.
  unfold bind at 1. unfold store_action_id. rewrite Hid.
  unfold bind at 1. unfold load_action_id at 1. cbn [action_id]. reflexivity.
Qed.

Lemma described_artifact_none cfg env id resp_root :
  described_artifact cfg env id resp_root = None ->
  advertised_download_url resp_root = None.
Proof.
  unfold described_artifact, advertised_download_url, first_artifact.
  destruct (first_chunk resp_root) as [json_chunk |]; [| reflexivity].
  destruct (json_get_array (Some json_chunk) ["artifacts"]) as [[| x l] |];
    try reflexivity.
  destruct (match json_get_string (Some x) ["_links"; "download"; "href"] with
            | Some u => Some u
            | None => json_get_string (Some x) ["_links"; "download-http"; "href"]
            end); [discriminate | reflexivity].
Qed.

(** X20: starting without a session, [process_deployment] succeeds exactly
    when it opens one.  On success the action ID is set, the worker handle is
    the artifact of the one worker started, and that artifact reports to the
    action's feedback URL.  On failure, at whatever step, no session is left
    behind: the action ID is NULL again, the worker handle is what it was and
    no worker was started. *)
Theorem intake_leaves_a_session_iff_it_succeeds cfg env root st :
  action_id st = None ->
  let result := process_deployment cfg env root st in
  exists evs,
    trace (snd result) = (trace st ++ evs)%list
    /\ if succeeded (fst result) then
         exists id a,
           action_id (snd result) = Some id
           /\ thread_download (snd result) = Some a
           /\ feedback_url a = feedback_url_for cfg (Some id)
           /\ filter is_thread_new evs = [EvThreadNew a]
       else
         action_id (snd result) = None
         /\ thread_download (snd result) = thread_download st
         /\ filter is_thread_new evs = [].
Proof.
  intros Hidle. cbv zeta.
  pose proof (intake_fails_silently_before_commit cfg env root st Hidle) as Hearly.
  destruct (json_get_string root ["_links"; "deploymentBase"; "href"]) as [href |] eqn:Hhref.
  2:{ rewrite Hearly. exists []. cbn [fst snd succeeded].
      split; [now rewrite app_nil_r | repeat split; assumption || reflexivity]. }
  destruct (rest_request cfg env GET href None true st) as [[error | resp_root] st1] eqn:Hget.
  { destruct Hearly as [-> ->]. eexists. cbn [fst snd succeeded trace append_trace].
    split; [reflexivity | repeat split; assumption || reflexivity]. }
  clear Hearly.
  destruct (rest_request_starts_no_worker cfg env GET href None true st) as (evs1 & Hst1 & Hq1).
  rewrite Hget in Hst1. cbn [snd] in Hst1.
  destruct (json_get_string resp_root ["id"]) as [id |] eqn:Hid.
  2:{ rewrite (process_deployment_without_id _ _ _ _ _ _ _ Hidle Hhref Hget Hid).
      subst st1. cbn [fst snd succeeded trace action_id thread_download append_trace].
      eexists. split; [rewrite <- app_assoc; reflexivity |].
      rewrite filter_app, Hq1. repeat split; reflexivity. }
  destruct (described_artifact cfg env id resp_root) as [a |] eqn:Hart.
  - rewrite (process_deployment_checked _ _ _ _ _ _ _ _ _ Hidle Hhref Hget Hid Hart).
    assert (feedback_url a = feedback_url_for cfg (Some id)) as Hfb.
    { unfold described_artifact in Hart.
      destruct (first_chunk resp_root), (first_artifact resp_root),
        (advertised_download_url resp_root); try discriminate.
      inversion Hart. reflexivity. }
    destruct (space_probe cfg env id a st1) as [strerror | [f_bsize f_bavail]].
    + destruct (rejected_state_facts cfg env id a st1 []
                  (message (statvfs_error cfg env strerror)) eq_refl eq_refl)
        as (evs & now & H1 & _ & H3 & H4 & H5).
      cbn [fst snd succeeded]. rewrite H1, H4, H5. subst st1.
      cbn [trace thread_download append_trace].
      eexists. split; [rewrite <- app_assoc; reflexivity |].
      rewrite filter_app, Hq1. cbn [app filter is_thread_new]. rewrite H3.
      repeat split; reflexivity.
    + destruct (f_bsize * f_bavail <? size a).
      * destruct (rejected_state_facts cfg env id a st1
                    [EvLog LDebug (no_space_message a (f_bsize * f_bavail))]
                    (no_space_message a (f_bsize * f_bavail)) eq_refl eq_refl)
          as (evs & now & H1 & _ & H3 & H4 & H5).
        cbn [fst snd succeeded]. rewrite H1, H4, H5. subst st1.
        cbn [trace thread_download append_trace].
        eexists. split; [rewrite <- app_assoc; reflexivity |].
        rewrite filter_app, Hq1. cbn [app filter is_thread_new]. rewrite H3.
        repeat split; reflexivity.
      * cbn [fst snd succeeded action_id thread_download trace committed_state].
        subst st1. cbn [trace thread_download append_trace].
        eexists. split; [rewrite <- !app_assoc; reflexivity |].
        exists id, a. repeat split; try reflexivity; try exact Hfb.
        rewrite !filter_app, Hq1.
        destruct (thread_download st); reflexivity.
  - apply described_artifact_none in Hart.
    destruct (process_deployment_committed _ _ _ _ _ _ _ _ Hidle Hhref Hget Hid Hart)
      as [x ->].
    rewrite parse_error_exit_closed_form, process_deployment_cleanup_closed_form.
    cbn [fst snd succeeded trace action_id thread_download append_trace].
    subst st1. cbn [trace thread_download append_trace].
    eexists. split; [rewrite <- !app_assoc; reflexivity |].
    split; [reflexivity | split; [reflexivity |]].
    rewrite !filter_app, Hq1. unfold feedback_events.
    filter_events cfg env. destruct x; reflexivity.
Qed.

Lemma intake_leaves_a_session_iff_it_succeeds_witness :
  let cfg := demo_config (Some "tok") None false in
  let env := demo_env (ok_reply base_offer) (ok_reply deployment_without_id)
               FopenFailed true in
  action_id idle_state = None
  /\ action_id (snd (process_deployment cfg env (Some base_offer) idle_state)) = None.
Proof.
  cbv zeta. split; [reflexivity |].
  destruct (intake_leaves_a_session_iff_it_succeeds (demo_config (Some "tok") None false)
              (demo_env (ok_reply base_offer) (ok_reply deployment_without_id)
                 FopenFailed true)
              (Some base_offer) idle_state eq_refl) as (evs & _ & H).
  simpl in H. destruct H as [H _]. exact H.
Defined.

(** ** The write callbacks *)

Lemma receive_accumulates (ds : list Callbacks.Delivery) :
  forall (p : Callbacks.RestPayload) (body : list Byte.byte),
    Forall well_formed_delivery ds ->
    Callbacks.size p = Z.of_nat (List.length body) ->
    firstn (List.length body) (Callbacks.payload p) = body ->
    Z.of_nat (List.length (body ++ delivered_bytes ds)) < 2 ^ 64 ->
    Callbacks.receive ds p
    = (map (fun d => Z.of_nat (List.length (Callbacks.ptr d))) ds,
       match ds with
       | [] => p
       | _ => Callbacks.mkRestPayload (body ++ delivered_bytes ds ++ [Byte.x00])
                (Z.of_nat (List.length (body ++ delivered_bytes ds)))
       end).
Proof.
  induction ds as [| d ds IH]; intros p body Hwf Hsize Hbody Hbound; [reflexivity |].
  inversion Hwf as [| d' ds' [Hone Hn] Hrest]. subst d' ds'.
  unfold delivered_bytes in *. cbn [map List.concat] in *.
  rewrite !length_app in Hbound.
  cbn [Callbacks.receive]. unfold Callbacks.curl_write_cb.
  assert (Callbacks.wrap_size_t (Callbacks.item_size d * Callbacks.nmemb d)
          = Z.of_nat (List.length (Callbacks.ptr d))) as Hreal.
  { unfold Callbacks.wrap_size_t. rewrite Hone, Hn, Z.mul_1_l.
    apply Z.mod_small. lia. }
  rewrite Hreal, Hsize, !Nat2Z.id, Hbody, firstn_all.
  assert (Callbacks.wrap_size_t
            (Z.of_nat (List.length body) + Z.of_nat (List.length (Callbacks.ptr d)))
          = Z.of_nat (List.length (body ++ Callbacks.ptr d))) as Hsum.
  { unfold Callbacks.wrap_size_t. rewrite length_app, Nat2Z.inj_add.
    apply Z.mod_small. lia. }
  rewrite Hsum.
  specialize (IH (Callbacks.mkRestPayload (body ++ Callbacks.ptr d ++ [Byte.x00])
                    (Z.of_nat (List.length (body ++ Callbacks.ptr d))))
                (body ++ Callbacks.ptr d)%list Hrest eq_refl).
  rewrite IH.
  - destruct ds as [| d2 ds]; cbn [map List.concat].
    + now rewrite app_nil_r.
    + rewrite <- !app_assoc. reflexivity.
  - cbn [Callbacks.payload]. rewrite app_assoc, firstn_app, firstn_all, Nat.sub_diag.
    cbn [firstn]. now rewrite app_nil_r.
  - rewrite !length_app. lia.
Qed.

(** X21: the response buffer holds the body as it arrived.  Starting from
    the buffer [rest_request] allocates, after any number of deliveries that
    follow libcurl's contract (fewer than 2^64 bytes in all), [size] is the
    number of bytes delivered and the buffer is those bytes, in order of
    arrival, followed by one NUL; every call reported all its bytes as taken,
    so the transfer is never aborted by the callback. *)
Theorem response_buffer_accumulates (buffer_size : nat) (ds : list Callbacks.Delivery) :
  Forall well_formed_delivery ds ->
  ds <> [] ->
  Z.of_nat (List.length (delivered_bytes ds)) < 2 ^ 64 ->
  Callbacks.receive ds (Callbacks.fresh_payload buffer_size)
  = (map (fun d => Callbacks.item_size d * Callbacks.nmemb d) ds,
     Callbacks.mkRestPayload (delivered_bytes ds ++ [Byte.x00])
       (Z.of_nat (List.length (delivered_bytes ds)))).
Proof.
  intros Hwf Hne Hbound.
  rewrite (receive_accumulates ds (Callbacks.fresh_payload buffer_size) [] Hwf
             eq_refl eq_refl Hbound).
  f_equal.
  - apply map_ext_in. intros d Hin.
    rewrite Forall_forall in Hwf. destruct (Hwf d Hin) as [-> ->]. lia.
  - destruct ds; [contradiction | reflexivity].
Qed.

Lemma response_buffer_accumulates_witness :
  Callbacks.receive
    [Callbacks.mkDelivery [Byte.x7b] 1 1; Callbacks.mkDelivery [Byte.x7d] 1 1]
    (Callbacks.fresh_payload 4)
  = ([1; 1], Callbacks.mkRestPayload [Byte.x7b; Byte.x7d; Byte.x00] 2).
Proof.
  apply (response_buffer_accumulates 4
           [Callbacks.mkDelivery [Byte.x7b] 1 1; Callbacks.mkDelivery [Byte.x7d] 1 1]).
  - repeat constructor.
  - discriminate.
  - simpl. lia.
Defined.

Lemma curl_write_to_file_cb_step d accepted gb :
  well_formed_delivery d ->
  hashed_as_stored gb ->
  let result :=
    Callbacks.curl_write_to_file_cb (Callbacks.ptr d) (Callbacks.item_size d)
      (Callbacks.nmemb d) accepted gb in
  hashed_as_stored (snd result)
  /\ Callbacks.fp (snd result)
     = (Callbacks.fp gb ++ firstn (Z.to_nat (fst result)) (Callbacks.ptr d))%list
  /\ fst result = Z.max 0 (Z.min accepted (Callbacks.nmemb d))
  /\ Callbacks.filesize (snd result) = Callbacks.filesize gb.
Proof.
  intros [Hone Hn] [Hsum Hcount]. cbv zeta.
  unfold hashed_as_stored, Callbacks.curl_write_to_file_cb, Callbacks.fwrite.
  cbn [fst snd Callbacks.fp Callbacks.checksum Callbacks.written Callbacks.filesize].
  rewrite Hone, Z.mul_1_r, Hsum.
  set (items := Z.max 0 (Z.min accepted (Callbacks.nmemb d))).
  split; [| repeat split; reflexivity].
  split; [reflexivity |].
  rewrite Hcount, length_app, length_firstn, Nat2Z.inj_add.
  assert (Z.of_nat (Nat.min (Z.to_nat items) (List.length (Callbacks.ptr d))) = items)
    as -> by (subst items; lia).
  unfold Callbacks.wrap_size_t. now rewrite Z.add_mod_idemp_l by lia.
Qed.

Lemma store_keeps_hash (ds : list (Callbacks.Delivery * Z)) :
  forall gb,
    Forall (fun entry => well_formed_delivery (fst entry)) ds ->
    hashed_as_stored gb ->
    let result := Callbacks.store ds gb in
    hashed_as_stored (snd result)
    /\ Callbacks.fp (snd result) = (Callbacks.fp gb ++ stored_bytes ds (fst result))%list
    /\ fst result
       = map (fun entry => Z.max 0 (Z.min (snd entry) (Callbacks.nmemb (fst entry)))) ds
    /\ Callbacks.filesize (snd result) = Callbacks.filesize gb.
Proof.
  induction ds as [| [d accepted] ds IH]; intros gb Hwf Hgb; cbv zeta.
  - cbn. unfold stored_bytes. cbn. rewrite app_nil_r. repeat split; apply Hgb.
  - inversion Hwf as [| e l Hd Hrest]. subst e l. cbn [fst] in Hd.
    destruct (curl_write_to_file_cb_step d accepted gb Hd Hgb) as (H1 & H2 & H3 & H4).
    cbn [Callbacks.store].
    destruct (Callbacks.curl_write_to_file_cb (Callbacks.ptr d) (Callbacks.item_size d)
                (Callbacks.nmemb d) accepted gb) as [taken gb1].
    cbn [fst snd] in H1, H2, H3, H4.
    destruct (IH gb1 Hrest H1) as (I1 & I2 & I3 & I4).
    destruct (Callbacks.store ds gb1) as [takens gb2].
    cbn [fst snd] in I1, I2, I3, I4 |- *.
    split; [exact I1 |]. split; [| split].
    + rewrite I2, H2. unfold stored_bytes. cbn [combine map List.concat fst snd].
      now rewrite <- app_assoc.
    + cbn [map fst snd]. now rewrite H3, I3.
    + now rewrite I4, H4.
Qed.

(** X22: the checksum covers exactly what is in the file.  For deliveries
    that follow libcurl's contract, however many items the stream accepts of
    each, after any number of calls of [curl_write_to_file_cb] the bytes fed
    to the checksum are the bytes written to the file, [written] counts them,
    the file consists of the accepted prefix of each delivery in order, and
    each call returned the number of bytes it stored (less than it was given
    exactly when the stream accepted less, which makes libcurl abort). *)
Theorem file_callback_hashes_what_it_stores (expected : Z)
  (ds : list (Callbacks.Delivery * Z)) :
  Forall (fun entry => well_formed_delivery (fst entry)) ds ->
  let result := Callbacks.store ds (Callbacks.fresh_download expected) in
  Callbacks.checksum (snd result) = Some (Callbacks.fp (snd result))
  /\ Callbacks.written (snd result)
     = Callbacks.wrap_size_t (Z.of_nat (List.length (Callbacks.fp (snd result))))
  /\ Callbacks.fp (snd result) = stored_bytes ds (fst result)
  /\ fst result
     = map (fun entry => Z.max 0 (Z.min (snd entry) (Callbacks.nmemb (fst entry)))) ds.
Proof.
  intros Hwf. cbv zeta.
  destruct (store_keeps_hash ds (Callbacks.fresh_download expected) Hwf)
    as ((H1 & H2) & H3 & H4 & _).
  - split; reflexivity.
  - repeat split; assumption.
Qed.

Lemma file_callback_hashes_what_it_stores_witness :
  let result :=
    Callbacks.store
      [(Callbacks.mkDelivery [Byte.x52; Byte.x41] 1 2, 2);
       (Callbacks.mkDelivery [Byte.x55; Byte.x43] 1 2, 1)]
      (Callbacks.fresh_download 4) in
  Callbacks.checksum (snd result) = Some [Byte.x52; Byte.x41; Byte.x55]
  /\ fst result = [2; 1].
Proof.
  cbv zeta.
  destruct (file_callback_hashes_what_it_stores 4
              [(Callbacks.mkDelivery [Byte.x52; Byte.x41] 1 2, 2);
               (Callbacks.mkDelivery [Byte.x55; Byte.x43] 1 2, 1)])
    as (H1 & _ & H3 & H4).
  - repeat constructor.
  - rewrite H1, H3, H4. split; reflexivity.
Defined.

(** ** The polling cadence *)

Lemma hawkbit_pull_cb_polled_data cfg env data st root st1 :
  tick_is_due data ->
  base_poll cfg env st = (inr root, st1) ->
  snd (fst (hawkbit_pull_cb cfg env false data st))
  = mkClientData (loop_running data) (res data)
      (fst (json_get_sleeptime cfg env root st1)) 0.
Proof.
  intros Hdue Hget.
  destruct (hawkbit_pull_cb_polled_result _ _ false _ _ _ _ Hdue Hget) as [st4 ->].
  reflexivity.
Qed.

(** X23: the server sets the cadence.  After a successful base poll that
    advertises a well-formed [HH:MM:SS] of [n] seconds, the service (not in
    one-shot mode) lets [n - 1] ticks pass without any effect and polls again
    on the tick after them; if [n] is 0 or 1 it polls on the very next tick,
    that is every second. *)
Theorem polls_follow_advertised_interval cfg env data st root h m s (k : nat) st2 :
  tick_is_due data ->
  fst (base_poll cfg env st) = inr root ->
  json_get_string root ["config"; "polling"; "sleep"] = Some (hms_string h m s) ->
  0 <= h <= 23 -> 0 <= m <= 59 -> 0 <= s <= 61 ->
  Z.of_nat k = Z.max 0 (h * 3600 + m * 60 + s - 1) ->
  let data' := snd (fst (hawkbit_pull_cb cfg env false data st)) in
  snd (run_ticks cfg env false k data' st2) = st2
  /\ last_run_sec (fst (run_ticks cfg env false k data' st2)) = Z.of_nat k
  /\ tick_is_due (fst (run_ticks cfg env false k data' st2)).
Proof.
  intros Hdue Hget Hsleep Hh Hm Hs Hk. cbv zeta.
  destruct (base_poll cfg env st) as [r st1] eqn:Epoll. simpl in Hget. subst r.
  rewrite (hawkbit_pull_cb_polled_data _ _ _ _ _ _ Hdue Epoll).
  assert (fst (json_get_sleeptime cfg env root st1) = h * 3600 + m * 60 + s) as ->.
  { unfold json_get_sleeptime. rewrite Hsleep. unfold bind, ask, ret. simpl.
    rewrite strptime_T_well_formed by assumption. simpl. lia. }
  set (n := h * 3600 + m * 60 + s) in *.
  destruct (Z.le_gt_cases n 0) as [Hzero | Hpos].
  - assert (k = 0%nat) as -> by lia. cbn. unfold tick_is_due. cbn. repeat split; lia.
  - destruct (run_ticks_waiting cfg env false k
                (mkClientData (loop_running data) (res data) n 0) st2) as [Hrun Hnext];
      [cbn; lia |].
    rewrite Hrun. cbn [fst snd last_run_sec]. repeat split; try lia.
    unfold tick_is_due. cbn. lia.
Qed.

Lemma polls_follow_advertised_interval_witness :
  let cfg := demo_config (Some "tok") None false in
  let env := demo_env (ok_reply base_idle) (http_reply 404) FopenFailed true in
  let data' := snd (fst (hawkbit_pull_cb cfg env false due_data idle_state)) in
  snd (run_ticks cfg env false 299 data' busy_state) = busy_state
  /\ last_run_sec (fst (run_ticks cfg env false 299 data' busy_state)) = 299.
Proof.
  cbv zeta.
  assert (tick_is_due due_data) as Hdue by (unfold tick_is_due; simpl; lia).
  destruct (polls_follow_advertised_interval (demo_config (Some "tok") None false)
              (demo_env (ok_reply base_idle) (http_reply 404) FopenFailed true)
              due_data idle_state (Some base_idle) 0 5 0 299 busy_state
              Hdue eq_refl eq_refl ltac:(lia) ltac:(lia) ltac:(lia) ltac:(simpl; lia))
    as (H1 & H2 & _).
  split; [exact H1 | exact H2].
Defined.

(** ** A poll without an offer *)

Lemma request_lines_app evs1 evs2 :
  request_lines (evs1 ++ evs2) = (request_lines evs1 ++ request_lines evs2)%list.
Proof. unfold request_lines. apply flat_map_app. Qed.

Lemma request_lines_rest_request cfg method url body r :
  request_lines (request_events cfg method url body ++ response_events r)
  = [(method, url)].
Proof.
  rewrite request_lines_app. unfold request_events, response_events.
  destruct (match body with Some b => json_builder_get_root b | None => None end);
    destruct r as [e | [n |]]; reflexivity.
Qed.

Lemma base_poll_requests cfg env st :
  exists evs,
    snd (base_poll cfg env st) = append_trace st evs
    /\ request_lines evs = [(GET, build_api_url cfg None)]
    /\ forallb is_poll_event evs = true.
Proof.
  unfold base_poll, g_log. rewrite emit_append_trace. cbn [snd].
  rewrite rest_request_effect, append_trace_app.
  eexists. split; [reflexivity |]. split.
  - rewrite request_lines_app, request_lines_rest_request. reflexivity.
  - cbn [app forallb is_poll_event andb]. rewrite forallb_app.
    rewrite request_events_poll by (left; reflexivity).
    now rewrite response_events_poll.
Qed.

Lemma identify_phase_requests cfg env root st :
  exists evs,
    snd (identify_phase cfg env root st) = append_trace st evs
    /\ request_lines evs
       = (if json_contains root ["_links"; "configData"]
          then [(PUT, build_api_url cfg (Some "configData"))]
          else [])
    /\ forallb is_poll_event evs = true.
Proof.
  unfold identify_phase.
  destruct (json_contains root ["_links"; "configData"]).
  - unfold bind. destruct (identify cfg env st) as [r st'] eqn:E.
    apply (f_equal snd) in E. rewrite identify_effect in E. cbn [snd] in E. subst st'.
    destruct r as [error | []].
    + unfold g_log, ret. rewrite emit_append_trace. cbn [snd].
      rewrite append_trace_app. eexists. split; [reflexivity |].
      split; reflexivity.
    + eexists. split; [reflexivity |]. split; reflexivity.
  - exists []. split; [now rewrite append_trace_nil |]. split; reflexivity.
Qed.

Lemma tail_without_offer cfg env run_once root ok data st :
  json_contains root ["_links"; "deploymentBase"] = false ->
  snd ((ok2 <- deployment_phase cfg env root ok ;;
        cancel_phase root ;;
        pull_out run_once ok2 data) st)
  = append_trace st (EvLog LMessage "No new software." :: closing_events run_once root).
Proof.
  intros Hoffer. unfold bind, deployment_phase, cancel_phase, closing_events, when.
  rewrite Hoffer. unfold bind, g_log, ret. rewrite emit_append_trace.
  destruct (json_contains root ["_links"; "cancelAction"]).
  - rewrite emit_append_trace, pull_out_events, !append_trace_app. reflexivity.
  - rewrite pull_out_events, !append_trace_app. reflexivity.
Qed.

(** X24: when the base poll succeeds and offers no deployment, the tick
    sends nothing but the base GET and, iff the server asks for configuration
    data, the identify PUT; it logs "No new software."; a cancel request is
    only warned about; and the state is changed in its trace only, so a
    running session is not touched. *)
Theorem poll_without_offer_only_identifies cfg env run_once data st root :
  tick_is_due data ->
  fst (base_poll cfg env st) = inr root ->
  json_contains root ["_links"; "deploymentBase"] = false ->
  exists evs,
    snd (hawkbit_pull_cb cfg env run_once data st)
    = append_trace st (evs ++ EvLog LMessage "No new software."
                              :: closing_events run_once root)
    /\ request_lines evs
       = ((GET, build_api_url cfg None)
          :: (if json_contains root ["_links"; "configData"]
              then [(PUT, build_api_url cfg (Some "configData"))]
              else []))%list
    /\ forallb is_poll_event evs = true.
Proof.
  intros Hdue Hget Hoffer.
  destruct (base_poll_requests cfg env st) as (evs1 & Hst1 & Hr1 & Hp1).
  destruct (base_poll cfg env st) as [r st1] eqn:Epoll. cbn [fst snd] in Hget, Hst1.
  subst r.
  rewrite (hawkbit_pull_cb_polled _ _ run_once _ _ _ _ Hdue Epoll).
  destruct (identify_phase_requests cfg env root st1) as (evs2 & Hst2 & Hr2 & Hp2).
  unfold bind at 1.
  destruct (identify_phase cfg env root st1) as [ok1 st2]. cbn [snd] in Hst2.
  rewrite (tail_without_offer cfg env run_once root ok1 _ st2 Hoffer).
  exists (evs1 ++ evs2)%list.
  split; [subst st2 st1; rewrite !append_trace_app, <- app_assoc; reflexivity |].
  split; [rewrite request_lines_app, Hr1, Hr2; reflexivity |].
  rewrite forallb_app, Hp1, Hp2. reflexivity.
Qed.

Lemma poll_without_offer_only_identifies_witness :
  let cfg := demo_config (Some "tok") None false in
  let env := demo_env (ok_reply base_idle) (http_reply 404) FopenFailed true in
  action_id (snd (hawkbit_pull_cb cfg env false due_data busy_state)) = Some "42"
  /\ In (EvLog LMessage "No new software.")
       (trace (snd (hawkbit_pull_cb cfg env false due_data busy_state))).
Proof.
  cbv zeta.
  assert (tick_is_due due_data) as Hdue by (unfold tick_is_due; simpl; lia).
  destruct (poll_without_offer_only_identifies (demo_config (Some "tok") None false)
              (demo_env (ok_reply base_idle) (http_reply 404) FopenFailed true)
              false due_data busy_state (Some base_idle) Hdue eq_refl eq_refl)
    as (evs & Hst & _).
  rewrite Hst. split; [reflexivity |].
  cbn [trace append_trace]. apply in_or_app. right. apply in_or_app. right.
  left. reflexivity.
Defined.

Lemma service_loop_never_quits_witness :
  let cfg := demo_config (Some "tok") None false in
  let env := demo_env (ok_reply base_offer) (ok_reply deployment_42) zeros_downloaded true in
  loop_running due_data = true
  /\ fst (g_main_loop_run cfg env false 3 due_data idle_state) = None.
Proof.
  cbv zeta. split; [reflexivity |].
  apply (proj2 (service_loop_never_quits (demo_config (Some "tok") None false)
                  (demo_env (ok_reply base_offer) (ok_reply deployment_42)
                     zeros_downloaded true) 3 idle_state)).
  reflexivity.
Defined.

